(** * blrec: the record task manager (src/blrec/task/task_manager.py)

    A shallow embedding of [RecordTaskManager] and the properties of its
    registry, its readiness-gated lookup, the creation sequence with its
    retry policy, the bulk fan-outs and the settings appliers.

    The manager is stateful and every method may raise, so methods are
    embedded as computations in a state-and-exception monad over the
    manager's state.  Python mutations are not rolled back when an exception
    propagates, hence a raised outcome still carries the state reached.

    Execution model.  One manager method runs at a time, and the
    coroutines handed to [asyncio.wait] are run one after the other, in the
    order of the list.  A job-level call may raise an error (an instance of
    [Exception]) or [asyncio.CancelledError], which from Python 3.8 on is a
    [BaseException] only: it is what the method sees at an [await] when its
    caller is cancelled there, and [except Exception] does not catch it.
    Cancellation of a caller that is suspended in [asyncio.wait] itself or
    in the sleep between two attempts of creation, and the [BaseException]s
    that end the interpreter, are outside the model.

    Two things the manager relies on differ between interpreters and jobs and
    are parameters of the embedding: whether [asyncio.wait] accepts coroutine
    objects (Python 3.8 to 3.10) or rejects them (3.11 and later), and what a
    job that is not ready does when one of its configuration attributes is
    assigned. *)

From stdpp Require Import gmap strings list pretty.
From Stdlib Require Import ZArith NArith Lia.

Local Open Scope Z_scope.

(** ** Types declared outside task_manager.py

    The value types the manager only passes along are declared in other
    modules of the package; they are kept abstract. *)

Class TaskModels := {
  UserInfo : Type;
  RoomInfo : Type;
  TaskStatus : Type;
  MetaData : Type;
  StreamProfile : Type;
  VideoFileDetail : Type;
  DanmakuFileDetail : Type;
  CoverSaveStrategy : Type;
  DeleteStrategy : Type;
}.

(** ** Exceptions *)

(** The exception classes the manager names ([asyncio.TimeoutError],
    [aiohttp.ClientError], [ApiRequestError], [NotFoundError]), the built-in
    ones its dictionary and [asyncio.wait] raise, tenacity's [RetryError],
    [asyncio.CancelledError], and any other error class a job may define.  A
    class stands for itself and its subclasses, as [isinstance] and [except]
    see them. *)
Inductive ExnClass :=
| TimeoutError
| ClientError
| ApiRequestError
| NotFoundError
| ValueError
| TypeError
| KeyError
| RetryError
| CancelledError
| OtherError (name : string).

Record Exn := mkExn { exn_class : ExnClass; exn_msg : string }.

(** [isinstance(e, Exception)]: every class above derives from [Exception]
    but [asyncio.CancelledError], which derives from [BaseException] (Python
    3.8 and later). *)
Definition is_Exception (e : Exn) : bool :=
  match exn_class e with
  | CancelledError => false
  | _ => true
  end.

#[global] Instance ExnClass_eq_dec : EqDecision ExnClass.
Proof. solve_decision. Defined.

#[global] Instance Exn_eq_dec : EqDecision Exn.
Proof. solve_decision. Defined.

(** How a computation ends: it returns a value or raises.  [Unfinished] is
    the outcome of a retry loop that was cut off by its iteration bound; no
    handler catches it.  ([add_task_finishes] shows that it never arises.) *)
Inductive Outcome (A : Type) :=
| Returned (a : A)
| Raised (e : Exn)
| Unfinished.
Arguments Returned {A} a.
Arguments Raised {A} e.
Arguments Unfinished {A}.

(** ** Settings bundles (blrec.setting) *)

Module HeaderSettings.
Record t := mk { user_agent : string; cookie : string }.
End HeaderSettings.

Module OutputSettings.
Record t := mk {
  out_dir : string;
  path_template : string;
  filesize_limit : Z;
  duration_limit : Z;
}.
End OutputSettings.

Module DanmakuSettings.
Record t := mk {
  danmu_uname : bool;
  record_gift_send : bool;
  record_free_gifts : bool;
  record_guard_buy : bool;
  record_super_chat : bool;
  save_raw_danmaku : bool;
}.
End DanmakuSettings.

Module RecorderSettings.
Record t `{TaskModels} := mk {
  stream_format : string;
  quality_number : Z;
  fmp4_stream_timeout : Z;
  read_timeout : Z;
  disconnection_timeout : option Z;
  buffer_size : Z;
  save_cover : bool;
  cover_save_strategy : CoverSaveStrategy;
}.
End RecorderSettings.

Module PostprocessingSettings.
Record t `{TaskModels} := mk {
  remux_to_mp4 : bool;
  inject_extra_metadata : bool;
  delete_source : DeleteStrategy;
}.
End PostprocessingSettings.

Module TaskSettings.
Record t `{TaskModels} := mk {
  room_id : Z;
  header : HeaderSettings.t;
  output : OutputSettings.t;
  danmaku : DanmakuSettings.t;
  recorder : RecorderSettings.t;
  postprocessing : PostprocessingSettings.t;
  enable_monitor : bool;
  enable_recorder : bool;
}.
End TaskSettings.

(** ** The job handle (blrec.task.task.RecordTask)

    The manager reads and writes the attributes below.  The writable
    configuration attributes are grouped by the applier that assigns them:
    [header] holds [user_agent] and [cookie], [output] the four attributes
    [apply_task_output_settings] assigns, and so on; every attribute is
    stored independently of the others and has a setter of its own. *)

(** The names of the configuration attributes.  [user_agent] and [cookie]
    are the connection identity of the job. *)
Module Attr.
Inductive t :=
| user_agent
| cookie
| out_dir
| path_template
| filesize_limit
| duration_limit
| danmu_uname
| record_gift_send
| record_free_gifts
| record_guard_buy
| record_super_chat
| save_raw_danmaku
| stream_format
| quality_number
| fmp4_stream_timeout
| read_timeout
| disconnection_timeout
| buffer_size
| save_cover
| cover_save_strategy
| remux_to_mp4
| inject_extra_metadata
| delete_source.

Definition is_identity (a : t) : bool :=
  match a with
  | user_agent | cookie => true
  | _ => false
  end.
End Attr.

Module RecordTask.
Record t `{TaskModels} := mk {
  ready : bool;
  user_info : UserInfo;
  room_info : RoomInfo;
  status : TaskStatus;
  metadata : option MetaData;
  stream_profile : StreamProfile;
  video_file_details : list VideoFileDetail;
  danmaku_file_details : list DanmakuFileDetail;
  header : HeaderSettings.t;
  output : OutputSettings.t;
  danmaku : DanmakuSettings.t;
  recorder : RecorderSettings.t;
  postprocessing : PostprocessingSettings.t;
}.

Section Attributes.
Context `{TaskModels}.

Definition user_agent (task : t) : string :=
  HeaderSettings.user_agent (header task).
Definition cookie (task : t) : string :=
  HeaderSettings.cookie (header task).

Definition set_header (v : HeaderSettings.t) (task : t) : t :=
  mk _ (ready task) (user_info task) (room_info task) (status task)
    (metadata task) (stream_profile task) (video_file_details task)
    (danmaku_file_details task)
    v (output task) (danmaku task) (recorder task) (postprocessing task).

Definition set_user_agent (v : string) (task : t) : t :=
  set_header (HeaderSettings.mk v (cookie task)) task.
Definition set_cookie (v : string) (task : t) : t :=
  set_header (HeaderSettings.mk (user_agent task) v) task.

Definition set_output (v : OutputSettings.t) (task : t) : t :=
  mk _ (ready task) (user_info task) (room_info task) (status task)
    (metadata task) (stream_profile task) (video_file_details task)
    (danmaku_file_details task)
    (header task) v (danmaku task) (recorder task) (postprocessing task).

Definition set_danmaku (v : DanmakuSettings.t) (task : t) : t :=
  mk _ (ready task) (user_info task) (room_info task) (status task)
    (metadata task) (stream_profile task) (video_file_details task)
    (danmaku_file_details task)
    (header task) (output task) v (recorder task) (postprocessing task).

Definition set_recorder (v : RecorderSettings.t) (task : t) : t :=
  mk _ (ready task) (user_info task) (room_info task) (status task)
    (metadata task) (stream_profile task) (video_file_details task)
    (danmaku_file_details task)
    (header task) (output task) (danmaku task) v (postprocessing task).

Definition set_postprocessing (v : PostprocessingSettings.t) (task : t) : t :=
  mk _ (ready task) (user_info task) (room_info task) (status task)
    (metadata task) (stream_profile task) (video_file_details task)
    (danmaku_file_details task)
    (header task) (output task) (danmaku task) (recorder task) v.

(** One setter per attribute: [task.out_dir = v], and so on. *)

Definition set_out_dir (v : string) (task : t) : t :=
  let s := output task in
  set_output
    {| OutputSettings.out_dir := v;
       OutputSettings.path_template := OutputSettings.path_template s;
       OutputSettings.filesize_limit := OutputSettings.filesize_limit s;
       OutputSettings.duration_limit := OutputSettings.duration_limit s |}
    task.

Definition set_path_template (v : string) (task : t) : t :=
  let s := output task in
  set_output
    {| OutputSettings.out_dir := OutputSettings.out_dir s;
       OutputSettings.path_template := v;
       OutputSettings.filesize_limit := OutputSettings.filesize_limit s;
       OutputSettings.duration_limit := OutputSettings.duration_limit s |}
    task.

Definition set_filesize_limit (v : Z) (task : t) : t :=
  let s := output task in
  set_output
    {| OutputSettings.out_dir := OutputSettings.out_dir s;
       OutputSettings.path_template := OutputSettings.path_template s;
       OutputSettings.filesize_limit := v;
       OutputSettings.duration_limit := OutputSettings.duration_limit s |}
    task.

Definition set_duration_limit (v : Z) (task : t) : t :=
  let s := output task in
  set_output
    {| OutputSettings.out_dir := OutputSettings.out_dir s;
       OutputSettings.path_template := OutputSettings.path_template s;
       OutputSettings.filesize_limit := OutputSettings.filesize_limit s;
       OutputSettings.duration_limit := v |}
    task.

Definition set_danmu_uname (v : bool) (task : t) : t :=
  let s := danmaku task in
  set_danmaku
    {| DanmakuSettings.danmu_uname := v;
       DanmakuSettings.record_gift_send := DanmakuSettings.record_gift_send s;
       DanmakuSettings.record_free_gifts :=
         DanmakuSettings.record_free_gifts s;
       DanmakuSettings.record_guard_buy := DanmakuSettings.record_guard_buy s;
       DanmakuSettings.record_super_chat :=
         DanmakuSettings.record_super_chat s;
       DanmakuSettings.save_raw_danmaku := DanmakuSettings.save_raw_danmaku s |}
    task.

Definition set_record_gift_send (v : bool) (task : t) : t :=
  let s := danmaku task in
  set_danmaku
    {| DanmakuSettings.danmu_uname := DanmakuSettings.danmu_uname s;
       DanmakuSettings.record_gift_send := v;
       DanmakuSettings.record_free_gifts :=
         DanmakuSettings.record_free_gifts s;
       DanmakuSettings.record_guard_buy := DanmakuSettings.record_guard_buy s;
       DanmakuSettings.record_super_chat :=
         DanmakuSettings.record_super_chat s;
       DanmakuSettings.save_raw_danmaku := DanmakuSettings.save_raw_danmaku s |}
    task.

Definition set_record_free_gifts (v : bool) (task : t) : t :=
  let s := danmaku task in
  set_danmaku
    {| DanmakuSettings.danmu_uname := DanmakuSettings.danmu_uname s;
       DanmakuSettings.record_gift_send := DanmakuSettings.record_gift_send s;
       DanmakuSettings.record_free_gifts := v;
       DanmakuSettings.record_guard_buy := DanmakuSettings.record_guard_buy s;
       DanmakuSettings.record_super_chat :=
         DanmakuSettings.record_super_chat s;
       DanmakuSettings.save_raw_danmaku := DanmakuSettings.save_raw_danmaku s |}
    task.

Definition set_record_guard_buy (v : bool) (task : t) : t :=
  let s := danmaku task in
  set_danmaku
    {| DanmakuSettings.danmu_uname := DanmakuSettings.danmu_uname s;
       DanmakuSettings.record_gift_send := DanmakuSettings.record_gift_send s;
       DanmakuSettings.record_free_gifts :=
         DanmakuSettings.record_free_gifts s;
       DanmakuSettings.record_guard_buy := v;
       DanmakuSettings.record_super_chat :=
         DanmakuSettings.record_super_chat s;
       DanmakuSettings.save_raw_danmaku := DanmakuSettings.save_raw_danmaku s |}
    task.

Definition set_record_super_chat (v : bool) (task : t) : t :=
  let s := danmaku task in
  set_danmaku
    {| DanmakuSettings.danmu_uname := DanmakuSettings.danmu_uname s;
       DanmakuSettings.record_gift_send := DanmakuSettings.record_gift_send s;
       DanmakuSettings.record_free_gifts :=
         DanmakuSettings.record_free_gifts s;
       DanmakuSettings.record_guard_buy := DanmakuSettings.record_guard_buy s;
       DanmakuSettings.record_super_chat := v;
       DanmakuSettings.save_raw_danmaku := DanmakuSettings.save_raw_danmaku s |}
    task.

Definition set_save_raw_danmaku (v : bool) (task : t) : t :=
  let s := danmaku task in
  set_danmaku
    {| DanmakuSettings.danmu_uname := DanmakuSettings.danmu_uname s;
       DanmakuSettings.record_gift_send := DanmakuSettings.record_gift_send s;
       DanmakuSettings.record_free_gifts :=
         DanmakuSettings.record_free_gifts s;
       DanmakuSettings.record_guard_buy := DanmakuSettings.record_guard_buy s;
       DanmakuSettings.record_super_chat :=
         DanmakuSettings.record_super_chat s;
       DanmakuSettings.save_raw_danmaku := v |}
    task.

Definition set_stream_format (v : string) (task : t) : t :=
  let s := recorder task in
  set_recorder
    {| RecorderSettings.stream_format := v;
       RecorderSettings.quality_number := RecorderSettings.quality_number s;
       RecorderSettings.fmp4_stream_timeout :=
         RecorderSettings.fmp4_stream_timeout s;
       RecorderSettings.read_timeout := RecorderSettings.read_timeout s;
       RecorderSettings.disconnection_timeout :=
         RecorderSettings.disconnection_timeout s;
       RecorderSettings.buffer_size := RecorderSettings.buffer_size s;
       RecorderSettings.save_cover := RecorderSettings.save_cover s;
       RecorderSettings.cover_save_strategy :=
         RecorderSettings.cover_save_strategy s |}
    task.

Definition set_quality_number (v : Z) (task : t) : t :=
  let s := recorder task in
  set_recorder
    {| RecorderSettings.stream_format := RecorderSettings.stream_format s;
       RecorderSettings.quality_number := v;
       RecorderSettings.fmp4_stream_timeout :=
         RecorderSettings.fmp4_stream_timeout s;
       RecorderSettings.read_timeout := RecorderSettings.read_timeout s;
       RecorderSettings.disconnection_timeout :=
         RecorderSettings.disconnection_timeout s;
       RecorderSettings.buffer_size := RecorderSettings.buffer_size s;
       RecorderSettings.save_cover := RecorderSettings.save_cover s;
       RecorderSettings.cover_save_strategy :=
         RecorderSettings.cover_save_strategy s |}
    task.

Definition set_fmp4_stream_timeout (v : Z) (task : t) : t :=
  let s := recorder task in
  set_recorder
    {| RecorderSettings.stream_format := RecorderSettings.stream_format s;
       RecorderSettings.quality_number := RecorderSettings.quality_number s;
       RecorderSettings.fmp4_stream_timeout := v;
       RecorderSettings.read_timeout := RecorderSettings.read_timeout s;
       RecorderSettings.disconnection_timeout :=
         RecorderSettings.disconnection_timeout s;
       RecorderSettings.buffer_size := RecorderSettings.buffer_size s;
       RecorderSettings.save_cover := RecorderSettings.save_cover s;
       RecorderSettings.cover_save_strategy :=
         RecorderSettings.cover_save_strategy s |}
    task.

Definition set_read_timeout (v : Z) (task : t) : t :=
  let s := recorder task in
  set_recorder
    {| RecorderSettings.stream_format := RecorderSettings.stream_format s;
       RecorderSettings.quality_number := RecorderSettings.quality_number s;
       RecorderSettings.fmp4_stream_timeout :=
         RecorderSettings.fmp4_stream_timeout s;
       RecorderSettings.read_timeout := v;
       RecorderSettings.disconnection_timeout :=
         RecorderSettings.disconnection_timeout s;
       RecorderSettings.buffer_size := RecorderSettings.buffer_size s;
       RecorderSettings.save_cover := RecorderSettings.save_cover s;
       RecorderSettings.cover_save_strategy :=
         RecorderSettings.cover_save_strategy s |}
    task.

Definition set_disconnection_timeout (v : option Z) (task : t) : t :=
  let s := recorder task in
  set_recorder
    {| RecorderSettings.stream_format := RecorderSettings.stream_format s;
       RecorderSettings.quality_number := RecorderSettings.quality_number s;
       RecorderSettings.fmp4_stream_timeout :=
         RecorderSettings.fmp4_stream_timeout s;
       RecorderSettings.read_timeout := RecorderSettings.read_timeout s;
       RecorderSettings.disconnection_timeout := v;
       RecorderSettings.buffer_size := RecorderSettings.buffer_size s;
       RecorderSettings.save_cover := RecorderSettings.save_cover s;
       RecorderSettings.cover_save_strategy :=
         RecorderSettings.cover_save_strategy s |}
    task.

Definition set_buffer_size (v : Z) (task : t) : t :=
  let s := recorder task in
  set_recorder
    {| RecorderSettings.stream_format := RecorderSettings.stream_format s;
       RecorderSettings.quality_number := RecorderSettings.quality_number s;
       RecorderSettings.fmp4_stream_timeout :=
         RecorderSettings.fmp4_stream_timeout s;
       RecorderSettings.read_timeout := RecorderSettings.read_timeout s;
       RecorderSettings.disconnection_timeout :=
         RecorderSettings.disconnection_timeout s;
       RecorderSettings.buffer_size := v;
       RecorderSettings.save_cover := RecorderSettings.save_cover s;
       RecorderSettings.cover_save_strategy :=
         RecorderSettings.cover_save_strategy s |}
    task.

Definition set_save_cover (v : bool) (task : t) : t :=
  let s := recorder task in
  set_recorder
    {| RecorderSettings.stream_format := RecorderSettings.stream_format s;
       RecorderSettings.quality_number := RecorderSettings.quality_number s;
       RecorderSettings.fmp4_stream_timeout :=
         RecorderSettings.fmp4_stream_timeout s;
       RecorderSettings.read_timeout := RecorderSettings.read_timeout s;
       RecorderSettings.disconnection_timeout :=
         RecorderSettings.disconnection_timeout s;
       RecorderSettings.buffer_size := RecorderSettings.buffer_size s;
       RecorderSettings.save_cover := v;
       RecorderSettings.cover_save_strategy :=
         RecorderSettings.cover_save_strategy s |}
    task.

Definition set_cover_save_strategy (v : CoverSaveStrategy) (task : t) : t :=
  let s := recorder task in
  set_recorder
    {| RecorderSettings.stream_format := RecorderSettings.stream_format s;
       RecorderSettings.quality_number := RecorderSettings.quality_number s;
       RecorderSettings.fmp4_stream_timeout :=
         RecorderSettings.fmp4_stream_timeout s;
       RecorderSettings.read_timeout := RecorderSettings.read_timeout s;
       RecorderSettings.disconnection_timeout :=
         RecorderSettings.disconnection_timeout s;
       RecorderSettings.buffer_size := RecorderSettings.buffer_size s;
       RecorderSettings.save_cover := RecorderSettings.save_cover s;
       RecorderSettings.cover_save_strategy := v |}
    task.

Definition set_remux_to_mp4 (v : bool) (task : t) : t :=
  let s := postprocessing task in
  set_postprocessing
    {| PostprocessingSettings.remux_to_mp4 := v;
       PostprocessingSettings.inject_extra_metadata :=
         PostprocessingSettings.inject_extra_metadata s;
       PostprocessingSettings.delete_source :=
         PostprocessingSettings.delete_source s |}
    task.

Definition set_inject_extra_metadata (v : bool) (task : t) : t :=
  let s := postprocessing task in
  set_postprocessing
    {| PostprocessingSettings.remux_to_mp4 :=
         PostprocessingSettings.remux_to_mp4 s;
       PostprocessingSettings.inject_extra_metadata := v;
       PostprocessingSettings.delete_source :=
         PostprocessingSettings.delete_source s |}
    task.

Definition set_delete_source (v : DeleteStrategy) (task : t) : t :=
  let s := postprocessing task in
  set_postprocessing
    {| PostprocessingSettings.remux_to_mp4 :=
         PostprocessingSettings.remux_to_mp4 s;
       PostprocessingSettings.inject_extra_metadata :=
         PostprocessingSettings.inject_extra_metadata s;
       PostprocessingSettings.delete_source := v |}
    task.
End Attributes.
End RecordTask.

(** The snapshots built by [_make_task_param] and [_make_task_data]
    (blrec.task.models). *)

Module TaskParam.
Record t `{TaskModels} := mk {
  out_dir : string;
  path_template : string;
  filesize_limit : Z;
  duration_limit : Z;
  user_agent : string;
  cookie : string;
  danmu_uname : bool;
  record_gift_send : bool;
  record_free_gifts : bool;
  record_guard_buy : bool;
  record_super_chat : bool;
  save_cover : bool;
  cover_save_strategy : CoverSaveStrategy;
  save_raw_danmaku : bool;
  stream_format : string;
  quality_number : Z;
  fmp4_stream_timeout : Z;
  read_timeout : Z;
  disconnection_timeout : option Z;
  buffer_size : Z;
  remux_to_mp4 : bool;
  inject_extra_metadata : bool;
  delete_source : DeleteStrategy;
}.
End TaskParam.

Module TaskData.
Record t `{TaskModels} := mk {
  user_info : UserInfo;
  room_info : RoomInfo;
  task_status : TaskStatus;
}.
End TaskData.

(** ** Job-level calls

    The methods of [RecordTask] the manager invokes.  A job handle is an
    object: the registry and the local variables of a method refer to it,
    so handles live in an object store and are named by references. *)

Module Job.
Inductive call :=
| setup
| destroy
| enable_monitor
| disable_monitor
| enable_recorder
| disable_recorder (force : bool)
| update_info
| update_session
| can_cut_stream
| cut_stream.

#[global] Instance call_eq_dec : EqDecision call.
Proof. solve_decision. Defined.

(** What one call does: the attributes of the handle afterwards, the
    exception it raised if any, the boolean it returned (read for the two
    stream-cut calls only) and the time it took. *)
Record reply `{TaskModels} := mkReply {
  after : RecordTask.t;
  raised : option Exn;
  answer : bool;
  took : N;
}.
End Job.

Abbreviation Ref := nat (only parsing).

(** A job-level call as it appears in the call history: the handle it was
    made on and the method. *)
Abbreviation Event := (nat * Job.call)%type (only parsing).

(** ** Logging *)

Inductive LogLevel := INFO | ERROR.

Inductive LogMessage :=
| LoadingAllTasks                            (* 'Loading all tasks...' *)
| LoadAllTasksComplete                       (* 'Load all tasks complete' *)
| DestroyingAllTasks                         (* 'Destroying all tasks...' *)
| DestroyedAllTask                           (* 'Successfully destroyed all task' *)
| AddingTask (room_id : Z)                   (* f'Adding task {room_id}...' *)
| FailedToAddTask (room_id : Z) (e : Exn)    (* f'Failed to add task {room_id} due to: {repr(e)}' *)
| AddedTask (room_id : Z).                   (* f'Successfully added task {room_id}' *)

Abbreviation LogRecord := (LogLevel * LogMessage)%type (only parsing).

(** ** The interpreter

    [asyncio.wait(fs)] is given coroutine objects by every bulk operation.
    Python 3.8 to 3.10 wrap each coroutine in a task and wait for the tasks
    (deprecated since 3.8); Python 3.11 and later refuse coroutine objects
    with a [TypeError]. *)

Module Python.
Inductive version :=
| upto_3_10     (* Python 3.8, 3.9, 3.10 *)
| from_3_11.    (* Python 3.11 and later *)
End Python.

(** ** The collaborators

    [RecordTask_init] is the constructor [RecordTask(room_id)] and [job]
    the behaviour of the job handles: both are defined in blrec.task.task.
    A job's reply may depend on the whole history of job-level calls.

    [RecordTask_setattr] is what the setter of a configuration attribute
    does on a job that is not ready: the exception it raises, if it raises
    one (a job that has not been set up lacks the parts most attributes
    are kept in).  [python] is the interpreter the manager runs on.

    The settings manager (blrec.setting) is not part of task_manager.py
    either.  [settings_list] is what [get_settings({'tasks'}).tasks]
    returns; the [final_*] functions give the bundle in force for a room,
    derived from the bundle of the room's task settings, or the exception
    raised while deriving it. *)

Module SettingsManager.
Record t `{TaskModels} := mk {
  settings_list : list TaskSettings.t;
  final_header : Z -> HeaderSettings.t -> Exn + HeaderSettings.t;
  final_output : Z -> OutputSettings.t -> Exn + OutputSettings.t;
  final_danmaku : Z -> DanmakuSettings.t -> Exn + DanmakuSettings.t;
  final_recorder : Z -> RecorderSettings.t -> Exn + RecorderSettings.t;
  final_postprocessing :
    Z -> PostprocessingSettings.t -> Exn + PostprocessingSettings.t;
}.
End SettingsManager.

Record Env `{TaskModels} := mkEnv {
  python : Python.version;
  RecordTask_init : Z -> RecordTask.t;
  job : list Event -> Ref -> Job.call -> RecordTask.t -> Job.reply;
  RecordTask_setattr :
    list Event -> Ref -> Attr.t -> RecordTask.t -> option Exn;
  _settings_manager : SettingsManager.t;
}.

(** ** The manager's state

    [_tasks] is the dictionary [self._tasks].  [objects] is the object
    store and [next_ref] the next unused reference.  [calls] is the history
    of job-level calls, oldest first; [logs] what was sent to the logger;
    [submitted] what was handed to [submit_exception]; [clock] the
    monotonic clock, in milliseconds. *)

Record Manager `{TaskModels} := mkManager {
  _tasks : gmap Z Ref;
  objects : Ref -> RecordTask.t;
  next_ref : Ref;
  calls : list Event;
  logs : list LogRecord;
  submitted : list Exn;
  clock : N;
}.

(** ** The state-and-exception monad *)

Section Monad.
Context `{TaskModels}.

Definition M (A : Type) : Type := Manager -> Outcome A * Manager.

Definition ret {A} (a : A) : M A := fun st => (Returned a, st).

Definition raise {A} (e : Exn) : M A := fun st => (Raised e, st).

Definition bind {A B} (m : M A) (k : A -> M B) : M B :=
  fun st =>
    match m st with
    | (Returned a, st') => k a st'
    | (Raised e, st') => (Raised e, st')
    | (Unfinished, st') => (Unfinished, st')
    end.

(** [try: m except Exception as e: h e].  The handler gets the instances
    of [Exception]; anything else that [m] raises is not caught. *)
Definition try_except {A} (m : M A) (h : Exn -> M A) : M A :=
  fun st =>
    match m st with
    | (Returned a, st') => (Returned a, st')
    | (Raised e, st') => if is_Exception e then h e st' else (Raised e, st')
    | (Unfinished, st') => (Unfinished, st')
    end.

Definition get : M Manager := fun st => (Returned st, st).

Definition modify (f : Manager -> Manager) : M unit :=
  fun st => (Returned tt, f st).
End Monad.

Notation "'let*' x ':=' m 'in' k" := (bind m (fun x => k))
  (at level 10, x name, m at level 100, k at level 200).
Notation "m1 ';;' m2" := (bind m1 (fun _ => m2))
  (at level 100, m2 at level 200, right associativity).

(** ** Primitive effects *)

Section Primitives.
Context `{TaskModels} (env : Env).

Definition set_tasks (d : gmap Z Ref) (st : Manager) : Manager :=
  mkManager _ d (objects st) (next_ref st) (calls st) (logs st)
    (submitted st) (clock st).

Definition set_object (r : Ref) (task : RecordTask.t) (st : Manager)
  : Manager :=
  mkManager _ (_tasks st)
    (fun r' => if decide (r' = r) then task else objects st r')
    (next_ref st) (calls st) (logs st) (submitted st) (clock st).

Definition with_log (r : LogRecord) (st : Manager) : Manager :=
  mkManager _ (_tasks st) (objects st) (next_ref st) (calls st)
    (logs st ++ [r]) (submitted st) (clock st).

Definition with_submitted (e : Exn) (st : Manager) : Manager :=
  mkManager _ (_tasks st) (objects st) (next_ref st) (calls st) (logs st)
    (submitted st ++ [e]) (clock st).

Definition later (d : N) (st : Manager) : Manager :=
  mkManager _ (_tasks st) (objects st) (next_ref st) (calls st) (logs st)
    (submitted st) (clock st + d)%N.

(** The logger: [logger.info] and [logger.error]. *)
Definition logger (level : LogLevel) (msg : LogMessage) : M unit :=
  modify (with_log (level, msg)).

(** [submit_exception(e)] hands [e] to the exception center. *)
Definition submit_exception (e : Exn) : M unit :=
  modify (with_submitted e).

(** [asyncio.sleep(d)]: the caller is suspended for [d] milliseconds. *)
Definition sleep (d : N) : M unit :=
  modify (later d).

(** [RecordTask(room_id)]: a new object in the store. *)
Definition new_RecordTask (room_id : Z) : M Ref :=
  fun st =>
    let r := next_ref st in
    (Returned r,
     mkManager _ (_tasks st)
       (fun r' => if decide (r' = r) then RecordTask_init env room_id
                  else objects st r')
       (S r) (calls st) (logs st) (submitted st) (clock st)).

(** Reading the attributes of a handle. *)
Definition attrs (task : Ref) : M RecordTask.t :=
  fun st => (Returned (objects st task), st).

(** Modelled from the spec: [task.<a> = v], with [f] the setter of [a]
    applied to [v]; the setters are [RecordTask]'s and not part of
    task_manager.py.  A job is "safe to operate on" once it is ready, and
    its session, which carries the connection identity, is "fresh at
    construction time" ([add_task] assigns the identity before [setup]):
    these assignments go through.  Any other assignment is made to a job
    that is not ready and "may fail with a job-defined error":
    [RecordTask_setattr] says what the job raises, if anything, and an
    assignment that raises leaves the attribute as it was. *)
Definition assign (task : Ref) (a : Attr.t)
    (f : RecordTask.t -> RecordTask.t) : M unit :=
  fun st =>
    let t := objects st task in
    let refused :=
      if Attr.is_identity a || RecordTask.ready t then None
      else RecordTask_setattr env (calls st) task a t in
    match refused with
    | Some e => (Raised e, st)
    | None => (Returned tt, set_object task (f t) st)
    end.

(** [await task.<call>(...)]: the call is recorded, the handle and the
    clock are updated as the job replies, and the job's exception, if
    any, propagates. *)
Definition await (task : Ref) (c : Job.call) : M bool :=
  fun st =>
    let reply := job env (calls st) task c (objects st task) in
    let st' :=
      mkManager _ (_tasks st)
        (fun r' => if decide (r' = task) then Job.after reply
                   else objects st r')
        (next_ref st) (calls st ++ [(task, c)]) (logs st) (submitted st)
        (clock st + Job.took reply)%N in
    match Job.raised reply with
    | Some e => (Raised e, st')
    | None => (Returned (Job.answer reply), st')
    end.

(** A coroutine object for a job-level call whose result is dropped. *)
Definition coro (task : Ref) (c : Job.call) : M unit :=
  await task c;; ret tt.

(** [del self._tasks[room_id]] raises [KeyError] on a missing key. *)
Definition del_task (room_id : Z) : M unit :=
  fun st =>
    match _tasks st !! room_id with
    | Some _ => (Returned tt, set_tasks (delete room_id (_tasks st)) st)
    | None => (Raised (mkExn KeyError (pretty room_id)), st)
    end.

(** A coroutine run as a task of its own: what it raises, an error or
    [CancelledError], stays in the task and is not raised to the one who
    waits for it. *)
Definition completed (c : M unit) : M unit :=
  fun st =>
    match c st with
    | (Unfinished, st') => (Unfinished, st')
    | (_, st') => (Returned tt, st')
    end.

(** [asyncio.wait(fs)], given a list of coroutine objects as the manager
    gives it.  It raises [ValueError] when [fs] is empty.  Otherwise, up
    to Python 3.10 it wraps every coroutine in a task, waits until all
    tasks are done and returns the sets of done and pending tasks, which
    the manager drops; from Python 3.11 on it raises [TypeError] and no
    coroutine is ever run.

    The tasks run concurrently.  Here they are run one after the other in
    the order of the list, which is one of the orders they may run in when
    no call suspends; the clock then advances by the sum of the times the
    calls take, not by the longest of them. *)
Definition asyncio_wait (fs : list (M unit)) : M unit :=
  match fs with
  | [] =>
      raise (mkExn ValueError
               match python env with
               | Python.upto_3_10 => "Set of coroutines/Futures is empty."
               | Python.from_3_11 => "Set of Tasks/Futures is empty."
               end)
  | _ =>
      match python env with
      | Python.upto_3_10 => foldr (fun c k => completed c;; k) (ret tt) fs
      | Python.from_3_11 =>
          raise (mkExn TypeError
                   "Passing coroutines is forbidden, use tasks explicitly.")
      end
  end.

(** The entries of [self._tasks] whose job is ready, as [(room_id, task)]
    pairs: [... for i, t in self._tasks.items() if t.ready].  The entries
    come in the order of [map_to_list], not in the dictionary's insertion
    order; nothing below depends on the order. *)
Definition ready_items (st : Manager) : list (Z * Ref) :=
  List.filter (fun it => RecordTask.ready (objects st it.2))
    (map_to_list (_tasks st)).
End Primitives.

(** ** tenacity: the retry decorator

    [retry(reraise, retry, wait, stop)] as [add_task] uses it.  The loop
    catches whatever an attempt raises ([except BaseException]).  After a
    failed attempt it asks [retry] whether the exception is one to retry;
    if not, the exception is raised as it is.  Otherwise it asks
    [stop], which is given the time since the decorated call began; when
    [stop] says so the loop ends, raising the last attempt's exception
    itself if [reraise] is set and a [RetryError] otherwise.  Else it sleeps
    for [wait attempt_number] and makes the next attempt.  Times are in
    milliseconds; tenacity's arguments are seconds. *)

Section Tenacity.
Context `{TaskModels}.

Definition second : N := 1000.

(** [retry_if_exception_type(types)] *)
Definition retry_if_exception_type (types : list ExnClass) (e : Exn)
  : bool :=
  bool_decide (exn_class e ∈ types).

(** [wait_exponential(multiplier=1, max=max, exp_base=2, min=0)]:
    [multiplier * exp_base ** (attempt_number - 1)] seconds, at most
    [max]. *)
Definition wait_exponential (max : N) (attempt_number : nat) : N :=
  N.min (2 ^ N.of_nat (attempt_number - 1) * second) (max * second).

(** [stop_after_delay(max_delay)] *)
Definition stop_after_delay (max_delay : N) (seconds_since_start : N)
  : bool :=
  (max_delay * second <=? seconds_since_start)%N.

Fixpoint retrying {A} (fuel : nat) (reraise : bool)
    (retry : Exn -> bool) (wait : nat -> N) (stop : N -> bool)
    (start_time : N) (attempt_number : nat) (fn : M A) : M A :=
  fun st =>
    match fn st with
    | (Raised e, st1) =>
        if retry e then
          if stop (clock st1 - start_time)%N then
            if reraise then (Raised e, st1)
            else (Raised (mkExn RetryError (exn_msg e)), st1)
          else
            match fuel with
            | O => (Unfinished, st1)
            | S fuel' =>
                (sleep (wait attempt_number);;
                 retrying fuel' reraise retry wait stop start_time
                   (S attempt_number) fn) st1
            end
        else (Raised e, st1)
    | finished => finished
    end.

Definition retry {A} (fuel : nat) (reraise : bool) (retry : Exn -> bool)
    (wait : nat -> N) (stop : N -> bool) (fn : M A) : M A :=
  fun st => retrying fuel reraise retry wait stop (clock st) 1 fn st.
End Tenacity.

(** ** RecordTaskManager *)

Section RecordTaskManager.
Context `{TaskModels} (env : Env).

Definition has_task (room_id : Z) (st : Manager) : bool :=
  bool_decide (is_Some (_tasks st !! room_id)).

Definition _get_task (room_id : Z) (check_ready : bool) : M Ref :=
  let* st := get in
  match _tasks st !! room_id with
  | None =>
      raise (mkExn NotFoundError ("no task for the room " +:+ pretty room_id))
  | Some task =>
      let* t := attrs task in
      if check_ready && negb (RecordTask.ready t) then
        raise (mkExn NotFoundError
                 ("the task " +:+ pretty room_id +:+ " is not ready yet"))
      else ret task
  end.

Definition _make_task_param (t : RecordTask.t) : TaskParam.t :=
  {| TaskParam.out_dir := OutputSettings.out_dir (RecordTask.output t);
     TaskParam.path_template :=
       OutputSettings.path_template (RecordTask.output t);
     TaskParam.filesize_limit :=
       OutputSettings.filesize_limit (RecordTask.output t);
     TaskParam.duration_limit :=
       OutputSettings.duration_limit (RecordTask.output t);
     TaskParam.user_agent := RecordTask.user_agent t;
     TaskParam.cookie := RecordTask.cookie t;
     TaskParam.danmu_uname :=
       DanmakuSettings.danmu_uname (RecordTask.danmaku t);
     TaskParam.record_gift_send :=
       DanmakuSettings.record_gift_send (RecordTask.danmaku t);
     TaskParam.record_free_gifts :=
       DanmakuSettings.record_free_gifts (RecordTask.danmaku t);
     TaskParam.record_guard_buy :=
       DanmakuSettings.record_guard_buy (RecordTask.danmaku t);
     TaskParam.record_super_chat :=
       DanmakuSettings.record_super_chat (RecordTask.danmaku t);
     TaskParam.save_cover :=
       RecorderSettings.save_cover (RecordTask.recorder t);
     TaskParam.cover_save_strategy :=
       RecorderSettings.cover_save_strategy (RecordTask.recorder t);
     TaskParam.save_raw_danmaku :=
       DanmakuSettings.save_raw_danmaku (RecordTask.danmaku t);
     TaskParam.stream_format :=
       RecorderSettings.stream_format (RecordTask.recorder t);
     TaskParam.quality_number :=
       RecorderSettings.quality_number (RecordTask.recorder t);
     TaskParam.fmp4_stream_timeout :=
       RecorderSettings.fmp4_stream_timeout (RecordTask.recorder t);
     TaskParam.read_timeout :=
       RecorderSettings.read_timeout (RecordTask.recorder t);
     TaskParam.disconnection_timeout :=
       RecorderSettings.disconnection_timeout (RecordTask.recorder t);
     TaskParam.buffer_size :=
       RecorderSettings.buffer_size (RecordTask.recorder t);
     TaskParam.remux_to_mp4 :=
       PostprocessingSettings.remux_to_mp4 (RecordTask.postprocessing t);
     TaskParam.inject_extra_metadata :=
       PostprocessingSettings.inject_extra_metadata
         (RecordTask.postprocessing t);
     TaskParam.delete_source :=
       PostprocessingSettings.delete_source (RecordTask.postprocessing t) |}.

Definition _make_task_data (t : RecordTask.t) : TaskData.t :=
  {| TaskData.user_info := RecordTask.user_info t;
     TaskData.room_info := RecordTask.room_info t;
     TaskData.task_status := RecordTask.status t |}.

(** *** The settings appliers *)

Definition apply_task_header_settings (room_id : Z)
    (settings : HeaderSettings.t) (update_session : bool) : M unit :=
  let* task := _get_task room_id false in
  let* t := attrs task in
  (* avoid unnecessary updates that will interrupt connections *)
  if bool_decide (RecordTask.user_agent t = HeaderSettings.user_agent settings)
     && bool_decide (RecordTask.cookie t = HeaderSettings.cookie settings)
  then ret tt
  else
    assign env task Attr.user_agent
      (RecordTask.set_user_agent (HeaderSettings.user_agent settings));;
    assign env task Attr.cookie
      (RecordTask.set_cookie (HeaderSettings.cookie settings));;
    if update_session then
      (* update task session to take the effect *)
      await env task Job.update_session;; ret tt
    else ret tt.

Definition apply_task_output_settings (room_id : Z)
    (settings : OutputSettings.t) : M unit :=
  let* task := _get_task room_id false in
  assign env task Attr.out_dir
    (RecordTask.set_out_dir (OutputSettings.out_dir settings));;
  assign env task Attr.path_template
    (RecordTask.set_path_template (OutputSettings.path_template settings));;
  assign env task Attr.filesize_limit
    (RecordTask.set_filesize_limit (OutputSettings.filesize_limit settings));;
  assign env task Attr.duration_limit
    (RecordTask.set_duration_limit (OutputSettings.duration_limit settings)).

Definition apply_task_danmaku_settings (room_id : Z)
    (settings : DanmakuSettings.t) : M unit :=
  let* task := _get_task room_id false in
  assign env task Attr.danmu_uname
    (RecordTask.set_danmu_uname (DanmakuSettings.danmu_uname settings));;
  assign env task Attr.record_gift_send
    (RecordTask.set_record_gift_send
       (DanmakuSettings.record_gift_send settings));;
  assign env task Attr.record_free_gifts
    (RecordTask.set_record_free_gifts
       (DanmakuSettings.record_free_gifts settings));;
  assign env task Attr.record_guard_buy
    (RecordTask.set_record_guard_buy
       (DanmakuSettings.record_guard_buy settings));;
  assign env task Attr.record_super_chat
    (RecordTask.set_record_super_chat
       (DanmakuSettings.record_super_chat settings));;
  assign env task Attr.save_raw_danmaku
    (RecordTask.set_save_raw_danmaku
       (DanmakuSettings.save_raw_danmaku settings)).

Definition apply_task_recorder_settings (room_id : Z)
    (settings : RecorderSettings.t) : M unit :=
  let* task := _get_task room_id false in
  assign env task Attr.stream_format
    (RecordTask.set_stream_format (RecorderSettings.stream_format settings));;
  assign env task Attr.quality_number
    (RecordTask.set_quality_number (RecorderSettings.quality_number settings));;
  assign env task Attr.fmp4_stream_timeout
    (RecordTask.set_fmp4_stream_timeout
       (RecorderSettings.fmp4_stream_timeout settings));;
  assign env task Attr.read_timeout
    (RecordTask.set_read_timeout (RecorderSettings.read_timeout settings));;
  assign env task Attr.disconnection_timeout
    (RecordTask.set_disconnection_timeout
       (RecorderSettings.disconnection_timeout settings));;
  assign env task Attr.buffer_size
    (RecordTask.set_buffer_size (RecorderSettings.buffer_size settings));;
  assign env task Attr.save_cover
    (RecordTask.set_save_cover (RecorderSettings.save_cover settings));;
  assign env task Attr.cover_save_strategy
    (RecordTask.set_cover_save_strategy
       (RecorderSettings.cover_save_strategy settings)).

Definition apply_task_postprocessing_settings (room_id : Z)
    (settings : PostprocessingSettings.t) : M unit :=
  let* task := _get_task room_id false in
  assign env task Attr.remux_to_mp4
    (RecordTask.set_remux_to_mp4
       (PostprocessingSettings.remux_to_mp4 settings));;
  assign env task Attr.inject_extra_metadata
    (RecordTask.set_inject_extra_metadata
       (PostprocessingSettings.inject_extra_metadata settings));;
  assign env task Attr.delete_source
    (RecordTask.set_delete_source
       (PostprocessingSettings.delete_source settings)).

(** *** The settings manager's side of [add_task] *)

(** Modelled from the spec: [SettingsManager.apply_task_header_settings]
    is not part of task_manager.py.  "Apply header configuration to the job
    without forcing a session refresh": it derives the bundle in force for
    the room and hands it to the task manager's applier. *)
Definition sm_apply_task_header_settings (room_id : Z)
    (settings : HeaderSettings.t) (update_session : bool) : M unit :=
  match SettingsManager.final_header (_settings_manager env) room_id settings with
  | inr final => apply_task_header_settings room_id final update_session
  | inl e => raise e
  end.

(** Modelled from the spec: [SettingsManager.apply_task_output_settings]
    is not part of task_manager.py.  "Apply output, chat-capture, recorder,
    and postprocessing configuration": it derives the output bundle in
    force for the room and hands it to the task manager's applier. *)
Definition sm_apply_task_output_settings (room_id : Z)
    (settings : OutputSettings.t) : M unit :=
  match SettingsManager.final_output (_settings_manager env) room_id settings with
  | inr final => apply_task_output_settings room_id final
  | inl e => raise e
  end.

(** Modelled from the spec: [SettingsManager.apply_task_danmaku_settings]
    is not part of task_manager.py.  "Apply output, chat-capture, recorder,
    and postprocessing configuration": it derives the chat-capture bundle in
    force for the room and hands it to the task manager's applier. *)
Definition sm_apply_task_danmaku_settings (room_id : Z)
    (settings : DanmakuSettings.t) : M unit :=
  match SettingsManager.final_danmaku (_settings_manager env) room_id settings with
  | inr final => apply_task_danmaku_settings room_id final
  | inl e => raise e
  end.

(** Modelled from the spec: [SettingsManager.apply_task_recorder_settings]
    is not part of task_manager.py.  "Apply output, chat-capture, recorder,
    and postprocessing configuration": it derives the recorder bundle in
    force for the room and hands it to the task manager's applier. *)
Definition sm_apply_task_recorder_settings (room_id : Z)
    (settings : RecorderSettings.t) : M unit :=
  match SettingsManager.final_recorder (_settings_manager env) room_id settings with
  | inr final => apply_task_recorder_settings room_id final
  | inl e => raise e
  end.

(** Modelled from the spec: [SettingsManager.apply_task_postprocessing_settings]
    is not part of task_manager.py.  "Apply output, chat-capture, recorder,
    and postprocessing configuration": it derives the postprocessing bundle in
    force for the room and hands it to the task manager's applier. *)
Definition sm_apply_task_postprocessing_settings (room_id : Z)
    (settings : PostprocessingSettings.t) : M unit :=
  match SettingsManager.final_postprocessing (_settings_manager env)
          room_id settings with
  | inr final => apply_task_postprocessing_settings room_id final
  | inl e => raise e
  end.

(** *** Creation *)

(** The steps of [add_task] inside its [try]. *)
Definition add_task_steps (settings : TaskSettings.t) (task : Ref)
  : M unit :=
  let room_id := TaskSettings.room_id settings in
  sm_apply_task_header_settings room_id (TaskSettings.header settings) false;;
  await env task Job.setup;;
  sm_apply_task_output_settings room_id (TaskSettings.output settings);;
  sm_apply_task_danmaku_settings room_id (TaskSettings.danmaku settings);;
  sm_apply_task_recorder_settings room_id (TaskSettings.recorder settings);;
  sm_apply_task_postprocessing_settings room_id
    (TaskSettings.postprocessing settings);;
  (if TaskSettings.enable_monitor settings
   then await env task Job.enable_monitor;; ret tt else ret tt);;
  (if TaskSettings.enable_recorder settings
   then await env task Job.enable_recorder;; ret tt else ret tt).

(** The body of [add_task]: one attempt. *)
Definition add_task_attempt (settings : TaskSettings.t) : M unit :=
  let room_id := TaskSettings.room_id settings in
  logger INFO (AddingTask room_id);;
  let* task := new_RecordTask env room_id in
  modify (fun st => set_tasks (<[room_id := task]> (_tasks st)) st);;
  try_except (add_task_steps settings task)
    (fun e =>
       logger ERROR (FailedToAddTask room_id e);;
       del_task room_id;;
       raise e);;
  logger INFO (AddedTask room_id).

(** A bound on the number of retries, used to define the loop by
    structural recursion. *)
Definition retry_fuel : nat := 60.

(** [add_task] as decorated. *)
Definition add_task (settings : TaskSettings.t) : M unit :=
  retry retry_fuel true
    (retry_if_exception_type [TimeoutError; ClientError; ApiRequestError])
    (wait_exponential 10)
    (stop_after_delay 60)
    (add_task_attempt settings).

Definition load_all_tasks : M unit :=
  logger INFO LoadingAllTasks;;
  let settings_list :=
    SettingsManager.settings_list (_settings_manager env) in
  foldr (fun settings rest =>
           try_except (add_task settings) (fun e => submit_exception e);;
           rest)
        (ret tt) settings_list;;
  logger INFO LoadAllTasksComplete.

(** *** Single-room operations *)

Definition remove_task (room_id : Z) : M unit :=
  let* task := _get_task room_id true in
  await env task (Job.disable_recorder true);;
  await env task Job.disable_monitor;;
  await env task Job.destroy;;
  del_task room_id.

Definition start_task (room_id : Z) : M unit :=
  let* task := _get_task room_id true in
  await env task Job.update_info;;
  await env task Job.enable_monitor;;
  await env task Job.enable_recorder;;
  ret tt.

Definition stop_task (room_id : Z) (force : bool) : M unit :=
  let* task := _get_task room_id true in
  await env task (Job.disable_recorder force);;
  await env task Job.disable_monitor;;
  ret tt.

Definition enable_task_monitor (room_id : Z) : M unit :=
  let* task := _get_task room_id true in
  await env task Job.enable_monitor;; ret tt.

Definition disable_task_monitor (room_id : Z) : M unit :=
  let* task := _get_task room_id true in
  await env task Job.disable_monitor;; ret tt.

Definition enable_task_recorder (room_id : Z) : M unit :=
  let* task := _get_task room_id true in
  await env task Job.enable_recorder;; ret tt.

Definition disable_task_recorder (room_id : Z) (force : bool) : M unit :=
  let* task := _get_task room_id true in
  await env task (Job.disable_recorder force);; ret tt.

Definition update_task_info (room_id : Z) : M unit :=
  let* task := _get_task room_id true in
  await env task Job.update_info;; ret tt.

(** *** Queries *)

Definition get_task_data (room_id : Z) : M TaskData.t :=
  let* task := _get_task room_id true in
  let* t := attrs task in
  ret (_make_task_data t).

Definition get_task_param (room_id : Z) : M TaskParam.t :=
  let* task := _get_task room_id true in
  let* t := attrs task in
  ret (_make_task_param t).

Definition get_task_metadata (room_id : Z) : M (option MetaData) :=
  let* task := _get_task room_id true in
  let* t := attrs task in
  ret (RecordTask.metadata t).

Definition get_task_stream_profile (room_id : Z) : M StreamProfile :=
  let* task := _get_task room_id true in
  let* t := attrs task in
  ret (RecordTask.stream_profile t).

(** The two file-detail queries are generators: their body, the lookup
    included, runs when the caller iterates.  The embedding is the
    generator consumed to its end. *)
Definition get_task_video_file_details (room_id : Z)
  : M (list VideoFileDetail) :=
  let* task := _get_task room_id true in
  let* t := attrs task in
  ret (RecordTask.video_file_details t).

Definition get_task_danmaku_file_details (room_id : Z)
  : M (list DanmakuFileDetail) :=
  let* task := _get_task room_id true in
  let* t := attrs task in
  ret (RecordTask.danmaku_file_details t).

Definition can_cut_stream (room_id : Z) : M bool :=
  let* task := _get_task room_id true in
  await env task Job.can_cut_stream.

Definition cut_stream (room_id : Z) : M bool :=
  let* task := _get_task room_id true in
  await env task Job.cut_stream.

(** [get_all_task_data], consumed to its end. *)
Definition get_all_task_data : M (list TaskData.t) :=
  let* st := get in
  ret (map (fun it => _make_task_data (objects st it.2)) (ready_items st)).

(** *** Bulk operations *)

Definition destroy_all_tasks : M unit :=
  logger INFO DestroyingAllTasks;;
  let* st := get in
  if bool_decide (_tasks st = ∅) then ret tt
  else
    asyncio_wait env
      (map (fun it => coro env it.2 Job.destroy) (ready_items st));;
    modify (set_tasks ∅);;
    logger INFO DestroyedAllTask.

Definition remove_all_tasks : M unit :=
  let* st := get in
  let coros := map (fun it => remove_task it.1) (ready_items st) in
  match coros with [] => ret tt | _ => asyncio_wait env coros end.

Definition enable_all_task_monitors : M unit :=
  let* st := get in
  let coros := map (fun it => coro env it.2 Job.enable_monitor) (ready_items st) in
  match coros with [] => ret tt | _ => asyncio_wait env coros end.

Definition disable_all_task_monitors : M unit :=
  let* st := get in
  let coros := map (fun it => coro env it.2 Job.disable_monitor) (ready_items st) in
  match coros with [] => ret tt | _ => asyncio_wait env coros end.

Definition enable_all_task_recorders : M unit :=
  let* st := get in
  let coros := map (fun it => coro env it.2 Job.enable_recorder) (ready_items st) in
  match coros with [] => ret tt | _ => asyncio_wait env coros end.

Definition disable_all_task_recorders (force : bool) : M unit :=
  let* st := get in
  let coros :=
    map (fun it => coro env it.2 (Job.disable_recorder force)) (ready_items st) in
  match coros with [] => ret tt | _ => asyncio_wait env coros end.

Definition update_all_task_infos : M unit :=
  let* st := get in
  let coros := map (fun it => coro env it.2 Job.update_info) (ready_items st) in
  match coros with [] => ret tt | _ => asyncio_wait env coros end.

Definition start_all_tasks : M unit :=
  update_all_task_infos;;
  enable_all_task_monitors;;
  enable_all_task_recorders.

Definition stop_all_tasks (force : bool) : M unit :=
  disable_all_task_recorders force;;
  disable_all_task_monitors.
End RecordTaskManager.

(** ** The readiness-gated operations

    Every method that looks its job up with [check_ready=True], with the
    type of what it returns. *)

Inductive Gated :=
| RemoveTask
| StartTask
| StopTask (force : bool)
| EnableTaskMonitor
| DisableTaskMonitor
| EnableTaskRecorder
| DisableTaskRecorder (force : bool)
| UpdateTaskInfo
| GetTaskData
| GetTaskParam
| GetTaskMetadata
| GetTaskStreamProfile
| GetTaskVideoFileDetails
| GetTaskDanmakuFileDetails
| CanCutStream
| CutStream.

Section GatedOperations.
Context `{TaskModels} (env : Env).

Definition gated_result (op : Gated) : Type :=
  match op with
  | GetTaskData => TaskData.t
  | GetTaskParam => TaskParam.t
  | GetTaskMetadata => option MetaData
  | GetTaskStreamProfile => StreamProfile
  | GetTaskVideoFileDetails => list VideoFileDetail
  | GetTaskDanmakuFileDetails => list DanmakuFileDetail
  | CanCutStream | CutStream => bool
  | _ => unit
  end.

Definition gated (op : Gated) (room_id : Z) : M (gated_result op) :=
  match op with
  | RemoveTask => remove_task env room_id
  | StartTask => start_task env room_id
  | StopTask force => stop_task env room_id force
  | EnableTaskMonitor => enable_task_monitor env room_id
  | DisableTaskMonitor => disable_task_monitor env room_id
  | EnableTaskRecorder => enable_task_recorder env room_id
  | DisableTaskRecorder force => disable_task_recorder env room_id force
  | UpdateTaskInfo => update_task_info env room_id
  | GetTaskData => get_task_data room_id
  | GetTaskParam => get_task_param room_id
  | GetTaskMetadata => get_task_metadata room_id
  | GetTaskStreamProfile => get_task_stream_profile room_id
  | GetTaskVideoFileDetails => get_task_video_file_details room_id
  | GetTaskDanmakuFileDetails => get_task_danmaku_file_details room_id
  | CanCutStream => can_cut_stream env room_id
  | CutStream => cut_stream env room_id
  end.

(** The two messages of [_get_task]. *)
Definition no_task (room_id : Z) : Exn :=
  mkExn NotFoundError ("no task for the room " +:+ pretty room_id).

Definition not_ready_yet (room_id : Z) : Exn :=
  mkExn NotFoundError ("the task " +:+ pretty room_id +:+ " is not ready yet").
End GatedOperations.

(** ** The retry policy and the batch load, as relations

    [policy_run env settings start n st res]: from state [st], with the
    decorated call begun at time [start] and [n - 1] attempts made so far,
    creation under the stated policy ends as [res].  An attempt that
    returns ends the run; so does one raising an exception that is none of
    the three retried kinds, and one raising a retried kind once 60 seconds
    have passed since [start]: in both cases with the attempt's own
    exception.  Otherwise the run waits [2 ^ (n - 1)] seconds, at most 10,
    and goes on with attempt [n + 1]. *)

Section Relations.
Context `{TaskModels} (env : Env).

Definition retried (e : Exn) : Prop :=
  exn_class e = TimeoutError ∨ exn_class e = ClientError
  ∨ exn_class e = ApiRequestError.

Definition waited (n : nat) (st : Manager) : Manager :=
  later (N.min (2 ^ N.of_nat (n - 1) * 1000) (10 * 1000)) st.

Inductive policy_run (settings : TaskSettings.t) (start : N)
  : nat -> Manager -> Outcome unit * Manager -> Prop :=
| run_returned n st st1 :
    add_task_attempt env settings st = (Returned tt, st1) ->
    policy_run settings start n st (Returned tt, st1)
| run_not_retried n st e st1 :
    add_task_attempt env settings st = (Raised e, st1) ->
    ¬ retried e ->
    policy_run settings start n st (Raised e, st1)
| run_out_of_time n st e st1 :
    add_task_attempt env settings st = (Raised e, st1) ->
    retried e ->
    (60 * 1000 <= clock st1 - start)%N ->
    policy_run settings start n st (Raised e, st1)
| run_again n st e st1 res :
    add_task_attempt env settings st = (Raised e, st1) ->
    retried e ->
    (clock st1 - start < 60 * 1000)%N ->
    policy_run settings start (S n) (waited n st1) res ->
    policy_run settings start n st res.

(** [batch env l st st']: creating the entries of [l] one after the
    other from [st] leads to [st']; an entry whose creation raises an error
    has the error submitted and the next entry is processed. *)

Inductive batch : list TaskSettings.t -> Manager -> Manager -> Prop :=
| batch_done st : batch [] st st
| batch_created settings l st st1 st' :
    add_task env settings st = (Returned tt, st1) ->
    batch l st1 st' ->
    batch (settings :: l) st st'
| batch_failed settings l st e st1 st' :
    add_task env settings st = (Raised e, st1) ->
    is_Exception e = true ->
    batch l (with_submitted e st1) st' ->
    batch (settings :: l) st st'.

(** [interrupted env l st e st']: the entries of [l] were being created
    one after the other from [st], as in [batch], when the creation of one
    of them raised [e], which is not an instance of [Exception]; [st'] is
    the state that creation left, and the entries after it were not
    processed. *)

Inductive interrupted
  : list TaskSettings.t -> Manager -> Exn -> Manager -> Prop :=
| interrupted_here settings l st e st' :
    add_task env settings st = (Raised e, st') ->
    is_Exception e = false ->
    interrupted (settings :: l) st e st'
| interrupted_created settings l st st1 e st' :
    add_task env settings st = (Returned tt, st1) ->
    interrupted l st1 e st' ->
    interrupted (settings :: l) st e st'
| interrupted_failed settings l st e0 st1 e st' :
    add_task env settings st = (Raised e0, st1) ->
    is_Exception e0 = true ->
    interrupted l (with_submitted e0 st1) e st' ->
    interrupted (settings :: l) st e st'.
End Relations.

(** ** Footprints

    [only_on task st st']: between [st] and [st'] the only job-level calls
    were made on [task], no other handle was assigned, and the registry,
    the logger and the exception center were left alone. *)

Section Footprint.
Context `{TaskModels}.

Definition only_on (task : Ref) (st st' : Manager) : Prop :=
  _tasks st' = _tasks st
  ∧ next_ref st' = next_ref st
  ∧ logs st' = logs st
  ∧ submitted st' = submitted st
  ∧ (clock st <= clock st')%N
  ∧ (∀ r, r ≠ task -> objects st' r = objects st r)
  ∧ ∃ l, calls st' = calls st ++ l ∧ Forall (fun ev : Event => ev.1 = task) l.

(** [acts room_id task m Q]: run while [room_id] is registered to [task],
    [m] touches [task] only, does not end [Unfinished], and what it
    returns satisfies [Q]. *)
Definition acts {A} (room_id : Z) (task : Ref) (m : M A) (Q : A -> Prop)
  : Prop :=
  ∀ st, _tasks st !! room_id = Some task ->
    only_on task st (m st).2
    ∧ match (m st).1 with
      | Returned a => Q a
      | Raised _ => True
      | Unfinished => False
      end.

(** [keeps R m]: every run of [m] takes a state to one related to it by
    [R]. *)
Definition keeps {A} (R : Manager -> Manager -> Prop) (m : M A) : Prop :=
  ∀ st, R st (m st).2.

(** [calls_among P st st']: the job-level calls made between [st] and
    [st'] are all calls of a method satisfying [P]. *)
Definition calls_among (P : Job.call -> Prop) (st st' : Manager) : Prop :=
  ∃ l, calls st' = calls st ++ l ∧ Forall (fun ev : Event => P ev.2) l.

(** The methods creation calls on a job. *)
Definition creation_call (c : Job.call) : Prop :=
  c = Job.setup ∨ c = Job.enable_monitor ∨ c = Job.enable_recorder.

(** [same_room room st st']: [room] is registered to the same handle, or
    not registered, in both states. *)
Definition same_room (room : Z) (st st' : Manager) : Prop :=
  _tasks st' !! room = _tasks st !! room.

(** [emits room_id task m l]: run while [room_id] is registered to [task],
    [m] leaves the registry as it is and, when it returns, has made exactly
    the job-level calls [l]. *)
Definition emits {A} (room_id : Z) (task : Ref) (m : M A) (l : list Event)
  : Prop :=
  ∀ st, _tasks st !! room_id = Some task ->
    _tasks (m st).2 = _tasks st
    ∧ ∀ a, (m st).1 = Returned a -> calls (m st).2 = calls st ++ l.

(** The attempts of [add_task] recorded by the logger: every attempt
    begins with the record 'Adding task ...'. *)
Definition is_adding (r : LogRecord) : bool :=
  match r.2 with
  | AddingTask _ => true
  | _ => false
  end.

Definition attempts (l : list LogRecord) : nat :=
  length (List.filter is_adding l).

(** The time spent waiting before attempt [n]: the waits after attempts
    1 to [n - 1], in milliseconds. *)
Fixpoint waited_before (n : nat) : N :=
  match n with
  | S (S _ as k) =>
      waited_before k + N.min (2 ^ N.of_nat (k - 1) * 1000) (10 * 1000)
  | _ => 0
  end%N.

(** The job-level calls of a creation that goes through: [setup], then
    [enable_monitor] and [enable_recorder] as the settings ask. *)
Definition creation_calls `{TaskModels} (settings : TaskSettings.t)
    (task : Ref) : list Event :=
  [(task, Job.setup)]
  ++ (if TaskSettings.enable_monitor settings
      then [(task, Job.enable_monitor)] else [])
  ++ (if TaskSettings.enable_recorder settings
      then [(task, Job.enable_recorder)] else []).

(** The job-level calls of a bulk step: [c] on every ready job.  The
    calls of one step are not ordered relative to each other: the list is
    read up to the order of its elements. *)
Definition fan_out (c : Job.call) (st : Manager) : list Event :=
  map (fun it : Z * nat => (it.2, c)) (ready_items st).

(** What a step does to the handle of a registered room whose job is
    ready: it returns, leaves the registry alone and turns the attributes
    [t] of the handle into [f t]. *)
Definition updates (room_id : Z) (task : Ref) (m : M unit)
    (f : RecordTask.t -> RecordTask.t) : Prop :=
  ∀ st, _tasks st !! room_id = Some task ->
    RecordTask.ready (objects st task) = true ->
    (m st).1 = Returned tt
    ∧ _tasks (m st).2 = _tasks st
    ∧ objects (m st).2 task = f (objects st task).

(** [writes env task m f st]: from [st], [m] makes no job-level call and
    touches no handle but [task].  If it returns, it has turned the
    attributes [t] of [task] into [f t]; if it raises, the job of [task]
    is not ready and the exception is the one with which that job refused
    the assignment of an attribute. *)
Definition writes (env : Env) (task : Ref) (m : M unit)
    (f : RecordTask.t -> RecordTask.t) (st : Manager) : Prop :=
  only_on task st (m st).2
  ∧ calls (m st).2 = calls st
  ∧ match (m st).1 with
    | Returned _ => objects (m st).2 task = f (objects st task)
    | Raised e =>
        RecordTask.ready (objects st task) = false
        ∧ ∃ a t, Attr.is_identity a = false
                 ∧ RecordTask_setattr env (calls st) task a t = Some e
    | Unfinished => False
    end.

(** What a bulk step leaves alone. *)
Definition step_frame (st st' : Manager) : Prop :=
  _tasks st' = _tasks st
  ∧ next_ref st' = next_ref st
  ∧ logs st' = logs st
  ∧ submitted st' = submitted st.

(** [fans_out m c st]: from [st], [m] returns after calling [c] once on
    every ready job, in some order, and nothing else. *)
Definition fans_out (m : M unit) (c : Job.call) (st : Manager) : Prop :=
  (m st).1 = Returned tt
  ∧ step_frame st (m st).2
  ∧ ∃ l, calls (m st).2 = calls st ++ l ∧ l ≡ₚ fan_out c st.

(** The [TypeError] of [asyncio.wait] on Python 3.11 and later. *)
Definition coroutines_forbidden : Exn :=
  mkExn TypeError "Passing coroutines is forbidden, use tasks explicitly.".

(** [stops m st]: from [st], [m] does nothing when no job is ready, and
    otherwise raises the [TypeError] of [asyncio.wait] before any
    coroutine has run: in both cases the state is as it was. *)
Definition stops (m : M unit) (st : Manager) : Prop :=
  match ready_items st with
  | [] => m st = (Returned tt, st)
  | _ => m st = (Raised coroutines_forbidden, st)
  end.

(** A bulk step on either interpreter: up to Python 3.10 it fans out,
    from 3.11 on it stops. *)
Definition bulk_step_runs (env : Env) (m : M unit) (c : Job.call)
    (st : Manager) : Prop :=
  match python env with
  | Python.upto_3_10 => fans_out m c st
  | Python.from_3_11 => stops m st
  end.

(** The attributes a new job has when [add_task] calls its [setup]:
    those the constructor gave it, with the connection identity of the
    header bundle in force for the room; or the exception raised while
    that bundle was derived. *)
Definition at_setup (env : Env) (settings : TaskSettings.t)
  : Exn + RecordTask.t :=
  let room_id := TaskSettings.room_id settings in
  match
    SettingsManager.final_header (_settings_manager env) room_id
      (TaskSettings.header settings)
  with
  | inl e => inl e
  | inr final =>
      inr (RecordTask.set_header final (RecordTask_init env room_id))
  end.

(** Every registered handle has been allocated: a reference handed out
    by [new_RecordTask] is not yet in the registry. *)
Definition allocated (st : Manager) : Prop :=
  ∀ room_id task, _tasks st !! room_id = Some task -> (task < next_ref st)%nat.
End Footprint.

(** ** Concrete jobs, settings and registries

    Small instances on which the properties below are evaluated. *)

Module Fixture.
Definition models : TaskModels :=
  {| UserInfo := unit; RoomInfo := unit; TaskStatus := unit;
     MetaData := unit; StreamProfile := unit; VideoFileDetail := unit;
     DanmakuFileDetail := unit; CoverSaveStrategy := unit;
     DeleteStrategy := unit |}.
#[local] Existing Instance models.

Definition header0 : HeaderSettings.t := HeaderSettings.mk "" "".
Definition header1 : HeaderSettings.t := HeaderSettings.mk "Mozilla/5.0" "sid=1".
Definition output0 : OutputSettings.t := OutputSettings.mk "." "{roomid}" 0 0.
Definition output1 : OutputSettings.t :=
  OutputSettings.mk "/rec" "{roomid}/{title}" 1000 3600.
Definition danmaku0 : DanmakuSettings.t :=
  DanmakuSettings.mk false true true true true false.
Definition recorder0 : RecorderSettings.t :=
  RecorderSettings.mk _ "flv" 20000 10 3 (Some 600) 8192 false tt.
Definition postprocessing0 : PostprocessingSettings.t :=
  PostprocessingSettings.mk _ true true tt.

(** A handle as the constructor leaves it, and one whose setup is done. *)
Definition fresh_task : RecordTask.t :=
  RecordTask.mk _ false tt tt tt None tt [] [] header0 output0 danmaku0
    recorder0 postprocessing0.

Definition with_ready (b : bool) (task : RecordTask.t) : RecordTask.t :=
  RecordTask.mk _ b (RecordTask.user_info task) (RecordTask.room_info task)
    (RecordTask.status task) (RecordTask.metadata task)
    (RecordTask.stream_profile task) (RecordTask.video_file_details task)
    (RecordTask.danmaku_file_details task) (RecordTask.header task)
    (RecordTask.output task) (RecordTask.danmaku task)
    (RecordTask.recorder task) (RecordTask.postprocessing task).

Definition ready_task : RecordTask.t := with_ready true fresh_task.

(** A job on which every call succeeds in 5 ms; setup makes it ready and
    destroy makes it unready. *)
Definition steady (history : list Event) (task : Ref) (c : Job.call)
    (t : RecordTask.t) : Job.reply :=
  match c with
  | Job.setup => Job.mkReply _ (with_ready true t) None true 5
  | Job.destroy => Job.mkReply _ (with_ready false t) None true 5
  | _ => Job.mkReply _ t None true 5
  end.

(** As [steady], but setup of the second handle created fails with an
    error of the job's own. *)
Definition second_fails (history : list Event) (task : Ref) (c : Job.call)
    (t : RecordTask.t) : Job.reply :=
  match c, task with
  | Job.setup, 1%nat =>
      Job.mkReply _ t (Some (mkExn (OtherError "SetupError") "no stream")) true 5
  | _, _ => steady history task c t
  end.

(** Every setup times out after 25 seconds. *)
Definition times_out (history : list Event) (task : Ref) (c : Job.call)
    (t : RecordTask.t) : Job.reply :=
  match c with
  | Job.setup =>
      Job.mkReply _ t (Some (mkExn TimeoutError "")) true 25000
  | _ => steady history task c t
  end.

(** The first job-level call ever made times out after 2 seconds; every
    later call is as with [steady]. *)
Definition flaky (history : list Event) (task : Ref) (c : Job.call)
    (t : RecordTask.t) : Job.reply :=
  match history with
  | [] => Job.mkReply _ t (Some (mkExn TimeoutError "")) true 2000
  | _ => steady history task c t
  end.

(** Every setup fails at once with a connection error. *)
Definition refused (history : list Event) (task : Ref) (c : Job.call)
    (t : RecordTask.t) : Job.reply :=
  match c with
  | Job.setup => Job.mkReply _ t (Some (mkExn ClientError "refused")) true 0
  | _ => steady history task c t
  end.

(** Every call fails with an error of the job's own. *)
Definition broken (history : list Event) (task : Ref) (c : Job.call)
    (t : RecordTask.t) : Job.reply :=
  Job.mkReply _ t (Some (mkExn (OtherError "JobError") "")) false 5.

(** As [steady], but the caller is cancelled while it awaits setup. *)
Definition cancelled (history : list Event) (task : Ref) (c : Job.call)
    (t : RecordTask.t) : Job.reply :=
  match c with
  | Job.setup => Job.mkReply _ t (Some (mkExn CancelledError "")) true 5
  | _ => steady history task c t
  end.

(** A job that is not ready has none of the parts its configuration
    attributes are kept in: their setters raise [AttributeError]. *)
Definition unset (history : list Event) (task : Ref) (a : Attr.t)
    (t : RecordTask.t) : option Exn :=
  Some (mkExn (OtherError "AttributeError")
          "'RecordTask' object has no attribute '_recorder'").

Definition settings_for (room_id : Z) : TaskSettings.t :=
  TaskSettings.mk _ room_id header1 output1 danmaku0 recorder0
    postprocessing0 true false.

Definition manager_of (l : list TaskSettings.t) : SettingsManager.t :=
  SettingsManager.mk _ l (fun _ s => inr s) (fun _ s => inr s)
    (fun _ s => inr s) (fun _ s => inr s) (fun _ s => inr s).

(** The collaborators on a given interpreter, and on Python 3.8 to
    3.10. *)
Definition env_on (python : Python.version)
    (behaviour : list Event -> Ref -> Job.call -> RecordTask.t -> Job.reply)
    (l : list TaskSettings.t) : Env :=
  mkEnv _ python (fun _ => fresh_task) behaviour unset (manager_of l).

Definition env_of
    (behaviour : list Event -> Ref -> Job.call -> RecordTask.t -> Job.reply)
    (l : list TaskSettings.t) : Env :=
  env_on Python.upto_3_10 behaviour l.

(** Registries: empty; room 1 registered and not ready; room 1
    registered and ready. *)
Definition empty : Manager :=
  mkManager _ ∅ (fun _ => fresh_task) 0%nat [] [] [] 0%N.

Definition unready1 : Manager :=
  mkManager _ {[ 1 := 0%nat ]} (fun _ => fresh_task) 1%nat [] [] [] 0%N.

Definition ready1 : Manager :=
  mkManager _ {[ 1 := 0%nat ]} (fun _ => ready_task) 1%nat [] [] [] 0%N.

(** Room 1 registered and ready, room 2 registered and not ready. *)
Definition mixed : Manager :=
  mkManager _ (<[ 1 := 0%nat ]> {[ 2 := 1%nat ]})
    (fun r => match r with O => ready_task | _ => fresh_task end)
    2%nat [] [] [] 0%N.
End Fixture.

(** * Properties *)

(** ** What a computation may touch *)

Section Frame.
Context `{TaskModels} (env : Env).

Lemma only_on_refl task st : only_on task st st.
Proof.
  repeat split; try done; try lia.
  exists []. by rewrite app_nil_r.
Qed.

Lemma only_on_trans task st1 st2 st3 :
  only_on task st1 st2 -> only_on task st2 st3 -> only_on task st1 st3.
Proof.
  intros (Ht & Hn & Hl & Hs & Hc & Ho & l & Hcalls & Hall)
         (Ht' & Hn' & Hl' & Hs' & Hc' & Ho' & l' & Hcalls' & Hall').
  repeat split; try congruence; try lia.
  - intros r Hr. rewrite Ho' by done. by apply Ho.
  - exists (l ++ l'). split.
    + by rewrite Hcalls', Hcalls, app_assoc.
    + by apply Forall_app.
Qed.

Lemma acts_ret {A} room_id task (a : A) (Q : A -> Prop) :
  Q a -> acts room_id task (ret a) Q.
Proof. intros HQ st _. split; [apply only_on_refl | done]. Qed.

Lemma acts_raise {A} room_id task e (Q : A -> Prop) :
  acts room_id task (raise e) Q.
Proof. intros st _. split; [apply only_on_refl | done]. Qed.

Lemma acts_bind {A B} room_id task (m : M A) (k : A -> M B) Q Q' :
  acts room_id task m Q ->
  (∀ a, Q a -> acts room_id task (k a) Q') ->
  acts room_id task (bind m k) Q'.
Proof.
  intros Hm Hk st Hreg. unfold bind.
  destruct (Hm st Hreg) as [Hon Hres].
  destruct (m st) as [[a | e |] st1]; simpl in *; try done.
  assert (_tasks st1 !! room_id = Some task) as Hreg1.
  { destruct Hon as [-> _]. done. }
  destruct (Hk a Hres st1 Hreg1) as [Hon' Hres'].
  split; [by eapply only_on_trans | done].
Qed.

Lemma acts_await room_id task c :
  acts room_id task (await env task c) (fun _ => True).
Proof.
  intros st _. unfold await.
  destruct (Job.raised _); simpl.
  all: split; [| done].
  all: repeat split; simpl; try done; try lia.
  all: try (intros r Hr; by rewrite decide_False).
  all: exists [(task, c)]; split; [done | by repeat constructor].
Qed.

Lemma acts_assign room_id task a f :
  acts room_id task (assign env task a f) (fun _ => True).
Proof.
  intros st _. unfold assign. cbv zeta.
  destruct (if Attr.is_identity _ || _ then _ else _) as [e |]; simpl.
  { split; [apply only_on_refl | done]. }
  split; [| done].
  repeat split; simpl; try done; try lia.
  - intros r Hr. by rewrite decide_False.
  - exists []. by rewrite app_nil_r.
Qed.

Lemma acts_attrs room_id task r :
  acts room_id task (attrs r) (fun _ => True).
Proof. intros st _. split; [apply only_on_refl | done]. Qed.

Lemma acts_get_task room_id task check_ready :
  acts room_id task (_get_task room_id check_ready) (fun r => r = task).
Proof.
  intros st Hreg. unfold _get_task, bind, get, attrs. simpl. rewrite Hreg.
  destruct (check_ready && negb _); simpl.
  all: split; [apply only_on_refl | done].
Qed.
End Frame.

(** ** The appliers and the creation steps touch one handle only *)

Section Steps.
Context `{TaskModels} (env : Env).

Ltac lookup_then :=
  eapply acts_bind; [apply acts_get_task | intros ? ->].

Lemma acts_apply_header room_id task settings update_session :
  acts room_id task
    (apply_task_header_settings env room_id settings update_session)
    (fun _ => True).
Proof.
  unfold apply_task_header_settings. lookup_then.
  eapply acts_bind; [apply acts_attrs | intros t _].
  destruct (_ && _).
  - by apply acts_ret.
  - eapply acts_bind; [apply acts_assign | intros _ _].
    eapply acts_bind; [apply acts_assign | intros _ _].
    destruct update_session.
    + eapply acts_bind; [apply (acts_await env) | intros _ _].
      by apply acts_ret.
    + by apply acts_ret.
Qed.

Ltac assignments :=
  repeat (eapply acts_bind; [apply acts_assign | intros _ _]);
  apply acts_assign.

Lemma acts_apply_output room_id task settings :
  acts room_id task (apply_task_output_settings env room_id settings)
    (fun _ => True).
Proof. unfold apply_task_output_settings. lookup_then. assignments. Qed.

Lemma acts_apply_danmaku room_id task settings :
  acts room_id task (apply_task_danmaku_settings env room_id settings)
    (fun _ => True).
Proof. unfold apply_task_danmaku_settings. lookup_then. assignments. Qed.

Lemma acts_apply_recorder room_id task settings :
  acts room_id task (apply_task_recorder_settings env room_id settings)
    (fun _ => True).
Proof. unfold apply_task_recorder_settings. lookup_then. assignments. Qed.

Lemma acts_apply_postprocessing room_id task settings :
  acts room_id task (apply_task_postprocessing_settings env room_id settings)
    (fun _ => True).
Proof.
  unfold apply_task_postprocessing_settings. lookup_then. assignments.
Qed.

Lemma acts_add_task_steps settings task :
  acts (TaskSettings.room_id settings) task
    (add_task_steps env settings task) (fun _ => True).
Proof.
  unfold add_task_steps.
  eapply acts_bind.
  { unfold sm_apply_task_header_settings.
    destruct (SettingsManager.final_header _ _ _);
      [apply acts_raise | apply acts_apply_header]. }
  intros _ _. eapply acts_bind; [apply (acts_await env) | intros _ _].
  eapply acts_bind.
  { unfold sm_apply_task_output_settings.
    destruct (SettingsManager.final_output _ _ _);
      [apply acts_raise | apply acts_apply_output]. }
  intros _ _. eapply acts_bind.
  { unfold sm_apply_task_danmaku_settings.
    destruct (SettingsManager.final_danmaku _ _ _);
      [apply acts_raise | apply acts_apply_danmaku]. }
  intros _ _. eapply acts_bind.
  { unfold sm_apply_task_recorder_settings.
    destruct (SettingsManager.final_recorder _ _ _);
      [apply acts_raise | apply acts_apply_recorder]. }
  intros _ _. eapply acts_bind.
  { unfold sm_apply_task_postprocessing_settings.
    destruct (SettingsManager.final_postprocessing _ _ _);
      [apply acts_raise | apply acts_apply_postprocessing]. }
  intros _ _. eapply acts_bind with (Q := fun _ => True).
  { destruct (TaskSettings.enable_monitor settings); [| by apply acts_ret].
    eapply acts_bind; [apply (acts_await env) | intros _ _].
    by apply acts_ret. }
  intros _ _.
  destruct (TaskSettings.enable_recorder settings); [| by apply acts_ret].
  eapply acts_bind; [apply (acts_await env) | intros _ _].
  by apply acts_ret.
Qed.

(** One attempt of [add_task]: it allocates the next reference and
    touches that handle only.  It ends with the room registered to that
    handle if it returns, with the room deleted if it raises an error, and
    with the room still registered to that handle if it raises something
    that is not an [Exception]. *)
Lemma add_task_attempt_spec settings st :
  let room_id := TaskSettings.room_id settings in
  let task := next_ref st in
  let res := add_task_attempt env settings st in
  next_ref res.2 = S task
  ∧ (clock st <= clock res.2)%N
  ∧ submitted res.2 = submitted st
  ∧ (∀ r, r ≠ task -> objects res.2 r = objects st r)
  ∧ (∃ l, calls res.2 = calls st ++ l
          ∧ Forall (fun ev : Event => ev.1 = task) l)
  ∧ match res.1 with
    | Returned _ => _tasks res.2 = <[room_id := task]> (_tasks st)
    | Raised e =>
        _tasks res.2
        = if is_Exception e then delete room_id (_tasks st)
          else <[room_id := task]> (_tasks st)
    | Unfinished => False
    end.
Proof.
  intros room_id task res. subst res.
  unfold add_task_attempt, bind, logger, new_RecordTask, modify, try_except.
  simpl. fold room_id. fold task.
  match goal with
  | |- context [add_task_steps env settings task ?s] => set (st0 := s)
  end.
  assert (_tasks st0 !! room_id = Some task) as Hreg.
  { subst st0. simpl. by rewrite lookup_insert_eq. }
  destruct (acts_add_task_steps settings task st0 Hreg) as [Hon Hres].
  destruct Hon as (Ht & Hn & Hl & Hs & Hc & Ho & l & Hcalls & Hall).
  destruct (add_task_steps env settings task st0) as [[[] | e |] st1];
    simpl in *; try done.
  - repeat split; try done.
    + intros r Hr. rewrite Ho by done. by rewrite decide_False.
    + by exists l.
  - destruct (is_Exception e) eqn:Hkind; simpl.
    + unfold del_task. simpl. rewrite Ht, lookup_insert_eq. simpl.
      rewrite Hkind.
      repeat split; try done.
      * intros r Hr. rewrite Ho by done. by rewrite decide_False.
      * by exists l.
      * by rewrite delete_insert_eq.
    + rewrite Hkind.
      repeat split; try done.
      * intros r Hr. rewrite Ho by done. by rewrite decide_False.
      * by exists l.
Qed.
End Steps.

(** ** The retry loop *)

Section Retry.
Context `{TaskModels} (env : Env).

Lemma retrying_unfold {A} fuel reraise rt wait stop start n (fn : M A) st :
  retrying fuel reraise rt wait stop start n fn st =
  match fn st with
  | (Raised e, st1) =>
      if rt e then
        if stop (clock st1 - start)%N then
          if reraise then (Raised e, st1)
          else (Raised (mkExn RetryError (exn_msg e)), st1)
        else
          match fuel with
          | O => (Unfinished, st1)
          | S fuel' =>
              (sleep (wait n);;
               retrying fuel' reraise rt wait stop start (S n) fn) st1
          end
      else (Raised e, st1)
  | finished => finished
  end.
Proof. by destruct fuel. Qed.

Lemma retry_if_exception_type_retried e :
  retry_if_exception_type [TimeoutError; ClientError; ApiRequestError] e
    = true
  ↔ retried e.
Proof.
  unfold retry_if_exception_type, retried.
  rewrite bool_decide_eq_true, !elem_of_cons, elem_of_nil. tauto.
Qed.

Lemma wait_exponential_bounds n :
  (1 * second <= wait_exponential 10 n <= 10 * second)%N.
Proof.
  unfold wait_exponential, second.
  assert (1 <= 2 ^ N.of_nat (n - 1))%N.
  { change 1%N with (2 ^ 0)%N at 1. apply N.pow_le_mono_r; lia. }
  lia.
Qed.

Lemma add_task_attempt_clock settings st :
  (clock st <= clock (add_task_attempt env settings st).2)%N.
Proof. apply (add_task_attempt_spec env settings st). Qed.

Lemma add_task_attempt_finishes settings st st1 :
  add_task_attempt env settings st ≠ (Unfinished, st1).
Proof.
  intros Heq.
  pose proof (add_task_attempt_spec env settings st) as Hspec. simpl in Hspec.
  rewrite Heq in Hspec. simpl in Hspec. tauto.
Qed.

(** With [n - 1] seconds already waited and enough iterations left for
    the seconds that remain, the loop follows the policy to its end. *)
Lemma retrying_policy_run settings start fuel : ∀ n st,
  (1 <= n)%nat ->
  (61 <= fuel + n)%nat ->
  (start + N.of_nat (n - 1) * 1000 <= clock st)%N ->
  policy_run env settings start n st
    (retrying fuel true
       (retry_if_exception_type [TimeoutError; ClientError; ApiRequestError])
       (wait_exponential 10) (stop_after_delay 60) start n
       (add_task_attempt env settings) st).
Proof.
  induction fuel as [| fuel IH]; intros n st Hn Hfuel Hclock.
  all: rewrite retrying_unfold.
  all: pose proof (add_task_attempt_clock settings st) as Hmono.
  all: destruct (add_task_attempt env settings st) as [[[] | e |] st1] eqn:Hrun;
    simpl in Hmono.
  all: try (exfalso; by eapply add_task_attempt_finishes).
  all: try (by apply run_returned).
  all: destruct (retry_if_exception_type _ e) eqn:Hretry;
    [apply retry_if_exception_type_retried in Hretry
    | apply run_not_retried; [done |];
      by rewrite <- retry_if_exception_type_retried, Hretry].
  all: unfold stop_after_delay, second;
    destruct (N.leb_spec (60 * 1000) (clock st1 - start)) as [Hstop | Hgo];
    [by apply run_out_of_time |].
  - exfalso. lia.
  - eapply run_again; [done | done | done |].
    unfold bind, sleep, modify.
    change (later (wait_exponential 10 n) st1) with (waited n st1).
    apply IH; [lia | lia |].
    pose proof (wait_exponential_bounds n) as Hw.
    change (clock (waited n st1))
      with (clock st1 + wait_exponential 10 n)%N.
    unfold second in Hw. lia.
Qed.

Lemma add_task_policy_run settings st :
  policy_run env settings (clock st) 1 st (add_task env settings st).
Proof.
  unfold add_task, retry, retry_fuel.
  apply retrying_policy_run; simpl; lia.
Qed.

(** The three retried kinds are errors. *)
Lemma retried_is_Exception e : retried e -> is_Exception e = true.
Proof. unfold retried, is_Exception. by intros [-> | [-> | ->]]. Qed.

(** What a run of the policy leaves behind.  The room ends registered to
    a handle made by the run when the run returns, and also when it raises
    something that is not an [Exception]; it ends unregistered when the
    run raises an error. *)
Lemma policy_run_frame settings start n st res :
  policy_run env settings start n st res ->
  let room_id := TaskSettings.room_id settings in
  let fresh :=
    ∃ task, (next_ref st <= task < next_ref res.2)%nat
            ∧ _tasks res.2 !! room_id = Some task in
  submitted res.2 = submitted st
  ∧ (next_ref st <= next_ref res.2)%nat
  ∧ (∀ r, (r < next_ref st)%nat -> objects res.2 r = objects st r)
  ∧ (∃ l, calls res.2 = calls st ++ l
          ∧ Forall (fun ev : Event =>
                      (next_ref st <= ev.1 < next_ref res.2)%nat) l)
  ∧ (∀ room, room ≠ room_id -> _tasks res.2 !! room = _tasks st !! room)
  ∧ match res.1 with
    | Returned _ => fresh
    | Raised e =>
        if is_Exception e then _tasks res.2 !! room_id = None else fresh
    | Unfinished => False
    end.
Proof.
  intros Hrun room_id. cbv zeta.
  induction Hrun as [n st st1 Hrun | n st e st1 Hrun _
                    | n st e st1 Hrun Hretried _
                    | n st e st1 res Hrun Hretried _ _ IH].
  all: pose proof (add_task_attempt_spec env settings st) as Hspec;
    simpl in Hspec; rewrite Hrun in Hspec; simpl in Hspec;
    destruct Hspec as (Hn & _ & Hs & Ho & (l & Hcalls & Hall) & Ht).
  all: assert (Forall (fun ev : Event =>
                         (next_ref st <= ev.1 < next_ref st1)%nat) l) as Hall'
    by (eapply Forall_impl; [exact Hall |]; simpl; intros ev ->; lia).
  - split_and!; simpl; [done | lia | intros r Hr; apply Ho; lia | by exists l | |].
    + intros room Hroom. by rewrite Ht, lookup_insert_ne.
    + exists (next_ref st). split; [lia |]. by rewrite Ht, lookup_insert_eq.
  - destruct (is_Exception e) eqn:Hkind.
    all: split_and!; simpl;
      [done | lia | intros r Hr; apply Ho; lia | by exists l | |].
    + intros room Hroom. by rewrite Ht, lookup_delete_ne.
    + by rewrite Hkind, Ht, lookup_delete_eq.
    + intros room Hroom. by rewrite Ht, lookup_insert_ne.
    + rewrite Hkind. exists (next_ref st). split; [lia |].
      by rewrite Ht, lookup_insert_eq.
  - rewrite (retried_is_Exception e Hretried) in Ht.
    split_and!; simpl; [done | lia | intros r Hr; apply Ho; lia | by exists l | |].
    + intros room Hroom. by rewrite Ht, lookup_delete_ne.
    + by rewrite (retried_is_Exception e Hretried), Ht, lookup_delete_eq.
  - rewrite (retried_is_Exception e Hretried) in Ht.
    destruct IH as (IHs & IHn & IHo & (l' & IHcalls & IHall) & IHt & IHres).
    simpl in *. split_and!.
    + congruence.
    + lia.
    + intros r Hr. rewrite IHo by lia. apply Ho. lia.
    + exists (l ++ l'). split.
      * by rewrite IHcalls, Hcalls, app_assoc.
      * apply Forall_app. split.
        -- eapply Forall_impl; [exact Hall' |]. simpl. intros ev Hev. lia.
        -- eapply Forall_impl; [exact IHall |]. simpl. intros ev Hev. lia.
    + intros room Hroom. rewrite IHt by done. by rewrite Ht, lookup_delete_ne.
    + destruct res.1 as [[] | e' |]; [| | done].
      * destruct IHres as (task & Htask & Hlook).
        exists task. split; [lia | done].
      * destruct (is_Exception e'); [done |].
        destruct IHres as (task & Htask & Hlook).
        exists task. split; [lia | done].
Qed.

Lemma add_task_frame settings st :
  let room_id := TaskSettings.room_id settings in
  let res := add_task env settings st in
  let fresh :=
    ∃ task, (next_ref st <= task < next_ref res.2)%nat
            ∧ _tasks res.2 !! room_id = Some task in
  submitted res.2 = submitted st
  ∧ (next_ref st <= next_ref res.2)%nat
  ∧ (∀ r, (r < next_ref st)%nat -> objects res.2 r = objects st r)
  ∧ (∃ l, calls res.2 = calls st ++ l
          ∧ Forall (fun ev : Event =>
                      (next_ref st <= ev.1 < next_ref res.2)%nat) l)
  ∧ (∀ room, room ≠ room_id -> _tasks res.2 !! room = _tasks st !! room)
  ∧ match res.1 with
    | Returned _ => fresh
    | Raised e =>
        if is_Exception e then _tasks res.2 !! room_id = None else fresh
    | Unfinished => False
    end.
Proof. apply (policy_run_frame settings (clock st) 1), add_task_policy_run. Qed.

Lemma add_task_finishes settings st st' :
  add_task env settings st ≠ (Unfinished, st').
Proof.
  intros Heq. pose proof (add_task_frame settings st) as Hf. simpl in Hf.
  rewrite Heq in Hf. simpl in Hf. tauto.
Qed.

(** Creation keeps the registry within the allocated references. *)
Lemma add_task_allocated settings st :
  allocated st -> allocated (add_task env settings st).2.
Proof.
  intros Halloc room task Hlook.
  destruct (add_task_frame settings st)
    as (_ & Hnext & _ & _ & Hother & Hend).
  destruct (decide (room = TaskSettings.room_id settings)) as [-> | Hne].
  - destruct (add_task env settings st).1 as [[] | e |]; [| | done].
    + destruct Hend as (task' & Htask' & Hlook'). simplify_eq. lia.
    + destruct (is_Exception e); [congruence |].
      destruct Hend as (task' & Htask' & Hlook'). simplify_eq. lia.
  - rewrite Hother in Hlook by done.
    specialize (Halloc room task Hlook). lia.
Qed.
End Retry.

(** ** The readiness-gated lookup *)

Section GatedLookup.
Context `{TaskModels} (env : Env).

Lemma get_task_absent room_id check_ready st :
  _tasks st !! room_id = None ->
  _get_task room_id check_ready st = (Raised (no_task room_id), st).
Proof. intros Hreg. unfold _get_task, bind, get. simpl. by rewrite Hreg. Qed.

Lemma get_task_not_ready room_id task st :
  _tasks st !! room_id = Some task ->
  RecordTask.ready (objects st task) = false ->
  _get_task room_id true st = (Raised (not_ready_yet room_id), st).
Proof.
  intros Hreg Hready. unfold _get_task, bind, get, attrs. simpl.
  by rewrite Hreg, Hready.
Qed.

Lemma get_task_ready room_id task st :
  _tasks st !! room_id = Some task ->
  RecordTask.ready (objects st task) = true ->
  _get_task room_id true st = (Returned task, st).
Proof.
  intros Hreg Hready. unfold _get_task, bind, get, attrs. simpl.
  by rewrite Hreg, Hready.
Qed.

Lemma get_task_present room_id task st :
  _tasks st !! room_id = Some task ->
  _get_task room_id false st = (Returned task, st).
Proof. intros Hreg. unfold _get_task, bind, get, attrs. simpl. by rewrite Hreg. Qed.

(** An operation that begins with a failing lookup fails the same way
    and does nothing else. *)
Lemma gated_fails (op : Gated) room_id e st :
  _get_task room_id true st = (Raised e, st) ->
  gated env op room_id st = (Raised e, st).
Proof.
  intros Hget. destruct op; simpl.
  all: unfold remove_task, start_task, stop_task, enable_task_monitor,
    disable_task_monitor, enable_task_recorder, disable_task_recorder,
    update_task_info, get_task_data, get_task_param, get_task_metadata,
    get_task_stream_profile, get_task_video_file_details,
    get_task_danmaku_file_details, can_cut_stream, cut_stream.
  all: unfold bind at 1; by rewrite Hget.
Qed.

(** C1, as the code has it.  Every readiness-gated operation raises
    [NotFoundError] for a room that is absent from the registry (message
    "no task for the room N"), whatever else the registry holds, and it
    raises [NotFoundError] as well for a room that is registered with a job
    that is not ready (message "the task N is not ready yet").  The two
    failures are of the same class and differ by their message only;
    neither makes a job-level call or changes the manager. *)
Theorem gated_lookup_failures (op : Gated) (room_id : Z) (st : Manager) :
  (_tasks st !! room_id = None ->
   gated env op room_id st = (Raised (no_task room_id), st))
  ∧ (∀ task, _tasks st !! room_id = Some task ->
       RecordTask.ready (objects st task) = false ->
       gated env op room_id st = (Raised (not_ready_yet room_id), st))
  ∧ exn_class (no_task room_id) = NotFoundError
  ∧ exn_class (not_ready_yet room_id) = NotFoundError
  ∧ ∀ other, exn_msg (no_task room_id) ≠ exn_msg (not_ready_yet other).
Proof.
  split_and!.
  - intros Habsent. by apply gated_fails, get_task_absent.
  - intros task Hpresent Hready. by eapply gated_fails, get_task_not_ready.
  - done.
  - done.
  - intros other. simpl. discriminate.
Qed.
End GatedLookup.

(** [remove_task(999)] on the empty registry, and [cut_stream(1)] with
    room 1 registered and not ready. *)
Lemma gated_lookup_failures_witness :
  let env := Fixture.env_of Fixture.steady [] in
  (_tasks Fixture.empty !! 999 = None
   ∧ gated env RemoveTask 999 Fixture.empty
     = (Raised (no_task 999), Fixture.empty))
  ∧ (_tasks Fixture.unready1 !! 1 = Some 0%nat
     ∧ RecordTask.ready (objects Fixture.unready1 0%nat) = false
     ∧ gated env CutStream 1 Fixture.unready1
       = (Raised (not_ready_yet 1), Fixture.unready1)).
Proof.
  intros env.
  assert (_tasks Fixture.empty !! 999 = None) as Habsent by reflexivity.
  assert (_tasks Fixture.unready1 !! 1 = Some 0%nat) as Hpresent by reflexivity.
  assert (RecordTask.ready (objects Fixture.unready1 0%nat) = false) as Hready
    by reflexivity.
  destruct (gated_lookup_failures env RemoveTask 999 Fixture.empty)
    as (H1 & _).
  destruct (gated_lookup_failures env CutStream 1 Fixture.unready1)
    as (_ & H2 & _).
  split; [exact (conj Habsent (H1 Habsent)) |].
  exact (conj Hpresent (conj Hready (H2 0%nat Hpresent Hready))).
Defined.

(** C1 as stated fails: for a registered room whose job is not ready the
    operation raises [NotFoundError], the class it also raises for an absent
    room; there is no separate not-ready class. *)
Lemma not_ready_raises_NotFoundError :
  _tasks Fixture.unready1 !! 1 = Some 0%nat
  ∧ RecordTask.ready (objects Fixture.unready1 0%nat) = false
  ∧ _tasks Fixture.unready1 !! 2 = None
  ∧ (start_task (Fixture.env_of Fixture.steady []) 1 Fixture.unready1).1
    = Raised (mkExn NotFoundError "the task 1 is not ready yet")
  ∧ (start_task (Fixture.env_of Fixture.steady []) 2 Fixture.unready1).1
    = Raised (mkExn NotFoundError "no task for the room 2")
  ∧ exn_class (not_ready_yet 1) = exn_class (no_task 2).
Proof. split_and!; reflexivity. Qed.

(** ** Creation and the registry when creation raises *)

Section Creation.
Context `{TaskModels} (env : Env).

(** C2, as the code has it.  If [add_task settings] raises an error (an
    instance of [Exception]), whichever step failed and however many
    attempts the retry policy made, the room of [settings] is not in the
    registry afterwards.  If it raises something that is not an
    [Exception], as when the caller is cancelled during a job-level call,
    [except Exception] does not catch it and the room stays registered, to
    the handle the interrupted attempt constructed. *)
Theorem add_task_raises_deregistered (settings : TaskSettings.t)
    (st st' : Manager) (e : Exn) :
  add_task env settings st = (Raised e, st') ->
  let room_id := TaskSettings.room_id settings in
  if is_Exception e then has_task room_id st' = false
  else
    has_task room_id st' = true
    ∧ ∃ task, (next_ref st <= task < next_ref st')%nat
              ∧ _tasks st' !! room_id = Some task.
Proof.
  intros Hadd room_id.
  pose proof (add_task_frame env settings st) as Hframe. simpl in Hframe.
  rewrite Hadd in Hframe. simpl in Hframe.
  destruct Hframe as (_ & _ & _ & _ & _ & Hroom).
  unfold has_task. fold room_id in Hroom.
  destruct (is_Exception e).
  - rewrite Hroom. apply bool_decide_eq_false. by intros [? ?].
  - destruct Hroom as (task & Htask & Hlook). split; [| by exists task].
    rewrite Hlook. by apply bool_decide_eq_true.
Qed.
End Creation.

Lemma add_task_raises_deregistered_witness :
  let env := Fixture.env_of Fixture.times_out [] in
  let st' := (add_task env (Fixture.settings_for 100) Fixture.unready1).2 in
  add_task env (Fixture.settings_for 100) Fixture.unready1
  = (Raised (mkExn TimeoutError ""), st')
  ∧ has_task 100 st' = false.
Proof.
  intros env st'.
  assert (add_task env (Fixture.settings_for 100) Fixture.unready1
          = (Raised (mkExn TimeoutError ""), st')) as Hraised
    by (by vm_compute).
  split; [exact Hraised |].
  exact (add_task_raises_deregistered env (Fixture.settings_for 100)
           Fixture.unready1 st' (mkExn TimeoutError "") Hraised).
Defined.

(** C2 as stated fails when the caller is cancelled while [add_task]
    awaits [setup]: [add_task] raises [CancelledError], the handler of
    [except Exception] does not run, and room 100, which was not registered
    before the call, is registered afterwards to a job that is not ready. *)
Lemma add_task_cancelled_stays_registered :
  let env := Fixture.env_of Fixture.cancelled [] in
  let res := add_task env (Fixture.settings_for 100) Fixture.empty in
  has_task 100 Fixture.empty = false
  ∧ res.1 = Raised (mkExn CancelledError "")
  ∧ calls res.2 = [(0%nat, Job.setup)]
  ∧ has_task 100 res.2 = true
  ∧ _tasks res.2 !! 100 = Some 0%nat
  ∧ RecordTask.ready (objects res.2 0%nat) = false
  ∧ logs res.2 = [(INFO, AddingTask 100)].
Proof. split_and!; by vm_compute. Qed.

(** ** Bulk operations over a registry without a ready job *)

Section Bulk.
Context `{TaskModels} (env : Env).

(** The bulk operations that guard [asyncio.wait] with [if coros:] make
    no call and change nothing when no job is ready. *)
Lemma guarded_bulk_noop (st : Manager) (force : bool) :
  ready_items st = [] ->
  remove_all_tasks env st = (Returned tt, st)
  ∧ enable_all_task_monitors env st = (Returned tt, st)
  ∧ disable_all_task_monitors env st = (Returned tt, st)
  ∧ enable_all_task_recorders env st = (Returned tt, st)
  ∧ disable_all_task_recorders env force st = (Returned tt, st)
  ∧ update_all_task_infos env st = (Returned tt, st)
  ∧ start_all_tasks env st = (Returned tt, st)
  ∧ stop_all_tasks env force st = (Returned tt, st).
Proof.
  intros Hnone.
  assert (update_all_task_infos env st = (Returned tt, st)) as Hinfo.
  { unfold update_all_task_infos, bind, get. simpl. by rewrite Hnone. }
  assert (enable_all_task_monitors env st = (Returned tt, st)) as Hmon.
  { unfold enable_all_task_monitors, bind, get. simpl. by rewrite Hnone. }
  assert (enable_all_task_recorders env st = (Returned tt, st)) as Hrec.
  { unfold enable_all_task_recorders, bind, get. simpl. by rewrite Hnone. }
  assert (disable_all_task_monitors env st = (Returned tt, st)) as Hmon'.
  { unfold disable_all_task_monitors, bind, get. simpl. by rewrite Hnone. }
  assert (disable_all_task_recorders env force st = (Returned tt, st)) as Hrec'.
  { unfold disable_all_task_recorders, bind, get. simpl. by rewrite Hnone. }
  split_and!; try done.
  - unfold remove_all_tasks, bind, get. simpl. by rewrite Hnone.
  - unfold start_all_tasks, bind. by rewrite Hinfo, Hmon, Hrec.
  - unfold stop_all_tasks, bind. by rewrite Hrec', Hmon'.
Qed.

(** [destroy_all_tasks] guards on the registry being empty, not on the
    list of coroutines: over a registry that has entries of which none is
    ready it hands [asyncio.wait] an empty list, on either interpreter. *)
Lemma destroy_all_tasks_none_ready (st : Manager) :
  _tasks st ≠ ∅ ->
  ready_items st = [] ->
  destroy_all_tasks env st
  = (Raised (mkExn ValueError
               match python env with
               | Python.upto_3_10 => "Set of coroutines/Futures is empty."
               | Python.from_3_11 => "Set of Tasks/Futures is empty."
               end),
     with_log (INFO, DestroyingAllTasks) st).
Proof.
  intros Hsome Hnone.
  unfold destroy_all_tasks, bind, get, logger, modify. simpl.
  rewrite bool_decide_eq_false_2 by done.
  change (ready_items _) with (ready_items st). by rewrite Hnone.
Qed.

Lemma destroy_all_tasks_empty (st : Manager) :
  _tasks st = ∅ ->
  destroy_all_tasks env st
  = (Returned tt, with_log (INFO, DestroyingAllTasks) st).
Proof.
  intros Hempty.
  unfold destroy_all_tasks, bind, get, logger, modify. simpl.
  by rewrite bool_decide_eq_true_2.
Qed.
End Bulk.

(** C3 fails for [destroy_all_tasks].  With room 1 registered and its job
    not ready, no job is ready, and [destroy_all_tasks] raises the
    [ValueError] of [asyncio.wait] on an empty list instead of returning;
    the registry is not cleared. *)
Theorem destroy_all_tasks_raises_when_none_ready :
  let env := Fixture.env_of Fixture.steady [] in
  ready_items Fixture.unready1 = []
  ∧ destroy_all_tasks env Fixture.unready1
    = (Raised (mkExn ValueError "Set of coroutines/Futures is empty."),
       with_log (INFO, DestroyingAllTasks) Fixture.unready1)
  ∧ has_task 1 (destroy_all_tasks env Fixture.unready1).2 = true.
Proof. split_and!; reflexivity. Qed.

(** On Python 3.11 and later the same call raises the same [ValueError],
    worded differently: the empty list is rejected before the coroutine
    check is reached. *)
Example destroy_all_tasks_none_ready_from_3_11 :
  let env := Fixture.env_on Python.from_3_11 Fixture.steady [] in
  destroy_all_tasks env Fixture.unready1
  = (Raised (mkExn ValueError "Set of Tasks/Futures is empty."),
     with_log (INFO, DestroyingAllTasks) Fixture.unready1).
Proof. reflexivity. Qed.

(** ** The retry policy of creation *)

Section RetryPolicy.
Context `{TaskModels} (env : Env).

(** The exception [add_task] raises is the one its last attempt raised,
    and it is raised either because it is not of a retried kind or
    because 60 seconds have passed. *)
Lemma policy_run_raised settings start n st res :
  policy_run env settings start n st res ->
  ∀ e st', res = (Raised e, st') ->
    ∃ st0, add_task_attempt env settings st0 = (Raised e, st')
           ∧ (¬ retried e ∨ (60 * 1000 <= clock st' - start)%N).
Proof.
  induction 1 as [n st st1 Hrun | n st e0 st1 Hrun Hno | n st e0 st1 Hrun _ Hlate
                 | n st e0 st1 res Hrun _ _ _ IH];
    intros e st' Heq.
  - discriminate.
  - injection Heq as <- <-. exists st. auto.
  - injection Heq as <- <-. exists st. auto.
  - by apply IH.
Qed.

(** The policy leaves no choice: a run has one outcome. *)
Lemma policy_run_deterministic settings start n st r1 r2 :
  policy_run env settings start n st r1 ->
  policy_run env settings start n st r2 ->
  r1 = r2.
Proof.
  intros Hrun1. revert r2.
  induction Hrun1 as [n st st1 Hrun | n st e st1 Hrun Hno
                     | n st e st1 Hrun Hyes Hlate
                     | n st e st1 res Hrun Hyes Hearly _ IH];
    intros r2 Hrun2.
  all: inversion Hrun2 as [n' st' st2 Hrun' | n' st' e' st2 Hrun' Hno'
                          | n' st' e' st2 Hrun' Hyes' Hlate'
                          | n' st' e' st2 res' Hrun' Hyes' Hearly' Hnext'];
    subst.
  all: rewrite Hrun in Hrun'; try discriminate.
  all: simplify_eq; try done; try lia.
  by apply IH.
Qed.

Lemma add_task_reraises_last_error settings st e st' :
  add_task env settings st = (Raised e, st') ->
  ∃ st0, add_task_attempt env settings st0 = (Raised e, st')
         ∧ (¬ retried e ∨ (60 * 1000 <= clock st' - clock st)%N).
Proof.
  intros Hadd.
  eapply policy_run_raised; [apply add_task_policy_run | exact Hadd].
Qed.

Lemma add_task_other_error_not_retried settings st e st1 :
  add_task_attempt env settings st = (Raised e, st1) ->
  ¬ retried e ->
  add_task env settings st = (Raised e, st1).
Proof.
  intros Hrun Hno. unfold add_task, retry. rewrite retrying_unfold, Hrun.
  destruct (retry_if_exception_type _ e) eqn:Hretry; [| done].
  by apply retry_if_exception_type_retried in Hretry.
Qed.

Lemma add_task_retried_error_in_time settings st e st1 :
  add_task_attempt env settings st = (Raised e, st1) ->
  retried e ->
  (clock st1 - clock st < 60 * 1000)%N ->
  policy_run env settings (clock st) 2 (waited 1 st1)
    (add_task env settings st).
Proof.
  intros Hrun Hyes Hearly.
  pose proof (add_task_policy_run env settings st) as Hpol.
  inversion Hpol as [n st0 st2 Hrun' | n st0 e' st2 Hrun' Hno
                    | n st0 e' st2 Hrun' _ Hlate
                    | n st0 e' st2 res Hrun' _ _ Hnext]; subst.
  all: rewrite Hrun in Hrun'; try discriminate.
  all: injection Hrun' as <- <-; try done; try lia.
Qed.

(** C4.  [add_task] follows the retry policy: an attempt that raises a
    timeout, connection-layer or API-request error is repeated after a
    wait of [2 ^ (n - 1)] seconds capped at 10, as long as less than 60
    seconds have passed since the call began; once 60 seconds have passed
    the error of the last attempt is raised as it is; any other error is
    raised as it is by the attempt in which it first occurs.  The run
    always comes to an end. *)
Theorem add_task_retry_policy (settings : TaskSettings.t) (st : Manager) :
  policy_run env settings (clock st) 1 st (add_task env settings st).
Proof. apply add_task_policy_run. Qed.
End RetryPolicy.

(** Three attempts of 25 seconds each: waits of 1 and 2 seconds, and the
    timeout of the third attempt is raised at 78 seconds. *)
Example add_task_times_out :
  let res := add_task (Fixture.env_of Fixture.times_out [])
               (Fixture.settings_for 100) Fixture.empty in
  res.1 = Raised (mkExn TimeoutError "")
  ∧ calls res.2 = [(0, Job.setup); (1, Job.setup); (2, Job.setup)]%nat
  ∧ clock res.2 = 78000%N.
Proof. split_and!; by vm_compute. Qed.

(** ** Header updates that change nothing *)

Section HeaderNoop.
Context `{TaskModels} (env : Env).

(** C5.  When the job's user agent and cookie equal those of the
    bundle, [apply_task_header_settings] returns with the manager, the
    job's attributes and the call history as they were: nothing is
    assigned and [update_session] is not called, whatever
    [update_session] the caller passed. *)
Theorem apply_header_unchanged_noop (room_id : Z) (task : Ref)
    (settings : HeaderSettings.t) (update_session : bool) (st : Manager) :
  _tasks st !! room_id = Some task ->
  RecordTask.user_agent (objects st task) = HeaderSettings.user_agent settings ->
  RecordTask.cookie (objects st task) = HeaderSettings.cookie settings ->
  apply_task_header_settings env room_id settings update_session st
  = (Returned tt, st).
Proof.
  intros Hreg Hua Hcookie.
  unfold apply_task_header_settings, bind.
  rewrite (get_task_present _ _ _ Hreg). unfold attrs.
  by rewrite !bool_decide_eq_true_2.
Qed.
End HeaderNoop.

Lemma apply_header_unchanged_noop_witness :
  let env := Fixture.env_of Fixture.broken [] in
  _tasks Fixture.ready1 !! 1 = Some 0%nat
  ∧ RecordTask.user_agent (objects Fixture.ready1 0%nat)
    = HeaderSettings.user_agent Fixture.header0
  ∧ RecordTask.cookie (objects Fixture.ready1 0%nat)
    = HeaderSettings.cookie Fixture.header0
  ∧ apply_task_header_settings env 1 Fixture.header0 true Fixture.ready1
    = (Returned tt, Fixture.ready1).
Proof.
  intros env.
  assert (_tasks Fixture.ready1 !! 1 = Some 0%nat) as Hreg by reflexivity.
  assert (RecordTask.user_agent (objects Fixture.ready1 0%nat)
          = HeaderSettings.user_agent Fixture.header0) as Hua by reflexivity.
  assert (RecordTask.cookie (objects Fixture.ready1 0%nat)
          = HeaderSettings.cookie Fixture.header0) as Hcookie by reflexivity.
  split; [exact Hreg |]. split; [exact Hua |]. split; [exact Hcookie |].
  exact (apply_header_unchanged_noop env 1 0%nat Fixture.header0 true
           Fixture.ready1 Hreg Hua Hcookie).
Defined.

(** ** The order of job-level calls in [remove_task] and [start_task] *)

Section Ordering.
Context `{TaskModels} (env : Env).



End Ordering.



(** ** Loading the configured tasks *)

Section Batch.
Context `{TaskModels} (env : Env).

Lemma load_loop_batch (l : list TaskSettings.t) : ∀ st,
  let loop :=
    foldr (fun settings rest =>
             try_except (add_task env settings)
               (fun e => submit_exception e);;
             rest)
          (ret tt) l in
  (∃ st', loop st = (Returned tt, st') ∧ batch env l st st')
  ∨ (∃ e st', loop st = (Raised e, st')
              ∧ is_Exception e = false
              ∧ interrupted env l st e st').
Proof.
  induction l as [| settings l IH]; intros st; simpl.
  - left. exists st. split; [done | constructor].
  - unfold bind at 1 3, try_except.
    destruct (add_task env settings st) as [[[] | e |] st1] eqn:Hadd.
    + destruct (IH st1) as [(st' & Hrest & Hbatch) | (e & st' & Hrest & He & Hint)].
      * left. exists st'. split; [done | by eapply batch_created].
      * right. exists e, st'. split_and!; [done | done |].
        by eapply interrupted_created.
    + destruct (is_Exception e) eqn:Hkind.
      * destruct (IH (with_submitted e st1))
          as [(st' & Hrest & Hbatch) | (e' & st' & Hrest & He & Hint)].
        -- left. exists st'. split; [done | by eapply batch_failed].
        -- right. exists e', st'. split_and!; [done | done |].
           by eapply interrupted_failed.
      * right. exists e, st1. split_and!; [done | done |].
        by eapply interrupted_here.
    + exfalso. by eapply add_task_finishes.
Qed.

Lemma load_all_tasks_batch (st : Manager) :
  let settings_list :=
    SettingsManager.settings_list (_settings_manager env) in
  let st0 := with_log (INFO, LoadingAllTasks) st in
  (∃ st',
     load_all_tasks env st
     = (Returned tt, with_log (INFO, LoadAllTasksComplete) st')
     ∧ batch env settings_list st0 st')
  ∨ (∃ e st',
       load_all_tasks env st = (Raised e, st')
       ∧ is_Exception e = false
       ∧ interrupted env settings_list st0 e st').
Proof.
  intros settings_list st0.
  destruct (load_loop_batch settings_list st0)
    as [(st' & Hloop & Hbatch) | (e & st' & Hloop & He & Hint)];
    cbv zeta in Hloop.
  - left. exists st'. split; [| done].
    unfold load_all_tasks. unfold bind at 1. unfold logger at 1, modify.
    unfold bind at 1. fold settings_list st0. by rewrite Hloop.
  - right. exists e, st'. split_and!; [| done | done].
    unfold load_all_tasks. unfold bind at 1. unfold logger at 1, modify.
    unfold bind at 1. fold settings_list st0. by rewrite Hloop.
Qed.

Lemma add_task_returned_registered settings st st1 :
  add_task env settings st = (Returned tt, st1) ->
  has_task (TaskSettings.room_id settings) st1 = true.
Proof.
  intros Hadd.
  pose proof (add_task_frame env settings st) as Hframe. simpl in Hframe.
  rewrite Hadd in Hframe. simpl in Hframe.
  destruct Hframe as (_ & _ & _ & _ & _ & task & _ & Hroom).
  unfold has_task. rewrite Hroom. by apply bool_decide_eq_true.
Qed.

Lemma add_task_other_room settings st room :
  room ≠ TaskSettings.room_id settings ->
  has_task room (add_task env settings st).2 = has_task room st.
Proof.
  intros Hroom.
  pose proof (add_task_frame env settings st) as Hframe. simpl in Hframe.
  destruct Hframe as (_ & _ & _ & _ & Hother & _).
  unfold has_task. by rewrite Hother.
Qed.

Lemma add_task_submitted settings st :
  submitted (add_task env settings st).2 = submitted st.
Proof. apply (add_task_frame env settings st). Qed.

(** C8, as the code has it.  [load_all_tasks] never raises an error: it
    creates the entries of the settings list one after the other, in list
    order, submits the error of each creation that raises one and goes on
    with the next entry.  (What it does raise is what a creation raises
    that is not an [Exception], as when the caller is cancelled during a
    job-level call: [except Exception] does not catch it, and the entries
    that follow are not processed.)  For a list [A; B; C] of which only
    B's creation raises, and raises an error, B's error is the one
    submitted and C's room is registered at the end; A's room is
    registered at the end provided B's room is not A's room. *)
Theorem load_all_tasks_isolates_failures (st : Manager) :
  let settings_list :=
    SettingsManager.settings_list (_settings_manager env) in
  let st0 := with_log (INFO, LoadingAllTasks) st in
  ((∃ st',
      load_all_tasks env st
      = (Returned tt, with_log (INFO, LoadAllTasksComplete) st')
      ∧ batch env settings_list st0 st')
   ∨ (∃ e st',
        load_all_tasks env st = (Raised e, st')
        ∧ is_Exception e = false
        ∧ interrupted env settings_list st0 e st'))
  ∧ ∀ A B C stA e stB stC,
      settings_list = [A; B; C] ->
      add_task env A st0 = (Returned tt, stA) ->
      add_task env B stA = (Raised e, stB) ->
      add_task env C (with_submitted e stB) = (Returned tt, stC) ->
      if is_Exception e then
        load_all_tasks env st
        = (Returned tt, with_log (INFO, LoadAllTasksComplete) stC)
        ∧ submitted stC = submitted st ++ [e]
        ∧ has_task (TaskSettings.room_id C) stC = true
        ∧ (TaskSettings.room_id B ≠ TaskSettings.room_id A ->
           has_task (TaskSettings.room_id A) stC = true)
      else load_all_tasks env st = (Raised e, stB).
Proof.
  intros settings_list st0. split; [apply load_all_tasks_batch |].
  intros A B C stA e stB stC Hlist HA HB HC.
  destruct (is_Exception e) eqn:Hkind.
  2: { unfold load_all_tasks. fold settings_list. rewrite Hlist.
       unfold bind at 1. unfold logger at 1, modify. fold st0. cbn [foldr].
       unfold bind, try_except. by rewrite HA, HB, Hkind. }
  split_and!.
  - unfold load_all_tasks. fold settings_list. rewrite Hlist.
    unfold bind at 1. unfold logger at 1, modify. fold st0. cbn [foldr].
    unfold bind, try_except. rewrite HA, HB, Hkind.
    unfold submit_exception, modify. by rewrite HC.
  - pose proof (add_task_submitted C (with_submitted e stB)) as HsC.
    pose proof (add_task_submitted B stA) as HsB.
    pose proof (add_task_submitted A st0) as HsA.
    rewrite HC in HsC. rewrite HB in HsB. rewrite HA in HsA. simpl in *.
    by rewrite HsC, HsB, HsA.
  - exact (add_task_returned_registered _ _ _ HC).
  - intros Hrooms.
    assert (has_task (TaskSettings.room_id A) stB = true) as HregB.
    { pose proof (add_task_other_room B stA (TaskSettings.room_id A)) as Hother.
      rewrite HB in Hother. simpl in Hother. rewrite Hother by done.
      exact (add_task_returned_registered _ _ _ HA). }
    destruct (decide (TaskSettings.room_id A = TaskSettings.room_id C))
      as [-> | Hne].
    + exact (add_task_returned_registered _ _ _ HC).
    + pose proof (add_task_other_room C (with_submitted e stB)
                    (TaskSettings.room_id A) Hne) as Hother.
      rewrite HC in Hother. simpl in Hother. by rewrite Hother.
Qed.
End Batch.

Lemma load_all_tasks_isolates_failures_witness :
  let A := Fixture.settings_for 1 in
  let B := Fixture.settings_for 2 in
  let C := Fixture.settings_for 3 in
  let env := Fixture.env_of Fixture.second_fails [A; B; C] in
  let e := mkExn (OtherError "SetupError") "no stream" in
  let st0 := with_log (INFO, LoadingAllTasks) Fixture.empty in
  let stA := (add_task env A st0).2 in
  let stB := (add_task env B stA).2 in
  let stC := (add_task env C (with_submitted e stB)).2 in
  (add_task env A st0 = (Returned tt, stA)
   ∧ add_task env B stA = (Raised e, stB)
   ∧ add_task env C (with_submitted e stB) = (Returned tt, stC)
   ∧ TaskSettings.room_id B ≠ TaskSettings.room_id A)
  ∧ load_all_tasks env Fixture.empty
    = (Returned tt, with_log (INFO, LoadAllTasksComplete) stC)
  ∧ submitted stC = [e]
  ∧ has_task 3 stC = true
  ∧ has_task 1 stC = true.
Proof.
  intros A B C env e st0 stA stB stC.
  assert (add_task env A st0 = (Returned tt, stA)) as HA by (by vm_compute).
  assert (add_task env B stA = (Raised e, stB)) as HB by (by vm_compute).
  assert (add_task env C (with_submitted e stB) = (Returned tt, stC)) as HC
    by (by vm_compute).
  assert (TaskSettings.room_id B ≠ TaskSettings.room_id A) as Hrooms
    by (by vm_compute).
  split; [exact (conj HA (conj HB (conj HC Hrooms))) |].
  destruct (load_all_tasks_isolates_failures env Fixture.empty) as [_ Hlist].
  destruct (Hlist A B C stA e stB stC eq_refl HA HB HC)
    as (Hload & Hsub & HregC & HregA).
  split; [exact Hload |]. split; [exact Hsub |]. split; [exact HregC |].
  exact (HregA Hrooms).
Defined.

(** C8 as stated fails when B is an entry for A's room: A's creation
    returns, B's creation replaces A's handle, raises and deletes the room,
    and C's creation returns; only B has failed, and A's room is not
    registered at the end. *)
Lemma load_all_tasks_same_room_unregistered :
  let A := Fixture.settings_for 1 in
  let B := Fixture.settings_for 1 in
  let C := Fixture.settings_for 3 in
  let env := Fixture.env_of Fixture.second_fails [A; B; C] in
  let e := mkExn (OtherError "SetupError") "no stream" in
  let st0 := with_log (INFO, LoadingAllTasks) Fixture.empty in
  let stA := (add_task env A st0).2 in
  let stB := (add_task env B stA).2 in
  let stC := (add_task env C (with_submitted e stB)).2 in
  add_task env A st0 = (Returned tt, stA)
  ∧ has_task 1 stA = true
  ∧ add_task env B stA = (Raised e, stB)
  ∧ add_task env C (with_submitted e stB) = (Returned tt, stC)
  ∧ load_all_tasks env Fixture.empty
    = (Returned tt, with_log (INFO, LoadAllTasksComplete) stC)
  ∧ has_task (TaskSettings.room_id A) (load_all_tasks env Fixture.empty).2
    = false.
Proof. split_and!; by vm_compute. Qed.

(** ** The header applier without a session refresh *)

Section HeaderIdentity.
Context `{TaskModels} (env : Env).

Lemma set_header_same (settings : HeaderSettings.t) (t : RecordTask.t) :
  RecordTask.user_agent t = HeaderSettings.user_agent settings ->
  RecordTask.cookie t = HeaderSettings.cookie settings ->
  RecordTask.set_header settings t = t.
Proof.
  destruct t as [? ? ? ? ? ? ? ? [ua ck] ? ? ? ?], settings as [ua' ck'].
  unfold RecordTask.user_agent, RecordTask.cookie, RecordTask.set_header.
  simpl. by intros -> ->.
Qed.

Lemma set_cookie_user_agent (settings : HeaderSettings.t) (t : RecordTask.t) :
  RecordTask.set_cookie (HeaderSettings.cookie settings)
    (RecordTask.set_user_agent (HeaderSettings.user_agent settings) t)
  = RecordTask.set_header settings t.
Proof. by destruct settings. Qed.

Lemma apply_header_no_refresh room_id task settings st :
  _tasks st !! room_id = Some task ->
  apply_task_header_settings env room_id settings false st
  = if bool_decide (RecordTask.user_agent (objects st task)
                    = HeaderSettings.user_agent settings)
       && bool_decide (RecordTask.cookie (objects st task)
                       = HeaderSettings.cookie settings)
    then (Returned tt, st)
    else
      let st1 :=
        set_object task
          (RecordTask.set_user_agent (HeaderSettings.user_agent settings)
             (objects st task)) st in
      (Returned tt,
       set_object task
         (RecordTask.set_cookie (HeaderSettings.cookie settings)
            (objects st1 task)) st1).
Proof.
  intros Hreg. unfold apply_task_header_settings, bind.
  rewrite (get_task_present _ _ _ Hreg). unfold attrs.
  by destruct (_ && _).
Qed.

(** Called by creation on the handle it has just registered, the header
    applier returns with the identity of the bundle on that handle and
    nothing else changed. *)
Lemma apply_header_identity room_id task settings st :
  _tasks st !! room_id = Some task ->
  ∃ st1,
    apply_task_header_settings env room_id settings false st
    = (Returned tt, st1)
    ∧ objects st1 task = RecordTask.set_header settings (objects st task)
    ∧ _tasks st1 = _tasks st
    ∧ calls st1 = calls st
    ∧ logs st1 = logs st.
Proof.
  intros Hreg. rewrite (apply_header_no_refresh _ _ _ _ Hreg).
  destruct (bool_decide _ && bool_decide _) eqn:Hsame.
  - apply andb_true_iff in Hsame as [Hua Hck].
    apply bool_decide_eq_true in Hua, Hck.
    exists st. split_and!; try done. by rewrite set_header_same.
  - eexists. split; [reflexivity |]. simpl.
    split_and!; try done.
    by rewrite !decide_True, set_cookie_user_agent.
Qed.

(** An attempt of [add_task] whose [setup] raises: [setup] was called on
    the handle the attempt constructed, which carried the attributes of
    [at_setup], and it is the only call made. *)
Lemma add_task_attempt_setup_raises settings st t e :
  at_setup env settings = inr t ->
  Job.raised (job env (calls st) (next_ref st) Job.setup t) = Some e ->
  let res := add_task_attempt env settings st in
  res.1 = Raised e
  ∧ calls res.2 = calls st ++ [(next_ref st, Job.setup)]
  ∧ objects res.2 (next_ref st)
    = Job.after (job env (calls st) (next_ref st) Job.setup t).
Proof.
  intros Hat Hraised res. subst res.
  unfold at_setup in Hat.
  destruct (SettingsManager.final_header _ _ _) as [e0 | final] eqn:Hfinal;
    [done |].
  injection Hat as <-.
  unfold add_task_attempt, bind, logger, new_RecordTask, modify, try_except.
  simpl.
  set (room_id := TaskSettings.room_id settings) in *.
  set (task := next_ref st) in *.
  match goal with
  | |- context [add_task_steps env settings task ?s] => set (st0 := s)
  end.
  assert (_tasks st0 !! room_id = Some task) as Hreg.
  { subst st0. simpl. by rewrite lookup_insert_eq. }
  assert (objects st0 task = RecordTask_init env room_id) as Hinit.
  { subst st0. simpl. by rewrite decide_True. }
  destruct (apply_header_identity room_id task final st0 Hreg)
    as (st1 & Hhdr & Hobj & Ht & Hcalls & Hlogs).
  rewrite Hinit in Hobj.
  assert (∃ st2,
            add_task_steps env settings task st0 = (Raised e, st2)
            ∧ _tasks st2 = _tasks st0
            ∧ calls st2 = calls st ++ [(task, Job.setup)]
            ∧ objects st2 task
              = Job.after
                  (job env (calls st) task Job.setup
                     (RecordTask.set_header final
                        (RecordTask_init env room_id))))
    as (st2 & Hsteps & Ht2 & Hcalls2 & Hobj2).
  { unfold add_task_steps. fold room_id. unfold bind at 1.
    unfold sm_apply_task_header_settings. rewrite Hfinal, Hhdr.
    unfold bind at 1, await at 1. rewrite Hobj, Hcalls.
    change (calls st0) with (calls st). rewrite Hraised.
    eexists. split; [reflexivity |]. simpl.
    split_and!; [done | done | by rewrite decide_True]. }
  rewrite Hsteps.
  destruct (is_Exception e); simpl; [| done].
  unfold del_task.
  change (_tasks (with_log (ERROR, FailedToAddTask room_id e) st2))
    with (_tasks st2).
  rewrite Ht2, Hreg. simpl. done.
Qed.
End HeaderIdentity.

(** ** Creating a task for a room that is already registered *)

Section Replacement.
Context `{TaskModels} (env : Env).

(** C9.  When [add_task] is called for a room that is registered to a
    handle [old], it constructs a new handle and registers the room to it
    before it does anything else: every job-level call it makes is made on
    a handle it constructed itself, none on [old], and the attributes of
    [old] are left as they were.  If it returns, the room is registered to
    a handle this call constructed; if it raises an error, the room is not
    registered at all, although it was before the call.  That the new
    handle is in place before [setup] shows when [setup] raises: [setup]
    is called on the new handle, carrying what the constructor and the
    header bundle gave it, and if what it raises is not an [Exception], so
    that nothing is deregistered, the room is found registered to the new
    handle, not to [old]. *)
Theorem add_task_replaces (settings : TaskSettings.t) (old : Ref)
    (st : Manager) :
  _tasks st !! TaskSettings.room_id settings = Some old ->
  (old < next_ref st)%nat ->
  let room_id := TaskSettings.room_id settings in
  let new := next_ref st in
  let res := add_task env settings st in
  let replaced :=
    ∃ task, (next_ref st <= task < next_ref res.2)%nat
            ∧ task ≠ old
            ∧ _tasks res.2 !! room_id = Some task in
  objects res.2 old = objects st old
  ∧ (∃ l, calls res.2 = calls st ++ l
          ∧ Forall (fun ev : Event =>
                      ev.1 ≠ old
                      ∧ (next_ref st <= ev.1 < next_ref res.2)%nat) l)
  ∧ match res.1 with
    | Returned _ => replaced
    | Raised e =>
        if is_Exception e then _tasks res.2 !! room_id = None else replaced
    | Unfinished => False
    end
  ∧ ∀ t e,
      at_setup env settings = inr t ->
      Job.raised (job env (calls st) new Job.setup t) = Some e ->
      ¬ retried e ->
      res.1 = Raised e
      ∧ calls res.2 = calls st ++ [(new, Job.setup)]
      ∧ objects res.2 new = Job.after (job env (calls st) new Job.setup t)
      ∧ _tasks res.2 !! room_id
        = if is_Exception e then None else Some new.
Proof.
  intros Hreg Hold room_id new res. subst res. cbv zeta.
  destruct (add_task_frame env settings st)
    as (_ & _ & Hobj & (l & Hcalls & Hall) & _ & Hend).
  split_and!.
  - by apply Hobj.
  - exists l. split; [done |].
    eapply Forall_impl; [exact Hall |]. simpl. intros ev Hev. lia.
  - fold room_id in Hend.
    destruct (add_task env settings st).1 as [[] | e |]; [| | done].
    + destruct Hend as (task & Htask & Hlook).
      exists task. split; [lia |]. split; [lia | done].
    + destruct (is_Exception e); [done |].
      destruct Hend as (task & Htask & Hlook).
      exists task. split; [lia |]. split; [lia | done].
  - intros t e Hat Hraised Hno.
    destruct (add_task_attempt_setup_raises env settings st t e Hat Hraised)
      as (Hres & Hcalls1 & Hobj1).
    pose proof (add_task_attempt_spec env settings st) as Hspec.
    cbv zeta in Hspec.
    destruct (add_task_attempt env settings st) as [out st1] eqn:Hrun.
    simpl in Hres, Hcalls1, Hobj1, Hspec. subst out.
    rewrite (add_task_other_error_not_retried env settings st e st1 Hrun Hno).
    destruct Hspec as (_ & _ & _ & _ & _ & Ht). simpl.
    split; [done |]. split; [done |]. split; [done |].
    rewrite Ht. fold room_id new.
    destruct (is_Exception e).
    + by rewrite lookup_delete_eq.
    + by rewrite lookup_insert_eq.
Qed.
End Replacement.

Lemma add_task_replaces_witness :
  let env := Fixture.env_of Fixture.second_fails [] in
  let res := add_task env (Fixture.settings_for 1) Fixture.ready1 in
  let e := mkExn (OtherError "SetupError") "no stream" in
  _tasks Fixture.ready1 !! 1 = Some 0%nat
  ∧ (0 < next_ref Fixture.ready1)%nat
  ∧ objects res.2 0%nat = objects Fixture.ready1 0%nat
  ∧ res.1 = Raised e
  ∧ calls res.2 = calls Fixture.ready1 ++ [(1%nat, Job.setup)]
  ∧ _tasks res.2 !! 1 = None.
Proof.
  intros env res e.
  assert (_tasks Fixture.ready1 !! 1 = Some 0%nat) as Hreg by reflexivity.
  assert (0 < next_ref Fixture.ready1)%nat as Hold by (simpl; lia).
  destruct (add_task_replaces env (Fixture.settings_for 1) 0%nat Fixture.ready1
              Hreg Hold) as (Hobj & _ & _ & Hsetup).
  destruct (Hsetup
              (RecordTask.set_header Fixture.header1 Fixture.fresh_task) e
              eq_refl eq_refl)
    as (Hres & Hcalls & _ & Hroom).
  { unfold retried. simpl. intros [? | [? | ?]]; discriminate. }
  split; [exact Hreg |]. split; [exact Hold |]. split; [exact Hobj |].
  split; [exact Hres |]. split; [exact Hcalls | exact Hroom].
Defined.

(** The caller is cancelled while [add_task] awaits [setup] for room 1,
    which was registered to handle 0: nothing is deregistered, and room 1
    is found registered to the new handle 1, whose job is not ready;
    handle 0 has not been called. *)
Example add_task_cancelled_after_replacing :
  let env := Fixture.env_of Fixture.cancelled [] in
  let res := add_task env (Fixture.settings_for 1) Fixture.ready1 in
  _tasks Fixture.ready1 !! 1 = Some 0%nat
  ∧ res.1 = Raised (mkExn CancelledError "")
  ∧ calls res.2 = [(1%nat, Job.setup)]
  ∧ _tasks res.2 !! 1 = Some 1%nat
  ∧ RecordTask.ready (objects res.2 1%nat) = false.
Proof. split_and!; by vm_compute. Qed.

(** ** The appliers look the job up without the readiness gate *)

Section Appliers.
Context `{TaskModels} (env : Env).

Lemma writes_assign task a f st :
  Attr.is_identity a = false ->
  writes env task (assign env task a f) f st.
Proof.
  intros Ha. unfold writes, assign. cbv zeta. rewrite Ha. simpl.
  destruct (RecordTask.ready (objects st task)) eqn:Hready; simpl.
  - split_and!; [| done | by rewrite decide_True].
    repeat split; simpl; try done; try lia.
    + intros r Hr. by rewrite decide_False.
    + exists []. by rewrite app_nil_r.
  - destruct (RecordTask_setattr env (calls st) task a (objects st task))
      as [e |] eqn:Hset; simpl.
    + split_and!; [apply only_on_refl | done | done |].
      by exists a, (objects st task).
    + split_and!; [| done | by rewrite decide_True].
      repeat split; simpl; try done; try lia.
      * intros r Hr. by rewrite decide_False.
      * exists []. by rewrite app_nil_r.
Qed.

Lemma writes_seq task (m1 m2 : M unit) f1 f2 st :
  writes env task m1 f1 st ->
  (∀ t, RecordTask.ready (f1 t) = RecordTask.ready t) ->
  (∀ st1, writes env task m2 f2 st1) ->
  writes env task (m1;; m2) (fun t => f2 (f1 t)) st.
Proof.
  intros (Hon1 & Hcalls1 & Hend1) Hready H2. unfold writes, bind.
  destruct (m1 st) as [[[] | e |] st1]; simpl in *; [| done | done].
  destruct (H2 st1) as (Hon2 & Hcalls2 & Hend2).
  split_and!.
  - by eapply only_on_trans.
  - congruence.
  - destruct (m2 st1).1 as [[] | e |]; [| | done].
    + congruence.
    + destruct Hend2 as (Hnot & a & t & Ha & Hset).
      split; [by rewrite Hend1, Hready in Hnot |].
      exists a, t. by rewrite <- Hcalls1.
Qed.

Lemma writes_ext task (m : M unit) f g st :
  (∀ t, f t = g t) -> writes env task m f st -> writes env task m g st.
Proof.
  intros Hfg (Hon & Hcalls & Hend). unfold writes. split_and!; [done | done |].
  destruct (m st).1 as [[] | e |]; [| done | done]. by rewrite <- Hfg.
Qed.

Lemma writes_lookup room_id task (k : Ref -> M unit) f st :
  _tasks st !! room_id = Some task ->
  writes env task (k task) f st ->
  writes env task (let* task := _get_task room_id false in k task) f st.
Proof.
  intros Hreg Hk. unfold writes, bind in *.
  by rewrite (get_task_present _ _ _ Hreg).
Qed.

Ltac copies :=
  repeat (eapply writes_seq;
          [by apply writes_assign | done | intros ?]);
  by apply writes_assign.

(** The four appliers without change detection, on a registered room:
    the fields of the bundle are assigned to the job one after the other,
    whatever its [ready] flag; the applier returns, having copied the
    bundle, unless the job, not being ready, refuses an assignment. *)
Lemma apply_output_writes room_id task settings st :
  _tasks st !! room_id = Some task ->
  writes env task (apply_task_output_settings env room_id settings)
    (RecordTask.set_output settings) st.
Proof.
  intros Hreg. unfold apply_task_output_settings.
  apply writes_lookup; [done |].
  eapply writes_ext; [| copies].
  intros t. by destruct settings.
Qed.

Lemma apply_danmaku_writes room_id task settings st :
  _tasks st !! room_id = Some task ->
  writes env task (apply_task_danmaku_settings env room_id settings)
    (RecordTask.set_danmaku settings) st.
Proof.
  intros Hreg. unfold apply_task_danmaku_settings.
  apply writes_lookup; [done |].
  eapply writes_ext; [| copies].
  intros t. by destruct settings.
Qed.

Lemma apply_recorder_writes room_id task settings st :
  _tasks st !! room_id = Some task ->
  writes env task (apply_task_recorder_settings env room_id settings)
    (RecordTask.set_recorder settings) st.
Proof.
  intros Hreg. unfold apply_task_recorder_settings.
  apply writes_lookup; [done |].
  eapply writes_ext; [| copies].
  intros t. by destruct settings.
Qed.

Lemma apply_postprocessing_writes room_id task settings st :
  _tasks st !! room_id = Some task ->
  writes env task (apply_task_postprocessing_settings env room_id settings)
    (RecordTask.set_postprocessing settings) st.
Proof.
  intros Hreg. unfold apply_task_postprocessing_settings.
  apply writes_lookup; [done |].
  eapply writes_ext; [| copies].
  intros t. by destruct settings.
Qed.

(** What [writes] says of a job that is ready: the step returns. *)
Lemma writes_ready task (m : M unit) f st :
  writes env task m f st ->
  RecordTask.ready (objects st task) = true ->
  (m st).1 = Returned tt.
Proof.
  intros (_ & _ & Hend) Hready.
  destruct (m st).1 as [[] | e |]; [done | | done].
  destruct Hend as [Hnot _]. congruence.
Qed.

(** The header applier on a registered room: it returns, unless it
    called the job's [update_session] and that call raised. *)
Lemma apply_header_present room_id task settings update_session st :
  _tasks st !! room_id = Some task ->
  match
    (apply_task_header_settings env room_id settings update_session st).1
  with
  | Returned _ => True
  | Raised e =>
      update_session = true
      ∧ ∃ t, Job.raised (job env (calls st) task Job.update_session t)
             = Some e
  | Unfinished => False
  end.
Proof.
  intros Hreg.
  unfold apply_task_header_settings. unfold bind at 1.
  rewrite (get_task_present _ _ _ Hreg). unfold bind at 1, attrs at 1.
  destruct (_ && _); [done |].
  unfold bind at 1, assign at 1. cbv zeta. simpl (Attr.is_identity _ || _).
  unfold bind at 1, assign at 1. cbv zeta. simpl (Attr.is_identity _ || _).
  destruct update_session; [| done].
  unfold bind, await. simpl.
  match goal with
  | |- context [Job.raised ?r] => destruct (Job.raised r) eqn:Hraised
  end; simpl; [| done].
  split; [done | by eexists].
Qed.

(** The lookup of the appliers fails for an absent room only. *)
Lemma appliers_absent room_id st header update_session output danmaku
    recorder postprocessing :
  _tasks st !! room_id = None ->
  apply_task_header_settings env room_id header update_session st
  = (Raised (no_task room_id), st)
  ∧ apply_task_output_settings env room_id output st
    = (Raised (no_task room_id), st)
  ∧ apply_task_danmaku_settings env room_id danmaku st
    = (Raised (no_task room_id), st)
  ∧ apply_task_recorder_settings env room_id recorder st
    = (Raised (no_task room_id), st)
  ∧ apply_task_postprocessing_settings env room_id postprocessing st
    = (Raised (no_task room_id), st).
Proof.
  intros Habsent. split_and!.
  - unfold apply_task_header_settings, bind.
    by rewrite (get_task_absent _ _ _ Habsent).
  - unfold apply_task_output_settings, bind.
    by rewrite (get_task_absent _ _ _ Habsent).
  - unfold apply_task_danmaku_settings, bind.
    by rewrite (get_task_absent _ _ _ Habsent).
  - unfold apply_task_recorder_settings, bind.
    by rewrite (get_task_absent _ _ _ Habsent).
  - unfold apply_task_postprocessing_settings, bind.
    by rewrite (get_task_absent _ _ _ Habsent).
Qed.

(** C10, as the code has it.  The five appliers look the job up without
    the readiness gate.  On a room that is not registered all five raise
    [NotFoundError] ("no task for the room N") and change nothing.  On a
    registered room none of them fails in the lookup, whatever the [ready]
    flag of the job.  The four appliers without change detection go on to
    assign the fields of their bundle to the job: they return, with the
    bundle copied onto the job, when the job is ready and whenever the job
    accepts the assignments; when a job that is not ready refuses an
    assignment, the applier raises what the job raised.  The header applier
    returns unless it called the job's [update_session] and that call
    raised.  No applier raises the not-ready error of the gated lookup. *)
Theorem appliers_not_gated (room_id : Z) (st : Manager)
    (header : HeaderSettings.t) (update_session : bool)
    (output : OutputSettings.t) (danmaku : DanmakuSettings.t)
    (recorder : RecorderSettings.t)
    (postprocessing : PostprocessingSettings.t) :
  let on_header :=
    apply_task_header_settings env room_id header update_session in
  let on_output := apply_task_output_settings env room_id output in
  let on_danmaku := apply_task_danmaku_settings env room_id danmaku in
  let on_recorder := apply_task_recorder_settings env room_id recorder in
  let on_postprocessing :=
    apply_task_postprocessing_settings env room_id postprocessing in
  match _tasks st !! room_id with
  | None =>
      on_header st = (Raised (no_task room_id), st)
      ∧ on_output st = (Raised (no_task room_id), st)
      ∧ on_danmaku st = (Raised (no_task room_id), st)
      ∧ on_recorder st = (Raised (no_task room_id), st)
      ∧ on_postprocessing st = (Raised (no_task room_id), st)
  | Some task =>
      writes env task on_output (RecordTask.set_output output) st
      ∧ writes env task on_danmaku (RecordTask.set_danmaku danmaku) st
      ∧ writes env task on_recorder (RecordTask.set_recorder recorder) st
      ∧ writes env task on_postprocessing
          (RecordTask.set_postprocessing postprocessing) st
      ∧ (RecordTask.ready (objects st task) = true ->
         (on_output st).1 = Returned tt
         ∧ (on_danmaku st).1 = Returned tt
         ∧ (on_recorder st).1 = Returned tt
         ∧ (on_postprocessing st).1 = Returned tt)
      ∧ match (on_header st).1 with
        | Returned _ => True
        | Raised e =>
            update_session = true
            ∧ ∃ t, Job.raised (job env (calls st) task Job.update_session t)
                   = Some e
        | Unfinished => False
        end
  end.
Proof.
  cbv zeta. destruct (_tasks st !! room_id) as [task |] eqn:Hreg.
  - pose proof (apply_output_writes room_id task output st Hreg) as Hout.
    pose proof (apply_danmaku_writes room_id task danmaku st Hreg) as Hdan.
    pose proof (apply_recorder_writes room_id task recorder st Hreg) as Hrec.
    pose proof (apply_postprocessing_writes room_id task postprocessing st
                  Hreg) as Hpost.
    split; [exact Hout |]. split; [exact Hdan |]. split; [exact Hrec |].
    split; [exact Hpost |]. split.
    + intros Hready.
      split; [exact (writes_ready _ _ _ _ Hout Hready) |].
      split; [exact (writes_ready _ _ _ _ Hdan Hready) |].
      split; [exact (writes_ready _ _ _ _ Hrec Hready) |].
      exact (writes_ready _ _ _ _ Hpost Hready).
    + by apply apply_header_present.
  - by apply appliers_absent.
Qed.
End Appliers.

(** On the empty registry every applier raises [NotFoundError]; on a
    registered room whose job is ready the output bundle is copied. *)
Lemma appliers_not_gated_witness :
  let env := Fixture.env_of Fixture.steady [] in
  (apply_task_output_settings env 999 Fixture.output1 Fixture.empty
   = (Raised (no_task 999), Fixture.empty)
   ∧ apply_task_header_settings env 999 Fixture.header1 true Fixture.empty
     = (Raised (no_task 999), Fixture.empty))
  ∧ ((apply_task_output_settings env 1 Fixture.output1 Fixture.ready1).1
     = Returned tt
     ∧ objects
         (apply_task_output_settings env 1 Fixture.output1 Fixture.ready1).2
         0%nat
       = RecordTask.set_output Fixture.output1
           (objects Fixture.ready1 0%nat)).
Proof.
  intros env.
  pose proof (appliers_not_gated env 999 Fixture.empty Fixture.header1 true
                Fixture.output1 Fixture.danmaku0 Fixture.recorder0
                Fixture.postprocessing0) as Habsent.
  pose proof (appliers_not_gated env 1 Fixture.ready1 Fixture.header1 true
                Fixture.output1 Fixture.danmaku0 Fixture.recorder0
                Fixture.postprocessing0) as Hpresent.
  cbv zeta in Habsent, Hpresent.
  change (_tasks Fixture.empty !! 999) with (@None nat) in Habsent.
  change (_tasks Fixture.ready1 !! 1) with (Some 0%nat) in Hpresent.
  destruct Habsent as (Hhdr & Hout & _).
  destruct Hpresent as ((_ & _ & Hend) & _ & _ & _ & Hready & _).
  destruct (Hready eq_refl) as (Hret & _).
  split; [exact (conj Hout Hhdr) |].
  split; [exact Hret |].
  rewrite Hret in Hend. exact Hend.
Defined.

(** C10 as stated fails for a job that is not ready.  Room 1 is
    registered and its job has not been set up: the lookup succeeds, but
    the job has none of the parts the output attributes are kept in and the
    first assignment raises [AttributeError], which is what the applier
    raises; nothing has been assigned.  The header applier, whose
    attributes the job has from its construction, goes through on the same
    job, and raises only what [update_session] raises. *)
Lemma appliers_raise_on_unready_job :
  let st := Fixture.unready1 in
  let refused :=
    mkExn (OtherError "AttributeError")
      "'RecordTask' object has no attribute '_recorder'" in
  _tasks st !! 1 = Some 0%nat
  ∧ RecordTask.ready (objects st 0%nat) = false
  ∧ apply_task_output_settings (Fixture.env_of Fixture.steady []) 1
      Fixture.output1 st
    = (Raised refused, st)
  ∧ (apply_task_header_settings (Fixture.env_of Fixture.steady []) 1
       Fixture.header1 true st).1
    = Returned tt
  ∧ (apply_task_header_settings (Fixture.env_of Fixture.broken []) 1
       Fixture.header1 true st).1
    = Raised (mkExn (OtherError "JobError") "").
Proof. split_and!; reflexivity. Qed.

(** * Further properties *)

(** ** Stopping a task *)

Section Stopping.
Context `{TaskModels} (env : Env).


End Stopping.


(** ** Bulk steps *)

Section FanOut.
Context `{TaskModels} (env : Env).

Lemma await_step task c st :
  step_frame st (await env task c st).2
  ∧ calls (await env task c st).2 = calls st ++ [(task, c)].
Proof. unfold await. by destruct (Job.raised _). Qed.

Lemma completed_coro task c st :
  completed (coro env task c) st = (Returned tt, (await env task c st).2).
Proof.
  unfold completed, coro, bind, await, ret. by destruct (Job.raised _).
Qed.

Lemma wait_loop_cons task c (k : M unit) st :
  (completed (coro env task c);; k) st = k (await env task c st).2.
Proof. unfold bind. by rewrite completed_coro. Qed.

Lemma wait_loop_coros c : ∀ (l : list (Z * nat)) st,
  let res :=
    foldr (fun co k => completed co;; k) (ret tt)
      (map (fun it : Z * nat => coro env it.2 c) l) st in
  res.1 = Returned tt
  ∧ step_frame st res.2
  ∧ calls res.2 = calls st ++ map (fun it : Z * nat => (it.2, c)) l.
Proof.
  induction l as [| [room task] l IH]; intros st; simpl.
  { split_and!; [done | done | by rewrite app_nil_r]. }
  rewrite !wait_loop_cons.
  destruct (await_step task c st) as [(Ht0 & Hn0 & Hl0 & Hs0) Hcalls0].
  destruct (IH (await env task c st).2) as (Hres & (Ht & Hn & Hl & Hs) & Hcalls).
  cbv zeta in *.
  split_and!; [done | | by rewrite Hcalls, Hcalls0, <- app_assoc].
  unfold step_frame.
  split_and!; [by rewrite Ht | by rewrite Hn | by rewrite Hl | by rewrite Hs].
Qed.

Lemma asyncio_wait_tasks (fs : list (M unit)) st :
  python env = Python.upto_3_10 ->
  fs ≠ [] ->
  asyncio_wait env fs st
  = foldr (fun co k => completed co;; k) (ret tt) fs st.
Proof. intros Hpy Hfs. unfold asyncio_wait. rewrite Hpy. by destruct fs. Qed.

Lemma asyncio_wait_forbidden (fs : list (M unit)) st :
  python env = Python.from_3_11 ->
  fs ≠ [] ->
  asyncio_wait env fs st = (Raised coroutines_forbidden, st).
Proof. intros Hpy Hfs. unfold asyncio_wait. rewrite Hpy. by destruct fs. Qed.

(** A guarded fan-out, [if coros: await asyncio.wait(coros)], on Python
    3.11 and later. *)
Lemma guarded_wait_stops (f : Z * nat -> M unit) (m : M unit) st :
  python env = Python.from_3_11 ->
  m st
  = match map f (ready_items st) with
    | [] => ret tt
    | _ => asyncio_wait env (map f (ready_items st))
    end st ->
  stops m st.
Proof.
  intros Hpy Hm. unfold stops. rewrite Hm.
  destruct (ready_items st) as [| it l] eqn:Hitems; [done |].
  cbn [map]. by apply asyncio_wait_forbidden.
Qed.

Lemma bulk_step c st (m : M unit) :
  m st
  = match map (fun it : Z * nat => coro env it.2 c) (ready_items st) with
    | [] => ret tt
    | _ =>
        asyncio_wait env
          (map (fun it : Z * nat => coro env it.2 c) (ready_items st))
    end st ->
  bulk_step_runs env m c st.
Proof.
  intros Hm. unfold bulk_step_runs.
  destruct (python env) eqn:Hpy; [| by eapply guarded_wait_stops].
  unfold fans_out, fan_out. rewrite Hm.
  destruct (ready_items st) as [| it l] eqn:Hitems.
  { simpl. split_and!; [done | done |]. exists []. by rewrite app_nil_r. }
  cbn [map]. rewrite asyncio_wait_tasks by done.
  destruct (wait_loop_coros c (it :: l) st) as (Hres & Hframe & Hcalls).
  split_and!; [exact Hres | exact Hframe |]. by eexists.
Qed.

Lemma enable_all_task_monitors_runs st :
  bulk_step_runs env (enable_all_task_monitors env) Job.enable_monitor st.
Proof. apply bulk_step. reflexivity. Qed.

Lemma disable_all_task_monitors_runs st :
  bulk_step_runs env (disable_all_task_monitors env) Job.disable_monitor st.
Proof. apply bulk_step. reflexivity. Qed.

Lemma enable_all_task_recorders_runs st :
  bulk_step_runs env (enable_all_task_recorders env) Job.enable_recorder st.
Proof. apply bulk_step. reflexivity. Qed.

Lemma disable_all_task_recorders_runs force st :
  bulk_step_runs env (disable_all_task_recorders env force)
    (Job.disable_recorder force) st.
Proof. apply bulk_step. reflexivity. Qed.

Lemma update_all_task_infos_runs st :
  bulk_step_runs env (update_all_task_infos env) Job.update_info st.
Proof. apply bulk_step. reflexivity. Qed.

Lemma runs_tasks (m : M unit) c st :
  python env = Python.upto_3_10 ->
  bulk_step_runs env m c st -> fans_out m c st.
Proof. unfold bulk_step_runs. by intros ->. Qed.

Lemma runs_forbidden (m : M unit) c st :
  python env = Python.from_3_11 ->
  bulk_step_runs env m c st -> stops m st.
Proof. unfold bulk_step_runs. by intros ->. Qed.

Lemma step_frame_trans st1 st2 st3 :
  step_frame st1 st2 -> step_frame st2 st3 -> step_frame st1 st3.
Proof.
  intros (? & ? & ? & ?) (? & ? & ? & ?).
  unfold step_frame. split_and!; congruence.
Qed.

Lemma fan_out_ready c st ev :
  ev ∈ fan_out c st ->
  ev.2 = c
  ∧ ∃ room, _tasks st !! room = Some ev.1
            ∧ RecordTask.ready (objects st ev.1) = true.
Proof.
  unfold fan_out, ready_items. intros Hin.
  apply list_elem_of_fmap in Hin as ([room task] & -> & Hin).
  apply list_elem_of_In, filter_In in Hin as [Hin Hready].
  apply list_elem_of_In, elem_of_map_to_list in Hin.
  split; [done |]. by exists room.
Qed.

(** A sequence of steps of which the first stops, stops. *)
Lemma stops_first (m k : M unit) st :
  stops m st ->
  (ready_items st = [] -> k st = (Returned tt, st)) ->
  stops (m;; k) st.
Proof.
  unfold stops, bind. intros Hm Hk.
  destruct (ready_items st) as [| it l].
  - rewrite Hm. by apply Hk.
  - by rewrite Hm.
Qed.

(** X2.  What each of the five bulk steps does depends on the
    interpreter, because the step hands coroutine objects to
    [asyncio.wait].  On Python 3.8 to 3.10 the step returns; it has called
    its method once for every entry of the registry whose job was ready
    when the step began, and made no other call, and an exception raised by
    a job is not passed on; the registry, the logger and the exception
    center are left as they were.  On Python 3.11 and later the step
    returns without a call only when no job is ready; with a ready job it
    raises the [TypeError] of [asyncio.wait], and no job has been called. *)
Theorem bulk_steps_fan_out (st : Manager) (force : bool) :
  bulk_step_runs env (enable_all_task_monitors env) Job.enable_monitor st
  ∧ bulk_step_runs env (disable_all_task_monitors env) Job.disable_monitor st
  ∧ bulk_step_runs env (enable_all_task_recorders env) Job.enable_recorder st
  ∧ bulk_step_runs env (disable_all_task_recorders env force)
      (Job.disable_recorder force) st
  ∧ bulk_step_runs env (update_all_task_infos env) Job.update_info st
  ∧ ∀ c ev, ev ∈ fan_out c st ->
      ev.2 = c
      ∧ ∃ room, _tasks st !! room = Some ev.1
                ∧ RecordTask.ready (objects st ev.1) = true.
Proof.
  split_and!.
  - apply enable_all_task_monitors_runs.
  - apply disable_all_task_monitors_runs.
  - apply enable_all_task_recorders_runs.
  - apply disable_all_task_recorders_runs.
  - apply update_all_task_infos_runs.
  - intros c ev. apply fan_out_ready.
Qed.

(** X3.  On Python 3.8 to 3.10, [start_all_tasks] runs its three steps
    one after the other: [update_info] on every ready job, then
    [enable_monitor] on every job ready after that, then [enable_recorder]
    on every job ready after that; [stop_all_tasks] runs
    [disable_recorder(force)] on every ready job and then [disable_monitor]
    on every job ready after that.  The calls of one step all come before
    those of the next; within a step they come in some order.  Both
    operations return and leave the registry as it was.  On Python 3.11 and
    later both return without a call only when no job is ready; with a
    ready job the first step raises the [TypeError] of [asyncio.wait], the
    later steps are not reached and no job has been called. *)
Theorem bulk_start_stop_phases (st : Manager) (force : bool) :
  match python env with
  | Python.upto_3_10 =>
      (let st1 := (update_all_task_infos env st).2 in
       let st2 := (enable_all_task_monitors env st1).2 in
       let res := start_all_tasks env st in
       res.1 = Returned tt
       ∧ step_frame st res.2
       ∧ ∃ l1 l2 l3,
           calls res.2 = calls st ++ l1 ++ l2 ++ l3
           ∧ l1 ≡ₚ fan_out Job.update_info st
           ∧ l2 ≡ₚ fan_out Job.enable_monitor st1
           ∧ l3 ≡ₚ fan_out Job.enable_recorder st2)
      ∧ (let st1 := (disable_all_task_recorders env force st).2 in
         let res := stop_all_tasks env force st in
         res.1 = Returned tt
         ∧ step_frame st res.2
         ∧ ∃ l1 l2,
             calls res.2 = calls st ++ l1 ++ l2
             ∧ l1 ≡ₚ fan_out (Job.disable_recorder force) st
             ∧ l2 ≡ₚ fan_out Job.disable_monitor st1)
  | Python.from_3_11 =>
      stops (start_all_tasks env) st ∧ stops (stop_all_tasks env force) st
  end.
Proof.
  destruct (python env) eqn:Hpy.
  - split.
    + intros st1 st2 res. subst res st2 st1.
      unfold start_all_tasks, bind.
      destruct (runs_tasks _ _ _ Hpy (update_all_task_infos_runs st))
        as (Hres1 & Hf1 & l1 & Hcalls1 & Hl1).
      destruct (update_all_task_infos env st) as [out1 st1].
      simpl in *. subst out1.
      destruct (runs_tasks _ _ _ Hpy (enable_all_task_monitors_runs st1))
        as (Hres2 & Hf2 & l2 & Hcalls2 & Hl2).
      destruct (enable_all_task_monitors env st1) as [out2 st2].
      simpl in *. subst out2.
      destruct (runs_tasks _ _ _ Hpy (enable_all_task_recorders_runs st2))
        as (Hres3 & Hf3 & l3 & Hcalls3 & Hl3).
      split_and!; [done | |].
      * eapply step_frame_trans; [| exact Hf3].
        eapply step_frame_trans; [exact Hf1 | exact Hf2].
      * exists l1, l2, l3. split_and!; [| done | done | done].
        by rewrite Hcalls3, Hcalls2, Hcalls1, <- !app_assoc.
    + intros st1 res. subst res st1.
      unfold stop_all_tasks, bind.
      destruct (runs_tasks _ _ _ Hpy (disable_all_task_recorders_runs force st))
        as (Hres1 & Hf1 & l1 & Hcalls1 & Hl1).
      destruct (disable_all_task_recorders env force st) as [out1 st1].
      simpl in *. subst out1.
      destruct (runs_tasks _ _ _ Hpy (disable_all_task_monitors_runs st1))
        as (Hres2 & Hf2 & l2 & Hcalls2 & Hl2).
      split_and!; [done | |].
      * eapply step_frame_trans; [exact Hf1 | exact Hf2].
      * exists l1, l2. split_and!; [| done | done].
        by rewrite Hcalls2, Hcalls1, <- !app_assoc.
  - pose proof (runs_forbidden _ _ _ Hpy (update_all_task_infos_runs st))
      as Hinfo.
    pose proof (runs_forbidden _ _ _ Hpy
                  (disable_all_task_recorders_runs force st)) as Hrec.
    split.
    + unfold start_all_tasks. apply stops_first; [exact Hinfo |].
      intros Hnone.
      pose proof (runs_forbidden _ _ _ Hpy (enable_all_task_monitors_runs st))
        as Hmon.
      pose proof (runs_forbidden _ _ _ Hpy (enable_all_task_recorders_runs st))
        as Hrec'.
      unfold stops in Hmon, Hrec'. rewrite Hnone in Hmon, Hrec'.
      unfold bind. by rewrite Hmon, Hrec'.
    + unfold stop_all_tasks. apply stops_first; [exact Hrec |].
      intros Hnone.
      pose proof (runs_forbidden _ _ _ Hpy (disable_all_task_monitors_runs st))
        as Hmon.
      unfold stops in Hmon. by rewrite Hnone in Hmon.
Qed.

(** X4.  Over a registry with at least one ready job, what
    [destroy_all_tasks] does depends on the interpreter.  On Python 3.8 to
    3.10 it returns with the registry empty: it has called [destroy] once
    for every entry whose job was ready and made no other call, an entry
    whose job was not ready is dropped without a call, and a [destroy] that
    raises does not keep the registry from being cleared.  On Python 3.11
    and later it raises the [TypeError] of [asyncio.wait]: no job has been
    called and the registry is as it was. *)
Theorem destroy_all_tasks_clears (st : Manager) :
  ready_items st ≠ [] ->
  let res := destroy_all_tasks env st in
  match python env with
  | Python.upto_3_10 =>
      res.1 = Returned tt
      ∧ _tasks res.2 = ∅
      ∧ (∃ l, calls res.2 = calls st ++ l ∧ l ≡ₚ fan_out Job.destroy st)
      ∧ logs res.2
        = logs st ++ [(INFO, DestroyingAllTasks); (INFO, DestroyedAllTask)]
  | Python.from_3_11 =>
      res = (Raised coroutines_forbidden,
             with_log (INFO, DestroyingAllTasks) st)
  end.
Proof.
  intros Hready res. subst res.
  assert (_tasks st ≠ ∅) as Hsome.
  { intros Hempty. apply Hready. unfold ready_items.
    by rewrite Hempty, map_to_list_empty. }
  set (st0 := with_log (INFO, DestroyingAllTasks) st).
  set (coros := map (fun it : Z * nat => coro env it.2 Job.destroy)
                  (ready_items st)).
  assert (coros ≠ []) as Hcoros.
  { subst coros. by destruct (ready_items st). }
  assert (destroy_all_tasks env st
          = (asyncio_wait env coros;;
             modify (set_tasks ∅);;
             logger INFO DestroyedAllTask) st0) as ->.
  { unfold destroy_all_tasks. unfold bind at 1. unfold logger at 1, modify.
    unfold bind at 1, get. simpl (_tasks _).
    by rewrite bool_decide_eq_false_2. }
  destruct (python env) eqn:Hpy.
  2: { unfold bind at 1. by rewrite asyncio_wait_forbidden. }
  pose proof (asyncio_wait_tasks coros st0 Hpy Hcoros) as Hwait.
  pose proof (wait_loop_coros Job.destroy (ready_items st) st0) as Hloop.
  cbv zeta in Hloop. fold coros in Hloop.
  destruct Hloop as (Hout & (Ht & Hn & Hl & Hs) & Hcalls).
  set (st1 := (foldr (fun co k => completed co;; k) (ret tt) coros st0).2)
    in *.
  assert ((asyncio_wait env coros;;
           modify (set_tasks ∅);;
           logger INFO DestroyedAllTask) st0
          = (Returned tt,
             with_log (INFO, DestroyedAllTask) (set_tasks ∅ st1))) as ->.
  { unfold bind at 1. rewrite Hwait. subst st1.
    by destruct (foldr (fun co k => completed co;; k) (ret tt) coros st0)
      as [[[] | |] s1]. }
  simpl. split_and!; [done | done | by eexists |].
  rewrite Hl. subst st0. simpl. by rewrite <- app_assoc.
Qed.
End FanOut.

(** Room 1 registered and ready: on Python 3.8 to 3.10 [start_all_tasks]
    makes its three calls and returns; on Python 3.11 it raises at the
    first step and the job is never called. *)
Example start_all_tasks_on_either_interpreter :
  let res := start_all_tasks (Fixture.env_of Fixture.steady []) Fixture.ready1 in
  let res' :=
    start_all_tasks (Fixture.env_on Python.from_3_11 Fixture.steady [])
      Fixture.ready1 in
  res.1 = Returned tt
  ∧ calls res.2
    = [(0%nat, Job.update_info); (0%nat, Job.enable_monitor);
       (0%nat, Job.enable_recorder)]
  ∧ res' = (Raised coroutines_forbidden, Fixture.ready1).
Proof. split_and!; by vm_compute. Qed.

(** One ready job whose [destroy] raises and one job that is not ready,
    on either interpreter. *)
Lemma destroy_all_tasks_clears_witness :
  let res :=
    destroy_all_tasks (Fixture.env_of Fixture.broken []) Fixture.mixed in
  let res' :=
    destroy_all_tasks
      (Fixture.env_on Python.from_3_11 Fixture.broken []) Fixture.mixed in
  ready_items Fixture.mixed ≠ []
  ∧ (res.1 = Returned tt
     ∧ _tasks res.2 = ∅
     ∧ calls res.2 = [(0%nat, Job.destroy)])
  ∧ (res'.1 = Raised coroutines_forbidden
     ∧ _tasks res'.2 = _tasks Fixture.mixed
     ∧ calls res'.2 = []).
Proof.
  intros res res'.
  assert (ready_items Fixture.mixed ≠ []) as Hready by (by vm_compute).
  split; [exact Hready |].
  pose proof (destroy_all_tasks_clears (Fixture.env_of Fixture.broken [])
                Fixture.mixed Hready) as Hold.
  pose proof (destroy_all_tasks_clears
                (Fixture.env_on Python.from_3_11 Fixture.broken [])
                Fixture.mixed Hready) as Hnew.
  cbv zeta in Hold, Hnew.
  change (python (Fixture.env_of Fixture.broken []))
    with Python.upto_3_10 in Hold.
  change (python (Fixture.env_on Python.from_3_11 Fixture.broken []))
    with Python.from_3_11 in Hnew.
  destruct Hold as (Hres & Hempty & (l & Hcalls & Hl) & _).
  split.
  - split; [exact Hres |]. split; [exact Hempty |].
    fold res in Hcalls. rewrite Hcalls.
    change (fan_out Job.destroy Fixture.mixed)
      with [(0%nat, Job.destroy)] in Hl.
    by apply Permutation_singleton_r in Hl as ->.
  - fold res' in Hnew. by rewrite Hnew.
Defined.

(** ** Removing every ready task *)

Section RemoveAll.
Context `{TaskModels} (env : Env).

(** [remove_task] comes to an end and leaves every other room's entry
    alone. *)
Lemma remove_task_other_room room_id room st :
  room ≠ room_id ->
  same_room room st (remove_task env room_id st).2.
Proof.
  intros Hroom.
  unfold same_room, remove_task, _get_task, bind, get, attrs, await,
    del_task, raise, ret.
  simpl. repeat (case_match; simpl; simplify_eq); try done.
  all: by rewrite lookup_delete_ne.
Qed.

Lemma remove_task_finishes room_id st :
  (remove_task env room_id st).1 ≠ Unfinished.
Proof.
  unfold remove_task, _get_task, bind, get, attrs, await, del_task, raise, ret.
  simpl. by repeat (case_match; simpl; simplify_eq).
Qed.

Lemma completed_then (c k : M unit) st :
  (c st).1 ≠ Unfinished -> (completed c;; k) st = k (c st).2.
Proof.
  intros Hfin. unfold bind, completed.
  by destruct (c st) as [[[] | e |] st1].
Qed.

Lemma remove_loop (P : Z -> Prop) room : ∀ (l : list (Z * nat)) st,
  Forall (fun it : Z * nat => P it.1) l ->
  let res :=
    foldr (fun co k => completed co;; k) (ret tt)
      (map (fun it : Z * nat => remove_task env it.1) l) st in
  res.1 = Returned tt
  ∧ ((∀ room_id, P room_id -> room_id ≠ room) -> same_room room st res.2).
Proof.
  induction l as [| [room_id task] l IH]; intros st Hall; simpl.
  { done. }
  apply Forall_cons in Hall as [HP Hall]. simpl in HP.
  rewrite !completed_then by apply remove_task_finishes.
  destruct (IH (remove_task env room_id st).2 Hall) as [Hres Hsame'].
  split; [done |]. intros Hne.
  pose proof (remove_task_other_room room_id room st) as Hsame.
  unfold same_room in *. rewrite Hsame' by done. apply Hsame.
  intros ->. by apply (Hne room_id).
Qed.

Lemma ready_items_rooms room task st :
  _tasks st !! room = Some task ->
  RecordTask.ready (objects st task) = false ->
  Forall (fun it : Z * nat => it.1 ≠ room) (ready_items st).
Proof.
  intros Hreg Hready. apply Forall_forall. intros [room' task'] Hin Heq.
  simpl in Heq. subst room'. unfold ready_items in Hin.
  apply list_elem_of_In, filter_In in Hin as [Hin Hready'].
  apply list_elem_of_In, elem_of_map_to_list in Hin.
  simpl in *. congruence.
Qed.

(** X5.  On Python 3.8 to 3.10 [remove_all_tasks] returns, whatever the
    registry holds and even when jobs raise; on Python 3.11 and later it
    returns only when no job is ready and otherwise raises the [TypeError]
    of [asyncio.wait], without any job having been called.  On either
    interpreter a room whose job is not ready when it begins is skipped: it
    stays registered to its handle. *)
Theorem remove_all_tasks_skips_unready (st : Manager) :
  let res := remove_all_tasks env st in
  match python env with
  | Python.upto_3_10 => res.1 = Returned tt
  | Python.from_3_11 => stops (remove_all_tasks env) st
  end
  ∧ ∀ room task,
      _tasks st !! room = Some task ->
      RecordTask.ready (objects st task) = false ->
      _tasks res.2 !! room = Some task.
Proof.
  intros res. subst res.
  assert (remove_all_tasks env st
          = match map (fun it : Z * nat => remove_task env it.1)
                    (ready_items st) with
            | [] => ret tt
            | _ =>
                asyncio_wait env
                  (map (fun it : Z * nat => remove_task env it.1)
                     (ready_items st))
            end st) as Heq by reflexivity.
  destruct (python env) eqn:Hpy.
  - assert (∀ room,
              (remove_all_tasks env st).1 = Returned tt
              ∧ (Forall (fun it : Z * nat => it.1 ≠ room) (ready_items st) ->
                 same_room room st (remove_all_tasks env st).2)) as Hloop.
    { intros room. rewrite Heq.
      destruct (ready_items st) as [| it l] eqn:Hitems; [done |].
      cbn [map]. rewrite asyncio_wait_tasks by done.
      split.
      - apply (remove_loop (fun _ => True) room (it :: l) st).
        apply Forall_forall. done.
      - intros Hrooms.
        apply (remove_loop (fun room_id => room_id ≠ room) room (it :: l) st
                 Hrooms).
        done. }
    split; [apply (Hloop 0) |].
    intros room task Hreg Hready.
    destruct (Hloop room) as [_ Hsame]. unfold same_room in Hsame.
    rewrite Hsame; [done |]. by eapply ready_items_rooms.
  - pose proof (guarded_wait_stops env _ _ st Hpy Heq) as Hstops.
    split; [exact Hstops |].
    intros room task Hreg Hready. unfold stops in Hstops.
    destruct (ready_items st); by rewrite Hstops.
Qed.
End RemoveAll.

(** Room 1 ready and room 2 not ready: on Python 3.8 to 3.10 room 1 is
    removed and room 2 stays; on Python 3.11 nothing is removed. *)
Lemma remove_all_tasks_skips_unready_witness :
  let res := remove_all_tasks (Fixture.env_of Fixture.steady []) Fixture.mixed in
  let res' :=
    remove_all_tasks (Fixture.env_on Python.from_3_11 Fixture.steady [])
      Fixture.mixed in
  (_tasks Fixture.mixed !! 2 = Some 1%nat
   ∧ RecordTask.ready (objects Fixture.mixed 1%nat) = false)
  ∧ (res.1 = Returned tt
     ∧ _tasks res.2 !! 2 = Some 1%nat
     ∧ _tasks res.2 !! 1 = None)
  ∧ (res' = (Raised coroutines_forbidden, Fixture.mixed)
     ∧ _tasks res'.2 !! 2 = Some 1%nat).
Proof.
  intros res res'.
  assert (_tasks Fixture.mixed !! 2 = Some 1%nat) as Hreg by (by vm_compute).
  assert (RecordTask.ready (objects Fixture.mixed 1%nat) = false) as Hready
    by reflexivity.
  split; [exact (conj Hreg Hready) |].
  destruct (remove_all_tasks_skips_unready (Fixture.env_of Fixture.steady [])
              Fixture.mixed) as [Hres Hkept].
  destruct (remove_all_tasks_skips_unready
              (Fixture.env_on Python.from_3_11 Fixture.steady [])
              Fixture.mixed) as [Hres' Hkept'].
  split.
  - split; [exact Hres |].
    split; [exact (Hkept 2 1%nat Hreg Hready) | by vm_compute].
  - split; [by vm_compute | exact (Hkept' 2 1%nat Hreg Hready)].
Defined.

(** ** The calls of creation *)

Section CreationCalls.
Context `{TaskModels} (env : Env).

Lemma emits_ret {A} room_id task (a : A) : emits room_id task (ret a) [].
Proof. intros st _. split; [done |]. intros _ _. by rewrite app_nil_r. Qed.

Lemma emits_raise {A} room_id task e l :
  emits room_id task (raise e : M A) l.
Proof. intros st _. by split. Qed.

Lemma emits_bind {A B} room_id task (m : M A) (k : A -> M B) l1 l2 :
  emits room_id task m l1 ->
  (∀ a, emits room_id task (k a) l2) ->
  emits room_id task (bind m k) (l1 ++ l2).
Proof.
  intros Hm Hk st Hreg. unfold bind.
  destruct (Hm st Hreg) as [Ht Hcalls].
  destruct (m st) as [[a | e |] st1]; simpl in *; [| by split | by split].
  assert (_tasks st1 !! room_id = Some task) as Hreg1 by (by rewrite Ht).
  destruct (Hk a st1 Hreg1) as [Ht' Hcalls'].
  split; [by rewrite Ht' |].
  intros b Hb. by rewrite (Hcalls' b Hb), (Hcalls a eq_refl), app_assoc.
Qed.

Lemma emits_await room_id task c :
  emits room_id task (await env task c) [(task, c)].
Proof. intros st _. unfold await. by destruct (Job.raised _). Qed.

Lemma emits_assign room_id task r a f :
  emits room_id task (assign env r a f) [].
Proof.
  intros st _. unfold assign. cbv zeta.
  destruct (if Attr.is_identity _ || _ then _ else _) as [e |]; simpl.
  all: split; [done |]; intros _ _; by rewrite app_nil_r.
Qed.

Lemma emits_attrs room_id task r : emits room_id task (attrs r) [].
Proof. intros st _. split; [done |]. intros _ _. simpl. by rewrite app_nil_r. Qed.

Lemma emits_get_task room_id task room check_ready :
  emits room_id task (_get_task room check_ready) [].
Proof.
  intros st _. unfold _get_task, bind, get, attrs, raise, ret. simpl.
  repeat case_match; simpl; split; try done.
  all: intros _ _; by rewrite app_nil_r.
Qed.

Lemma emits_seq {A B} room_id task (m : M A) (k : A -> M B) l1 l2 l :
  l = l1 ++ l2 ->
  emits room_id task m l1 ->
  (∀ a, emits room_id task (k a) l2) ->
  emits room_id task (bind m k) l.
Proof. intros ->. apply emits_bind. Qed.

Ltac quiet_step l := eapply (emits_seq _ _ _ _ [] l l); [done | | intros ?].

Ltac quiet_assignments :=
  repeat (quiet_step (@nil Event); [apply emits_assign |]);
  apply emits_assign.

Lemma emits_apply_header room_id task room settings :
  emits room_id task (apply_task_header_settings env room settings false) [].
Proof.
  unfold apply_task_header_settings.
  quiet_step (@nil Event); [apply emits_get_task |].
  quiet_step (@nil Event); [apply emits_attrs |].
  destruct (_ && _); [apply emits_ret |].
  quiet_step (@nil Event); [apply emits_assign |].
  quiet_step (@nil Event); [apply emits_assign |].
  apply emits_ret.
Qed.

Lemma emits_add_task_steps settings task :
  emits (TaskSettings.room_id settings) task
    (add_task_steps env settings task) (creation_calls settings task).
Proof.
  unfold add_task_steps, creation_calls.
  set (em := if TaskSettings.enable_monitor settings
             then [(task, Job.enable_monitor)] else []).
  set (er := if TaskSettings.enable_recorder settings
             then [(task, Job.enable_recorder)] else []).
  quiet_step ([(task, Job.setup)] ++ em ++ er).
  { unfold sm_apply_task_header_settings.
    destruct (SettingsManager.final_header _ _ _);
      [apply emits_raise | apply emits_apply_header]. }
  eapply (emits_seq _ _ _ _ [(task, Job.setup)] (em ++ er));
    [done | apply emits_await | intros _].
  quiet_step (em ++ er).
  { unfold sm_apply_task_output_settings, apply_task_output_settings.
    destruct (SettingsManager.final_output _ _ _); [apply emits_raise |].
    quiet_step (@nil Event); [apply emits_get_task | quiet_assignments]. }
  quiet_step (em ++ er).
  { unfold sm_apply_task_danmaku_settings, apply_task_danmaku_settings.
    destruct (SettingsManager.final_danmaku _ _ _); [apply emits_raise |].
    quiet_step (@nil Event); [apply emits_get_task | quiet_assignments]. }
  quiet_step (em ++ er).
  { unfold sm_apply_task_recorder_settings, apply_task_recorder_settings.
    destruct (SettingsManager.final_recorder _ _ _); [apply emits_raise |].
    quiet_step (@nil Event); [apply emits_get_task | quiet_assignments]. }
  quiet_step (em ++ er).
  { unfold sm_apply_task_postprocessing_settings,
      apply_task_postprocessing_settings.
    destruct (SettingsManager.final_postprocessing _ _ _);
      [apply emits_raise |].
    quiet_step (@nil Event); [apply emits_get_task | quiet_assignments]. }
  eapply (emits_seq _ _ _ _ em er); [done | | intros _].
  { subst em. destruct (TaskSettings.enable_monitor settings);
      [| apply emits_ret].
    eapply (emits_seq _ _ _ _ [(task, Job.enable_monitor)] []);
      [done | apply emits_await | intros _; apply emits_ret]. }
  subst er. destruct (TaskSettings.enable_recorder settings);
    [| apply emits_ret].
  eapply (emits_seq _ _ _ _ [(task, Job.enable_recorder)] []);
    [done | apply emits_await | intros _; apply emits_ret].
Qed.

(** X6.  When the first attempt of [add_task] goes through, [add_task]
    returns without a retry: the room is registered to the handle just
    constructed, and the job-level calls made are [setup], then
    [enable_monitor] if the settings ask for the monitor, then
    [enable_recorder] if they ask for the recorder, all on that handle and
    nothing else; the logger got the two records of a successful
    creation. *)
Theorem add_task_first_attempt_returns (settings : TaskSettings.t)
    (st st1 : Manager) :
  add_task_attempt env settings st = (Returned tt, st1) ->
  let room_id := TaskSettings.room_id settings in
  add_task env settings st = (Returned tt, st1)
  ∧ _tasks st1 = <[room_id := next_ref st]> (_tasks st)
  ∧ calls st1 = calls st ++ creation_calls settings (next_ref st)
  ∧ logs st1
    = logs st ++ [(INFO, AddingTask room_id); (INFO, AddedTask room_id)].
Proof.
  intros Hrun room_id. split_and!.
  - unfold add_task, retry. by rewrite retrying_unfold, Hrun.
  - pose proof (add_task_attempt_spec env settings st) as Hspec.
    simpl in Hspec. rewrite Hrun in Hspec. simpl in Hspec. tauto.
  - revert Hrun.
    unfold add_task_attempt, bind, logger, new_RecordTask, modify, try_except.
    simpl. fold room_id. set (task := next_ref st).
    match goal with
    | |- context [add_task_steps env settings task ?s] => set (st0 := s)
    end.
    assert (_tasks st0 !! room_id = Some task) as Hreg.
    { subst st0. simpl. by rewrite lookup_insert_eq. }
    destruct (emits_add_task_steps settings task st0 Hreg) as [Ht Hcalls].
    destruct (add_task_steps env settings task st0) as [[[] | e |] st'];
      simpl in *.
    + intros Heq. simplify_eq. simpl. rewrite (Hcalls tt eq_refl).
      reflexivity.
    + destruct (is_Exception e); [| intros; discriminate].
      unfold del_task. simpl. rewrite Ht, Hreg. simpl. intros; discriminate.
    + done.
  - revert Hrun.
    unfold add_task_attempt, bind, logger, new_RecordTask, modify, try_except.
    simpl. fold room_id. set (task := next_ref st).
    match goal with
    | |- context [add_task_steps env settings task ?s] => set (st0 := s)
    end.
    assert (_tasks st0 !! room_id = Some task) as Hreg.
    { subst st0. simpl. by rewrite lookup_insert_eq. }
    destruct (acts_add_task_steps env settings task st0 Hreg) as [Hon _].
    destruct Hon as (_ & _ & Hl & _).
    destruct (add_task_steps env settings task st0) as [[[] | e |] st'];
      simpl in *.
    + intros Heq. simplify_eq. simpl. rewrite Hl. subst st0. simpl.
      by rewrite <- app_assoc.
    + destruct (is_Exception e); [| intros; discriminate].
      unfold del_task. simpl. destruct (_tasks st' !! room_id); simpl;
        intros; discriminate.
    + done.
Qed.
End CreationCalls.

Lemma add_task_first_attempt_returns_witness :
  let env := Fixture.env_of Fixture.steady [] in
  let st1 := (add_task_attempt env (Fixture.settings_for 100) Fixture.empty).2 in
  add_task_attempt env (Fixture.settings_for 100) Fixture.empty
  = (Returned tt, st1)
  ∧ add_task env (Fixture.settings_for 100) Fixture.empty = (Returned tt, st1)
  ∧ _tasks st1 = <[100 := 0%nat]> ∅
  ∧ calls st1 = [(0%nat, Job.setup); (0%nat, Job.enable_monitor)].
Proof.
  intros env st1.
  assert (add_task_attempt env (Fixture.settings_for 100) Fixture.empty
          = (Returned tt, st1)) as Hrun by (by vm_compute).
  split; [exact Hrun |].
  destruct (add_task_first_attempt_returns env (Fixture.settings_for 100)
              Fixture.empty st1 Hrun) as (Hadd & Htasks & Hcalls & _).
  split; [exact Hadd |]. split; [exact Htasks | exact Hcalls].
Defined.

(** ** What creation never calls *)

Section CreationNever.
Context `{TaskModels} (env : Env).

Lemma calls_among_refl P st : calls_among P st st.
Proof. exists []. by rewrite app_nil_r. Qed.

Lemma calls_among_trans P st1 st2 st3 :
  calls_among P st1 st2 -> calls_among P st2 st3 -> calls_among P st1 st3.
Proof.
  intros (l & Hl & Hall) (l' & Hl' & Hall'). exists (l ++ l'). split.
  - by rewrite Hl', Hl, app_assoc.
  - by apply Forall_app.
Qed.

Lemma calls_among_same P st st' : calls st' = calls st -> calls_among P st st'.
Proof. intros Heq. exists []. by rewrite app_nil_r. Qed.

Lemma keeps_bind {A B} P (m : M A) (k : A -> M B) :
  keeps (calls_among P) m ->
  (∀ a, keeps (calls_among P) (k a)) ->
  keeps (calls_among P) (bind m k).
Proof.
  intros Hm Hk st. unfold bind. specialize (Hm st).
  destruct (m st) as [[a | e |] st1]; simpl in *; try done.
  eapply calls_among_trans; [exact Hm | apply Hk].
Qed.

Lemma keeps_try_except {A} P (m : M A) (h : Exn -> M A) :
  keeps (calls_among P) m ->
  (∀ e, keeps (calls_among P) (h e)) ->
  keeps (calls_among P) (try_except m h).
Proof.
  intros Hm Hh st. unfold try_except. specialize (Hm st).
  destruct (m st) as [[a | e |] st1]; simpl in *; try done.
  destruct (is_Exception e); [| done].
  eapply calls_among_trans; [exact Hm | apply Hh].
Qed.

Lemma keeps_quiet {A} P (m : M A) :
  (∀ st, calls (m st).2 = calls st) -> keeps (calls_among P) m.
Proof. intros Hm st. apply calls_among_same, Hm. Qed.

Lemma keeps_await (P : Job.call -> Prop) task c :
  P c -> keeps (calls_among P) (await env task c).
Proof.
  intros Hc st. exists [(task, c)]. unfold await.
  destruct (Job.raised _); simpl; split; try done; by repeat constructor.
Qed.

Lemma get_task_quiet room_id check_ready st :
  calls (_get_task room_id check_ready st).2 = calls st.
Proof.
  unfold _get_task, bind, get, attrs, raise, ret. simpl.
  by repeat case_match.
Qed.

Lemma assign_quiet task a f st :
  calls (assign env task a f st).2 = calls st.
Proof.
  unfold assign. cbv zeta.
  by destruct (if Attr.is_identity _ || _ then _ else _).
Qed.

Lemma keeps_assign P task a f : keeps (calls_among P) (assign env task a f).
Proof. apply keeps_quiet, assign_quiet. Qed.

Ltac keeps_assignments :=
  repeat (apply keeps_bind; [apply keeps_assign | intros _]);
  apply keeps_assign.

Lemma keeps_apply_header P room_id settings :
  keeps (calls_among P) (apply_task_header_settings env room_id settings false).
Proof.
  unfold apply_task_header_settings.
  apply keeps_bind; [apply keeps_quiet, get_task_quiet | intros task].
  apply keeps_bind; [by apply keeps_quiet | intros t].
  destruct (_ && _); [by apply keeps_quiet |].
  apply keeps_bind; [apply keeps_assign | intros _].
  apply keeps_bind; [apply keeps_assign | intros _].
  by apply keeps_quiet.
Qed.

Lemma keeps_lookup P room_id (k : Ref -> M unit) :
  (∀ task, keeps (calls_among P) (k task)) ->
  keeps (calls_among P) (let* task := _get_task room_id false in k task).
Proof.
  intros Hk. apply keeps_bind; [apply keeps_quiet, get_task_quiet | done].
Qed.

Lemma keeps_add_task_steps settings task :
  keeps (calls_among creation_call) (add_task_steps env settings task).
Proof.
  unfold add_task_steps.
  apply keeps_bind.
  { unfold sm_apply_task_header_settings.
    destruct (SettingsManager.final_header _ _ _);
      [by apply keeps_quiet | apply keeps_apply_header]. }
  intros _. apply keeps_bind; [apply keeps_await; by left | intros _].
  apply keeps_bind.
  { unfold sm_apply_task_output_settings, apply_task_output_settings.
    destruct (SettingsManager.final_output _ _ _); [by apply keeps_quiet |].
    apply keeps_lookup. intros ?. keeps_assignments. }
  intros _. apply keeps_bind.
  { unfold sm_apply_task_danmaku_settings, apply_task_danmaku_settings.
    destruct (SettingsManager.final_danmaku _ _ _); [by apply keeps_quiet |].
    apply keeps_lookup. intros ?. keeps_assignments. }
  intros _. apply keeps_bind.
  { unfold sm_apply_task_recorder_settings, apply_task_recorder_settings.
    destruct (SettingsManager.final_recorder _ _ _); [by apply keeps_quiet |].
    apply keeps_lookup. intros ?. keeps_assignments. }
  intros _. apply keeps_bind.
  { unfold sm_apply_task_postprocessing_settings,
      apply_task_postprocessing_settings.
    destruct (SettingsManager.final_postprocessing _ _ _);
      [by apply keeps_quiet |].
    apply keeps_lookup. intros ?. keeps_assignments. }
  intros _. apply keeps_bind.
  { destruct (TaskSettings.enable_monitor settings); [| by apply keeps_quiet].
    apply keeps_bind; [apply keeps_await; right; by left | intros _].
    by apply keeps_quiet. }
  intros _.
  destruct (TaskSettings.enable_recorder settings); [| by apply keeps_quiet].
  apply keeps_bind; [apply keeps_await; right; by right | intros _].
  by apply keeps_quiet.
Qed.

Lemma keeps_add_task_attempt settings :
  keeps (calls_among creation_call) (add_task_attempt env settings).
Proof.
  unfold add_task_attempt.
  apply keeps_bind; [by apply keeps_quiet | intros _].
  apply keeps_bind; [by apply keeps_quiet | intros task].
  apply keeps_bind; [by apply keeps_quiet | intros _].
  apply keeps_bind; [| intros _; by apply keeps_quiet].
  apply keeps_try_except; [apply keeps_add_task_steps | intros e].
  apply keeps_bind; [by apply keeps_quiet | intros _].
  apply keeps_bind; [| intros _; by apply keeps_quiet].
  apply keeps_quiet. intros st. unfold del_task. by destruct (_ !! _).
Qed.

Lemma keeps_retrying {A} P fuel reraise rt wait stop start (fn : M A) :
  keeps (calls_among P) fn ->
  ∀ n, keeps (calls_among P) (retrying fuel reraise rt wait stop start n fn).
Proof.
  intros Hfn. induction fuel as [| fuel IH]; intros n st.
  all: rewrite retrying_unfold; specialize (Hfn st).
  all: destruct (fn st) as [[a | e |] st1]; simpl in *; try done.
  all: destruct (rt e); [| done].
  all: destruct (stop _); [by destruct reraise |]; simpl; try done.
  eapply calls_among_trans; [exact Hfn |].
  apply (keeps_bind P (sleep (wait n)) (fun _ => _)); [by apply keeps_quiet |].
  intros _. apply IH.
Qed.

(** X7.  Whatever happens during creation, retries included, the only
    methods [add_task] calls on a job are [setup], [enable_monitor] and
    [enable_recorder].  In particular it never calls [update_session], and
    when creation fails the handle is dropped from the registry without
    [destroy] or a disable call being made on it. *)
Theorem add_task_calls_only_creation_methods (settings : TaskSettings.t)
    (st : Manager) :
  ∃ l, calls (add_task env settings st).2 = calls st ++ l
       ∧ Forall (fun ev : Event =>
                   ev.2 = Job.setup ∨ ev.2 = Job.enable_monitor
                   ∨ ev.2 = Job.enable_recorder) l.
Proof.
  apply (keeps_retrying creation_call).
  apply keeps_add_task_attempt.
Qed.

(** X8.  Creating a task leaves every other task alone: a room other
    than the one being created stays registered to its handle, no attribute
    of that handle changes and no job-level call is made on it, whether
    creation returns or raises. *)
Theorem add_task_isolated (settings : TaskSettings.t) (room : Z)
    (task : Ref) (st : Manager) :
  room ≠ TaskSettings.room_id settings ->
  _tasks st !! room = Some task ->
  (task < next_ref st)%nat ->
  let res := add_task env settings st in
  _tasks res.2 !! room = Some task
  ∧ objects res.2 task = objects st task
  ∧ ∃ l, calls res.2 = calls st ++ l
         ∧ Forall (fun ev : Event => ev.1 ≠ task) l.
Proof.
  intros Hroom Hreg Htask res. subst res.
  destruct (add_task_frame env settings st)
    as (_ & _ & Hobj & (l & Hcalls & Hall) & Hother & _).
  split_and!.
  - by rewrite Hother.
  - by apply Hobj.
  - exists l. split; [done |].
    eapply Forall_impl; [exact Hall |]. simpl. intros ev Hev. lia.
Qed.

(** X9.  A timeout, connection or API-request error in the first attempt,
    raised less than 60 seconds after the call began, is retried after a
    wait of one second; if the second attempt goes through, [add_task]
    returns with the room registered, to the handle of the second
    attempt. *)
Theorem add_task_second_attempt_returns (settings : TaskSettings.t)
    (st st1 st2 : Manager) (e : Exn) :
  add_task_attempt env settings st = (Raised e, st1) ->
  retried e ->
  (clock st1 - clock st < 60 * 1000)%N ->
  add_task_attempt env settings (later 1000 st1) = (Returned tt, st2) ->
  add_task env settings st = (Returned tt, st2)
  ∧ _tasks st2 !! TaskSettings.room_id settings = Some (S (next_ref st))
  ∧ (clock st1 + 1000 <= clock st2)%N.
Proof.
  intros Hrun1 Hretried Hearly Hrun2.
  pose proof (add_task_attempt_spec env settings st) as Hspec1.
  pose proof (add_task_attempt_spec env settings (later 1000 st1)) as Hspec2.
  simpl in Hspec1, Hspec2. rewrite Hrun1 in Hspec1. rewrite Hrun2 in Hspec2.
  simpl in Hspec1, Hspec2.
  destruct Hspec1 as (Hn1 & _). destruct Hspec2 as (_ & Hc2 & _ & _ & _ & Ht2).
  split_and!.
  - unfold add_task, retry, retry_fuel. rewrite retrying_unfold, Hrun1.
    apply retry_if_exception_type_retried in Hretried. rewrite Hretried.
    unfold stop_after_delay, second.
    destruct (N.leb_spec (60 * 1000) (clock st1 - clock st)); [lia |].
    unfold bind, sleep, modify.
    change (later (wait_exponential 10 1) st1) with (later 1000 st1).
    by rewrite retrying_unfold, Hrun2.
  - by rewrite Ht2, lookup_insert_eq, Hn1.
  - exact Hc2.
Qed.
End CreationNever.

Lemma add_task_isolated_witness :
  let env := Fixture.env_of Fixture.broken [] in
  let res := add_task env (Fixture.settings_for 2) Fixture.ready1 in
  (1 ≠ TaskSettings.room_id (Fixture.settings_for 2)
   ∧ _tasks Fixture.ready1 !! 1 = Some 0%nat
   ∧ (0 < next_ref Fixture.ready1)%nat)
  ∧ _tasks res.2 !! 1 = Some 0%nat
  ∧ objects res.2 0%nat = objects Fixture.ready1 0%nat
  ∧ ∃ l, calls res.2 = calls Fixture.ready1 ++ l
         ∧ Forall (fun ev : Event => ev.1 ≠ 0%nat) l.
Proof.
  intros env res.
  assert (1 ≠ TaskSettings.room_id (Fixture.settings_for 2)) as Hroom
    by (by vm_compute).
  assert (_tasks Fixture.ready1 !! 1 = Some 0%nat) as Hreg by reflexivity.
  assert (0 < next_ref Fixture.ready1)%nat as Htask by (simpl; lia).
  split; [exact (conj Hroom (conj Hreg Htask)) |].
  exact (add_task_isolated env (Fixture.settings_for 2) 1 0%nat Fixture.ready1
           Hroom Hreg Htask).
Defined.

Lemma add_task_second_attempt_returns_witness :
  let env := Fixture.env_of Fixture.flaky [] in
  let settings := Fixture.settings_for 100 in
  let e := mkExn TimeoutError "" in
  let st1 := (add_task_attempt env settings Fixture.empty).2 in
  let st2 := (add_task_attempt env settings (later 1000 st1)).2 in
  (add_task_attempt env settings Fixture.empty = (Raised e, st1)
   ∧ retried e
   ∧ (clock st1 - clock Fixture.empty < 60 * 1000)%N
   ∧ add_task_attempt env settings (later 1000 st1) = (Returned tt, st2))
  ∧ add_task env settings Fixture.empty = (Returned tt, st2)
  ∧ _tasks st2 !! 100 = Some 1%nat
  ∧ (clock st1 + 1000 <= clock st2)%N.
Proof.
  intros env settings e st1 st2.
  assert (add_task_attempt env settings Fixture.empty = (Raised e, st1))
    as Hrun1 by (by vm_compute).
  assert (retried e) as Hretried by (by left).
  assert (clock st1 - clock Fixture.empty < 60 * 1000)%N as Hearly
    by (by vm_compute).
  assert (add_task_attempt env settings (later 1000 st1) = (Returned tt, st2))
    as Hrun2 by (by vm_compute).
  split; [exact (conj Hrun1 (conj Hretried (conj Hearly Hrun2))) |].
  exact (add_task_second_attempt_returns env settings Fixture.empty st1 st2 e
           Hrun1 Hretried Hearly Hrun2).
Defined.

(** ** Applied settings and the parameter snapshot *)

Section RoundTrip.
Context `{TaskModels} (env : Env).

Lemma updates_writes room_id task (m : M unit) f :
  (∀ st, _tasks st !! room_id = Some task -> writes env task m f st) ->
  updates room_id task m f.
Proof.
  intros Hw st Hreg Hready.
  pose proof (Hw st Hreg) as Hwrites.
  pose proof (writes_ready env _ _ _ _ Hwrites Hready) as Hres.
  destruct Hwrites as ((Ht & _) & _ & Hend). rewrite Hres in Hend.
  by split_and!.
Qed.

Lemma updates_output room_id task settings :
  updates room_id task (apply_task_output_settings env room_id settings)
    (RecordTask.set_output settings).
Proof. apply updates_writes. intros st. apply apply_output_writes. Qed.

Lemma updates_danmaku room_id task settings :
  updates room_id task (apply_task_danmaku_settings env room_id settings)
    (RecordTask.set_danmaku settings).
Proof. apply updates_writes. intros st. apply apply_danmaku_writes. Qed.

Lemma updates_recorder room_id task settings :
  updates room_id task (apply_task_recorder_settings env room_id settings)
    (RecordTask.set_recorder settings).
Proof. apply updates_writes. intros st. apply apply_recorder_writes. Qed.

Lemma updates_postprocessing room_id task settings :
  updates room_id task
    (apply_task_postprocessing_settings env room_id settings)
    (RecordTask.set_postprocessing settings).
Proof. apply updates_writes. intros st. apply apply_postprocessing_writes. Qed.

Lemma updates_header room_id task settings :
  updates room_id task
    (apply_task_header_settings env room_id settings false)
    (RecordTask.set_header settings).
Proof.
  intros st Hreg _.
  destruct (apply_header_identity env room_id task settings st Hreg)
    as (st1 & -> & Hobj & Ht & _).
  by split_and!.
Qed.

Lemma bind_returned {A B} (m : M A) (k : A -> M B) st a :
  (m st).1 = Returned a -> bind m k st = k a (m st).2.
Proof. unfold bind. destruct (m st) as [out st1]. simpl. by intros ->. Qed.

(** X11.  After the five bundles have been applied to a registered, ready
    room (the header bundle without a session refresh), [get_task_param]
    returns the snapshot that has exactly the fields of the five bundles:
    every one of its 23 fields was assigned by an applier and is read back
    as it was given. *)
Theorem applied_settings_snapshot (room_id : Z) (task : Ref) (st : Manager)
    (header : HeaderSettings.t) (output : OutputSettings.t)
    (danmaku : DanmakuSettings.t) (recorder : RecorderSettings.t)
    (postprocessing : PostprocessingSettings.t) :
  _tasks st !! room_id = Some task ->
  RecordTask.ready (objects st task) = true ->
  ((apply_task_header_settings env room_id header false;;
    apply_task_output_settings env room_id output;;
    apply_task_danmaku_settings env room_id danmaku;;
    apply_task_recorder_settings env room_id recorder;;
    apply_task_postprocessing_settings env room_id postprocessing;;
    get_task_param room_id) st).1
  = Returned
      {| TaskParam.out_dir := OutputSettings.out_dir output;
         TaskParam.path_template := OutputSettings.path_template output;
         TaskParam.filesize_limit := OutputSettings.filesize_limit output;
         TaskParam.duration_limit := OutputSettings.duration_limit output;
         TaskParam.user_agent := HeaderSettings.user_agent header;
         TaskParam.cookie := HeaderSettings.cookie header;
         TaskParam.danmu_uname := DanmakuSettings.danmu_uname danmaku;
         TaskParam.record_gift_send :=
           DanmakuSettings.record_gift_send danmaku;
         TaskParam.record_free_gifts :=
           DanmakuSettings.record_free_gifts danmaku;
         TaskParam.record_guard_buy :=
           DanmakuSettings.record_guard_buy danmaku;
         TaskParam.record_super_chat :=
           DanmakuSettings.record_super_chat danmaku;
         TaskParam.save_cover := RecorderSettings.save_cover recorder;
         TaskParam.cover_save_strategy :=
           RecorderSettings.cover_save_strategy recorder;
         TaskParam.save_raw_danmaku :=
           DanmakuSettings.save_raw_danmaku danmaku;
         TaskParam.stream_format := RecorderSettings.stream_format recorder;
         TaskParam.quality_number := RecorderSettings.quality_number recorder;
         TaskParam.fmp4_stream_timeout :=
           RecorderSettings.fmp4_stream_timeout recorder;
         TaskParam.read_timeout := RecorderSettings.read_timeout recorder;
         TaskParam.disconnection_timeout :=
           RecorderSettings.disconnection_timeout recorder;
         TaskParam.buffer_size := RecorderSettings.buffer_size recorder;
         TaskParam.remux_to_mp4 :=
           PostprocessingSettings.remux_to_mp4 postprocessing;
         TaskParam.inject_extra_metadata :=
           PostprocessingSettings.inject_extra_metadata postprocessing;
         TaskParam.delete_source :=
           PostprocessingSettings.delete_source postprocessing |}.
Proof.
  intros Hreg Hready.
  destruct (updates_header room_id task header st Hreg Hready)
    as (R1 & T1 & O1).
  rewrite (bind_returned _ _ _ _ R1).
  set (s1 := (apply_task_header_settings env room_id header false st).2) in *.
  assert (_tasks s1 !! room_id = Some task) as Hreg1 by (by rewrite T1).
  assert (RecordTask.ready (objects s1 task) = true) as Hready1
    by (by rewrite O1).
  destruct (updates_output room_id task output s1 Hreg1 Hready1)
    as (R2 & T2 & O2).
  rewrite (bind_returned _ _ _ _ R2).
  set (s2 := (apply_task_output_settings env room_id output s1).2) in *.
  assert (_tasks s2 !! room_id = Some task) as Hreg2 by (by rewrite T2).
  assert (RecordTask.ready (objects s2 task) = true) as Hready2
    by (by rewrite O2).
  destruct (updates_danmaku room_id task danmaku s2 Hreg2 Hready2)
    as (R3 & T3 & O3).
  rewrite (bind_returned _ _ _ _ R3).
  set (s3 := (apply_task_danmaku_settings env room_id danmaku s2).2) in *.
  assert (_tasks s3 !! room_id = Some task) as Hreg3 by (by rewrite T3).
  assert (RecordTask.ready (objects s3 task) = true) as Hready3
    by (by rewrite O3).
  destruct (updates_recorder room_id task recorder s3 Hreg3 Hready3)
    as (R4 & T4 & O4).
  rewrite (bind_returned _ _ _ _ R4).
  set (s4 := (apply_task_recorder_settings env room_id recorder s3).2) in *.
  assert (_tasks s4 !! room_id = Some task) as Hreg4 by (by rewrite T4).
  assert (RecordTask.ready (objects s4 task) = true) as Hready4
    by (by rewrite O4).
  destruct (updates_postprocessing room_id task postprocessing s4 Hreg4
              Hready4)
    as (R5 & T5 & O5).
  rewrite (bind_returned _ _ _ _ R5).
  set (s5 := (apply_task_postprocessing_settings env room_id postprocessing
                s4).2)
    in *.
  assert (_tasks s5 !! room_id = Some task) as Hreg5 by (by rewrite T5).
  assert (objects s5 task
          = RecordTask.set_postprocessing postprocessing
              (RecordTask.set_recorder recorder
                 (RecordTask.set_danmaku danmaku
                    (RecordTask.set_output output
                       (RecordTask.set_header header (objects st task))))))
    as Hobj by (by rewrite O5, O4, O3, O2, O1).
  assert (RecordTask.ready (objects s5 task) = true) as Hready5
    by (by rewrite Hobj).
  clearbody s5. unfold get_task_param, bind.
  rewrite (get_task_ready _ _ _ Hreg5 Hready5). unfold attrs, ret.
  cbn [fst]. by rewrite Hobj.
Qed.
End RoundTrip.

Lemma applied_settings_snapshot_witness :
  let env := Fixture.env_of Fixture.broken [] in
  _tasks Fixture.ready1 !! 1 = Some 0%nat
  ∧ RecordTask.ready (objects Fixture.ready1 0%nat) = true
  ∧ ((apply_task_header_settings env 1 Fixture.header1 false;;
      apply_task_output_settings env 1 Fixture.output1;;
      apply_task_danmaku_settings env 1 Fixture.danmaku0;;
      apply_task_recorder_settings env 1 Fixture.recorder0;;
      apply_task_postprocessing_settings env 1 Fixture.postprocessing0;;
      get_task_param 1) Fixture.ready1).1
    = Returned
        (@TaskParam.mk Fixture.models "/rec" "{roomid}/{title}" 1000 3600
           "Mozilla/5.0"
           "sid=1" false true true true true false tt false "flv" 20000 10 3
           (Some 600) 8192 true true tt).
Proof.
  intros env.
  assert (_tasks Fixture.ready1 !! 1 = Some 0%nat) as Hreg by reflexivity.
  assert (RecordTask.ready (objects Fixture.ready1 0%nat) = true) as Hready
    by reflexivity.
  split; [exact Hreg |]. split; [exact Hready |].
  exact (applied_settings_snapshot env 1 0%nat Fixture.ready1 Fixture.header1
           Fixture.output1 Fixture.danmaku0 Fixture.recorder0
           Fixture.postprocessing0 Hreg Hready).
Defined.

(** ** The bulk query and the per-room query *)

Section Queries.
Context `{TaskModels} (env : Env).

Lemma ready_items_spec room_id task st :
  (room_id, task) ∈ ready_items st
  ↔ _tasks st !! room_id = Some task
    ∧ RecordTask.ready (objects st task) = true.
Proof.
  unfold ready_items.
  rewrite list_elem_of_In, filter_In, <- list_elem_of_In, elem_of_map_to_list.
  done.
Qed.

(** X12.  [get_all_task_data] changes nothing and yields exactly the
    snapshots [get_task_data] returns for the rooms for which it returns:
    the jobs that are not ready are left out of the bulk query just as the
    per-room query refuses them. *)
Theorem get_all_task_data_agrees (st : Manager) :
  ∃ l, get_all_task_data st = (Returned l, st)
       ∧ ∀ d, d ∈ l ↔ ∃ room_id, get_task_data room_id st = (Returned d, st).
Proof.
  eexists. split; [reflexivity |]. intros d.
  rewrite list_elem_of_fmap. split.
  - intros ([room_id task] & -> & Hin).
    apply ready_items_spec in Hin as [Hreg Hready].
    exists room_id. unfold get_task_data, bind.
    by rewrite (get_task_ready _ _ _ Hreg Hready).
  - intros (room_id & Hget).
    unfold get_task_data, _get_task, bind, get, attrs, raise, ret in Hget.
    simpl in Hget.
    destruct (_tasks st !! room_id) as [task |] eqn:Hreg; [| done].
    destruct (RecordTask.ready (objects st task)) eqn:Hready; [| done].
    simpl in Hget. exists (room_id, task). split; [simpl; congruence |].
    by apply ready_items_spec.
Qed.
End Queries.

(** ** Rooms outside the settings list *)

Section BatchFrame.
Context `{TaskModels} (env : Env).

Lemma batch_other_rooms room l st st' :
  batch env l st st' ->
  Forall (fun settings => TaskSettings.room_id settings ≠ room) l ->
  _tasks st' !! room = _tasks st !! room
  ∧ (next_ref st <= next_ref st')%nat
  ∧ ∀ r, (r < next_ref st)%nat -> objects st' r = objects st r.
Proof.
  induction 1 as [st | settings l st st1 st' Hadd _ IH
                 | settings l st e st1 st' Hadd _ _ IH];
    intros Hall.
  { done. }
  all: apply Forall_cons in Hall as [Hne Hall].
  all: destruct (IH Hall) as (Hroom & Hnext & Hobj).
  all: destruct (add_task_frame env settings st)
         as (_ & Hnext1 & Hobj1 & _ & Hother & _).
  all: rewrite Hadd in Hnext1, Hobj1, Hother; simpl in *.
  all: split_and!; [by rewrite Hroom, Hother | lia |].
  all: intros r Hr; rewrite Hobj by lia; by apply Hobj1.
Qed.

Lemma interrupted_other_rooms room l st e st' :
  interrupted env l st e st' ->
  Forall (fun settings => TaskSettings.room_id settings ≠ room) l ->
  _tasks st' !! room = _tasks st !! room
  ∧ (next_ref st <= next_ref st')%nat
  ∧ ∀ r, (r < next_ref st)%nat -> objects st' r = objects st r.
Proof.
  induction 1 as [settings l st e st' Hadd _
                 | settings l st st1 e st' Hadd _ IH
                 | settings l st e0 st1 e st' Hadd _ _ IH];
    intros Hall.
  all: apply Forall_cons in Hall as [Hne Hall].
  all: destruct (add_task_frame env settings st)
         as (_ & Hnext1 & Hobj1 & _ & Hother & _).
  all: rewrite Hadd in Hnext1, Hobj1, Hother; simpl in *.
  { split_and!; [by rewrite Hother | lia | done]. }
  all: destruct (IH Hall) as (Hroom & Hnext & Hobj).
  all: simpl in *.
  all: split_and!; [by rewrite Hroom, Hother | lia |].
  all: intros r Hr; rewrite Hobj by lia; by apply Hobj1.
Qed.

(** X13.  [load_all_tasks] touches nothing but the rooms of the settings
    list: a room that no entry names is registered afterwards exactly if it
    was before, to the same handle, and the attributes of every handle that
    existed before are as they were. *)
Theorem load_all_tasks_other_rooms (room : Z) (st : Manager) :
  Forall (fun settings => TaskSettings.room_id settings ≠ room)
    (SettingsManager.settings_list (_settings_manager env)) ->
  let res := load_all_tasks env st in
  _tasks res.2 !! room = _tasks st !! room
  ∧ ∀ r, (r < next_ref st)%nat -> objects res.2 r = objects st r.
Proof.
  intros Hall res. subst res.
  destruct (load_all_tasks_batch env st)
    as [(st' & -> & Hbatch) | (e & st' & -> & _ & Hint)].
  - destruct (batch_other_rooms room _ _ _ Hbatch Hall) as (Hroom & _ & Hobj).
    split; [exact Hroom | exact Hobj].
  - destruct (interrupted_other_rooms room _ _ _ _ Hint Hall)
      as (Hroom & _ & Hobj).
    split; [exact Hroom | exact Hobj].
Qed.
End BatchFrame.

Lemma load_all_tasks_other_rooms_witness :
  let env :=
    Fixture.env_of Fixture.second_fails
      [Fixture.settings_for 2; Fixture.settings_for 3] in
  let res := load_all_tasks env Fixture.ready1 in
  Forall (fun settings => TaskSettings.room_id settings ≠ 1)
    (SettingsManager.settings_list (_settings_manager env))
  ∧ _tasks res.2 !! 1 = _tasks Fixture.ready1 !! 1
  ∧ ∀ r, (r < next_ref Fixture.ready1)%nat ->
         objects res.2 r = objects Fixture.ready1 r.
Proof.
  intros env res.
  assert (Forall (fun settings => TaskSettings.room_id settings ≠ 1)
            (SettingsManager.settings_list (_settings_manager env))) as Hall.
  { repeat constructor; by vm_compute. }
  split; [exact Hall |].
  exact (load_all_tasks_other_rooms env 1 Fixture.ready1 Hall).
Defined.

(** ** A header update that changes the identity *)

Section HeaderChange.
Context `{TaskModels} (env : Env).

(** X14.  When the bundle's user agent or cookie differs from the job's,
    [apply_task_header_settings] assigns both attributes and then, if
    [update_session] is set, calls the job's [update_session] once, on the
    handle that already carries the new identity; what that call raises is
    what the applier raises.  Without [update_session] it returns having
    made no call.  The registry is left as it was. *)
Theorem apply_header_changed (room_id : Z) (task : Ref)
    (settings : HeaderSettings.t) (update_session : bool) (st : Manager) :
  _tasks st !! room_id = Some task ->
  (RecordTask.user_agent (objects st task) ≠ HeaderSettings.user_agent settings
   ∨ RecordTask.cookie (objects st task) ≠ HeaderSettings.cookie settings) ->
  let res :=
    apply_task_header_settings env room_id settings update_session st in
  let written := RecordTask.set_header settings (objects st task) in
  let reply := job env (calls st) task Job.update_session written in
  _tasks res.2 = _tasks st
  ∧ if update_session then
      calls res.2 = calls st ++ [(task, Job.update_session)]
      ∧ objects res.2 task = Job.after reply
      ∧ res.1 = match Job.raised reply with
                | Some e => Raised e
                | None => Returned tt
                end
    else
      calls res.2 = calls st
      ∧ objects res.2 task = written
      ∧ res.1 = Returned tt.
Proof.
  intros Hreg Hdiff res written reply. subst res written reply.
  assert (bool_decide (RecordTask.user_agent (objects st task)
                       = HeaderSettings.user_agent settings)
          && bool_decide (RecordTask.cookie (objects st task)
                          = HeaderSettings.cookie settings) = false) as Hne.
  { apply andb_false_iff.
    destruct Hdiff; [left | right]; by apply bool_decide_eq_false. }
  destruct update_session.
  - assert (apply_task_header_settings env room_id settings true st
            = (await env task Job.update_session;; ret tt)
                (set_object task
                   (RecordTask.set_cookie (HeaderSettings.cookie settings)
                      (objects
                         (set_object task
                            (RecordTask.set_user_agent
                               (HeaderSettings.user_agent settings)
                               (objects st task)) st) task))
                   (set_object task
                      (RecordTask.set_user_agent
                         (HeaderSettings.user_agent settings)
                         (objects st task)) st))) as ->.
    { unfold apply_task_header_settings. unfold bind at 1.
      rewrite (get_task_present _ _ _ Hreg). unfold bind at 1, attrs at 1.
      by rewrite Hne. }
    unfold bind, await, ret. simpl.
    rewrite !decide_True by done. rewrite set_cookie_user_agent.
    destruct (Job.raised _); simpl; by rewrite decide_True.
  - rewrite (apply_header_no_refresh _ _ _ _ _ Hreg), Hne. simpl.
    by rewrite !decide_True, set_cookie_user_agent.
Qed.
End HeaderChange.

Lemma apply_header_changed_witness :
  let env := Fixture.env_of Fixture.broken [] in
  let res := apply_task_header_settings env 1 Fixture.header1 true Fixture.unready1 in
  _tasks Fixture.unready1 !! 1 = Some 0%nat
  ∧ (RecordTask.user_agent (objects Fixture.unready1 0%nat)
     ≠ HeaderSettings.user_agent Fixture.header1
     ∨ RecordTask.cookie (objects Fixture.unready1 0%nat)
       ≠ HeaderSettings.cookie Fixture.header1)
  ∧ _tasks res.2 = _tasks Fixture.unready1
  ∧ calls res.2 = [(0%nat, Job.update_session)]
  ∧ res.1 = Raised (mkExn (OtherError "JobError") "").
Proof.
  intros env res.
  assert (_tasks Fixture.unready1 !! 1 = Some 0%nat) as Hreg by reflexivity.
  assert (RecordTask.user_agent (objects Fixture.unready1 0%nat)
          ≠ HeaderSettings.user_agent Fixture.header1
          ∨ RecordTask.cookie (objects Fixture.unready1 0%nat)
            ≠ HeaderSettings.cookie Fixture.header1) as Hdiff
    by (left; by vm_compute).
  split; [exact Hreg |]. split; [exact Hdiff |].
  destruct (apply_header_changed env 1 0%nat Fixture.header1 true
              Fixture.unready1 Hreg Hdiff) as (Htasks & Hcalls & _ & Hres).
  split; [exact Htasks |]. split; [exact Hcalls | exact Hres].
Defined.

(** ** Operations on one room and the other rooms *)

Section GatedFrame.
Context `{TaskModels} (env : Env).

Ltac acts_steps :=
  repeat first
    [ by apply acts_ret
    | apply (acts_await env)
    | eapply acts_bind;
      [ first [apply (acts_await env) | apply acts_attrs] | intros ? ? ] ].

Lemma acts_gated (op : Gated) room_id task :
  op ≠ RemoveTask ->
  acts room_id task (gated env op room_id) (fun _ => True).
Proof.
  intros Hop. destruct op; [done | ..]; simpl.
  all: unfold start_task, stop_task, enable_task_monitor,
    disable_task_monitor, enable_task_recorder, disable_task_recorder,
    update_task_info, get_task_data, get_task_param, get_task_metadata,
    get_task_stream_profile, get_task_video_file_details,
    get_task_danmaku_file_details, can_cut_stream, cut_stream.
  all: eapply acts_bind; [apply acts_get_task | intros ? ->].
  all: acts_steps.
Qed.

Lemma remove_task_footprint room_id task st :
  _tasks st !! room_id = Some task ->
  let res := remove_task env room_id st in
  (∀ r, r ≠ task -> objects res.2 r = objects st r)
  ∧ ∃ l, calls res.2 = calls st ++ l
         ∧ Forall (fun ev : Event => ev.1 = task) l.
Proof.
  intros Hreg res. subst res.
  unfold remove_task, _get_task, bind, get, attrs, await, del_task, raise, ret.
  simpl. rewrite Hreg.
  destruct (RecordTask.ready (objects st task)); simpl.
  2: { split; [done |]. exists []. by rewrite app_nil_r. }
  repeat match goal with
         | |- context [Job.raised ?r] => destruct (Job.raised r); simpl
         end.
  all: rewrite ?Hreg; simpl.
  all: split; [intros r Hr; by rewrite ?decide_False |].
  all: rewrite <- ?app_assoc; eexists; split; [reflexivity |].
  all: by repeat constructor.
Qed.
(** X15.  A readiness-gated operation on one room leaves the other rooms
    alone: another room stays registered to its handle, the attributes of
    that handle are unchanged, and every job-level call made is a call on
    the handle of the room operated on.  This holds for all sixteen
    operations, whether they return or raise. *)
Theorem gated_isolated (op : Gated) (room_id other : Z) (task task' : Ref)
    (st : Manager) :
  _tasks st !! room_id = Some task ->
  _tasks st !! other = Some task' ->
  other ≠ room_id ->
  task' ≠ task ->
  let res := gated env op room_id st in
  _tasks res.2 !! other = Some task'
  ∧ objects res.2 task' = objects st task'
  ∧ ∃ l, calls res.2 = calls st ++ l
         ∧ Forall (fun ev : Event => ev.1 = task) l.
Proof.
  intros Hreg Hother Hrooms Htasks res. subst res.
  assert (op = RemoveTask ∨ op ≠ RemoveTask) as [-> | Hop]
    by (destruct op; auto).
  - simpl.
    pose proof (remove_task_other_room env room_id other st Hrooms)
      as Hsame.
    destruct (remove_task_footprint room_id task st Hreg) as [Hobj Hcalls].
    split_and!; [by rewrite Hsame | by apply Hobj | exact Hcalls].
  - destruct (acts_gated op room_id task Hop st Hreg) as [Hon _].
    destruct Hon as (Ht & _ & _ & _ & _ & Hobj & Hcalls).
    split_and!; [by rewrite Ht | by apply Hobj | exact Hcalls].
Qed.
End GatedFrame.

Lemma gated_isolated_witness :
  let env := Fixture.env_of Fixture.steady [] in
  let res := gated env RemoveTask 1 Fixture.mixed in
  (_tasks Fixture.mixed !! 1 = Some 0%nat
   ∧ _tasks Fixture.mixed !! 2 = Some 1%nat
   ∧ 2 ≠ 1
   ∧ 1%nat ≠ 0%nat)
  ∧ _tasks res.2 !! 2 = Some 1%nat
  ∧ objects res.2 1%nat = objects Fixture.mixed 1%nat
  ∧ ∃ l, calls res.2 = calls Fixture.mixed ++ l
         ∧ Forall (fun ev : Event => ev.1 = 0%nat) l.
Proof.
  intros env res.
  assert (_tasks Fixture.mixed !! 1 = Some 0%nat) as Hreg by (by vm_compute).
  assert (_tasks Fixture.mixed !! 2 = Some 1%nat) as Hother by (by vm_compute).
  assert (2 ≠ 1) as Hrooms by lia.
  assert (1%nat ≠ 0%nat) as Htasks by lia.
  split; [exact (conj Hreg (conj Hother (conj Hrooms Htasks))) |].
  exact (gated_isolated env RemoveTask 1 2 0%nat 1%nat Fixture.mixed
           Hreg Hother Hrooms Htasks).
Defined.

(** ** The number of attempts *)

Section Attempts.
Context `{TaskModels} (env : Env).

Lemma attempts_app l1 l2 : attempts (l1 ++ l2) = (attempts l1 + attempts l2)%nat.
Proof. unfold attempts. by rewrite List.filter_app, length_app. Qed.

Lemma add_task_attempt_logs settings st :
  ∃ l, logs (add_task_attempt env settings st).2
       = logs st ++ (INFO, AddingTask (TaskSettings.room_id settings)) :: l
       ∧ attempts l = 0%nat.
Proof.
  unfold add_task_attempt, bind, logger, new_RecordTask, modify, try_except.
  simpl. set (room_id := TaskSettings.room_id settings).
  set (task := next_ref st).
  match goal with
  | |- context [add_task_steps env settings task ?s] => set (st0 := s)
  end.
  assert (_tasks st0 !! room_id = Some task) as Hreg.
  { subst st0. simpl. by rewrite lookup_insert_eq. }
  destruct (acts_add_task_steps env settings task st0 Hreg) as [Hon Hres].
  destruct Hon as (Ht & _ & Hl & _).
  destruct (add_task_steps env settings task st0) as [[[] | e |] st'];
    simpl in *; [| | done].
  - exists [(INFO, AddedTask room_id)]. split; [| done].
    rewrite Hl. subst st0. simpl. by rewrite <- app_assoc.
  - destruct (is_Exception e).
    + unfold del_task. simpl. rewrite Ht, Hreg. simpl.
      exists [(ERROR, FailedToAddTask room_id e)]. split; [| done].
      rewrite Hl. subst st0. simpl. by rewrite <- app_assoc.
    + exists []. split; [| done]. simpl. rewrite Hl. by subst st0.
Qed.

Lemma waited_before_late k : (65000 <= waited_before (10 + k))%N.
Proof.
  induction k as [| k IH]; [by vm_compute |].
  replace (10 + S k)%nat with (S (S (9 + k))) by lia.
  change (waited_before (S (S (9 + k))))
    with (waited_before (S (9 + k))
          + N.min (2 ^ N.of_nat (S (9 + k) - 1) * 1000) (10 * 1000))%N.
  change (S (9 + k)) with (10 + k)%nat. lia.
Qed.

Lemma policy_run_attempts settings start n st res :
  policy_run env settings start n st res ->
  (1 <= n <= 10)%nat ->
  (start + waited_before n <= clock st)%N ->
  ∃ l, logs res.2 = logs st ++ l
       ∧ (1 <= attempts l)%nat
       ∧ (n + attempts l <= 11)%nat.
Proof.
  induction 1 as [n st st1 Hrun | n st e0 st1 Hrun _ | n st e0 st1 Hrun _ _
                 | n st e0 st1 res Hrun _ Hearly _ IH];
    intros Hn Hclock.
  all: destruct (add_task_attempt_logs settings st) as (l0 & Hlogs & Hl0).
  all: rewrite Hrun in Hlogs; simpl in Hlogs.
  1-3: eexists; split; [exact Hlogs |];
    change ((INFO, AddingTask (TaskSettings.room_id settings)) :: l0)
      with ([(INFO, AddingTask (TaskSettings.room_id settings))] ++ l0);
    rewrite attempts_app, Hl0; unfold attempts; simpl; lia.
  pose proof (add_task_attempt_clock env settings st) as Hmono.
  rewrite Hrun in Hmono. simpl in Hmono.
  assert (n <= 9)%nat as Hn9.
  { destruct (decide (n = 10%nat)) as [-> | Hne]; [| lia].
    pose proof (waited_before_late 0) as Hlate. simpl (10 + 0)%nat in Hlate.
    lia. }
  destruct IH as (l & Hlogs' & Hone & Hbound).
  { lia. }
  { destruct n as [| n]; [lia |].
    change (waited_before (S (S n)))
      with (waited_before (S n)
            + N.min (2 ^ N.of_nat (S n - 1) * 1000) (10 * 1000))%N.
    change (clock (waited (S n) st1))
      with (clock st1 + N.min (2 ^ N.of_nat (S n - 1) * 1000) (10 * 1000))%N.
    lia. }
  exists (([(INFO, AddingTask (TaskSettings.room_id settings))] ++ l0) ++ l).
  split.
  - rewrite Hlogs'. change (logs (waited n st1)) with (logs st1).
    by rewrite Hlogs, <- app_assoc.
  - rewrite !attempts_app, Hl0. unfold attempts at 1 3. simpl. lia.
Qed.

(** X10.  [add_task] makes at least one and at most ten attempts: the
    waits of 1, 2, 4, 8, 10, 10, ... seconds between attempts add up to 65
    seconds before an eleventh attempt, more than the 60 seconds after
    which the policy stops.  Each attempt is one 'Adding task' record of
    the logger. *)
Theorem add_task_attempts_bounded (settings : TaskSettings.t) (st : Manager) :
  ∃ l, logs (add_task env settings st).2 = logs st ++ l
       ∧ (1 <= attempts l <= 10)%nat.
Proof.
  destruct (policy_run_attempts settings (clock st) 1 st _
              (add_task_policy_run env settings st))
    as (l & Hlogs & Hone & Hbound); [lia | simpl; lia |].
  exists l. split; [exact Hlogs | lia].
Qed.
End Attempts.

(** The bound is reached: when every attempt fails at once, ten attempts
    are made and the error is raised 65 seconds after the call began. *)
Example add_task_ten_attempts :
  let res := add_task (Fixture.env_of Fixture.refused [])
               (Fixture.settings_for 100) Fixture.empty in
  res.1 = Raised (mkExn ClientError "refused")
  ∧ attempts (logs res.2) = 10%nat
  ∧ clock res.2 = 65000%N.
Proof. split_and!; by vm_compute. Qed.
